(** * Community Card Balance Checker: a shallow embedding

    The development follows the scripts of the web application: the
    configuration script with [CONFIG] and its helpers (module [Config]),
    the classes [BarcodeScanner] and [ScannerManager] (modules [Scanner]
    and [Manager]) and the controller class [CommunityCardApp] (module
    [App]).  JavaScript is embedded as follows.

    - A string is the list of its UTF-16 code units ([jsstring]); this is
      what [length], [substring], [trim] and a regular expression without
      the [u] flag operate on.
    - A number is an IEEE 754 binary64 value, [spec_float] of the standard
      library with [prec = 53] and [emax = 1024].
    - Object state ([this.x = ...], DOM properties) is threaded explicitly
      through records.
    - An [async] function is cut at its [await]: the part before it returns
      the request that is issued, the part after it is a function of the
      outcome and of the state found when the promise settles.
    - A call of a callback that ends a method is returned to the caller as
      a value, the callee with its arguments.
    - Console output ([debugLog], [console.error]) is not part of the
      modelled state. *)

From Stdlib Require Import ZArith NArith List String Ascii Bool Lia.
From Stdlib Require Import SpecFloat.
From stdpp Require Import base decidable option list gmap.

Local Open Scope Z_scope.

(** ** JavaScript strings *)

Module JS.

Abbreviation jsstring := (list N).

(** Code units of a source literal: the literal is read as UTF-8 and
    re-encoded; only the one-, two- and three-byte forms occur here. *)
Fixpoint utf16_of_utf8 (bs : list N) : list N :=
  match bs with
  | [] => []
  | b0 :: r0 =>
      if (b0 <? 128)%N then b0 :: utf16_of_utf8 r0
      else if (b0 <? 224)%N then
        match r0 with
        | b1 :: r1 => ((b0 mod 32) * 64 + b1 mod 64)%N :: utf16_of_utf8 r1
        | [] => [b0]
        end
      else
        match r0 with
        | b1 :: b2 :: r2 =>
            ((b0 mod 16) * 4096 + (b1 mod 64) * 64 + b2 mod 64)%N
              :: utf16_of_utf8 r2
        | _ => b0 :: r0
        end
  end.

Definition str (s : string) : jsstring :=
  utf16_of_utf8 (map (fun b => N.of_nat (nat_of_ascii b)) (list_ascii_of_string s)).

(** [/[0-9]/] and its complement [/\D/] on one code unit. *)
Definition is_digit (c : N) : bool := (48 <=? c)%N && (c <=? 57)%N.
Definition is_non_digit (c : N) : bool := negb (is_digit c).

(** WhiteSpace and LineTerminator code units, the ones [trim] removes. *)
Definition is_white_space (c : N) : bool :=
  existsb (N.eqb c)
    [9; 10; 11; 12; 13; 32; 160; 5760; 8232; 8233; 8239; 8287; 12288; 65279]%N
  || ((8192 <=? c)%N && (c <=? 8202)%N).

Fixpoint trim_start (s : jsstring) : jsstring :=
  match s with
  | c :: s' => if is_white_space c then trim_start s' else s
  | [] => []
  end.

Definition trim_end (s : jsstring) : jsstring := rev (trim_start (rev s)).

(** [String.prototype.trim] *)
Definition trim (s : jsstring) : jsstring := trim_end (trim_start s).

(** [String.prototype.substring(0, n)] for [0 <= n]. *)
Definition substring0 (n : nat) (s : jsstring) : jsstring := firstn n s.

(** ** Regular expressions

    The fragment of the pattern language the two literals of the program
    use: a character class, sequencing, the bounded quantifier [{n}] and the
    assertions [^] and [$] (no [m] flag, so they hold at the two ends of the
    input only).  [rmatch] is the backtracking matcher in continuation
    style: [bol] tells whether the current position is index 0. *)

Inductive regex :=
| RClass (c : N -> bool)
| RSeq (r1 r2 : regex)
| RCount (r : regex) (n : nat)
| RBol
| REol.

Section Matcher.
Context {A : Type}.

Fixpoint rmatch (r : regex) (k : bool -> jsstring -> option A)
    (bol : bool) (s : jsstring) : option A :=
  match r with
  | RClass c =>
      match s with
      | x :: s' => if c x then k false s' else None
      | [] => None
      end
  | RSeq r1 r2 => rmatch r1 (fun b s' => rmatch r2 k b s') bol s
  | RCount r1 n => Nat.iter n (fun kk b s' => rmatch r1 kk b s') k bol s
  | RBol => if bol then k bol s else None
  | REol => match s with [] => k bol s | _ :: _ => None end
  end.

End Matcher.

(** One attempt at the current position: the input left after the match. *)
Definition match_here (r : regex) (bol : bool) (s : jsstring) : option jsstring :=
  rmatch r (fun _ rest => Some rest) bol s.

(** [RegExp.prototype.test] without [g] or [y]: the search starts at index 0
    and moves right until an attempt succeeds. *)
Fixpoint search (r : regex) (bol : bool) (s : jsstring) : bool :=
  match match_here r bol s with
  | Some _ => true
  | None => match s with [] => false | _ :: s' => search r false s' end
  end.

Definition test (r : regex) (s : jsstring) : bool := search r true s.

(** [String.prototype.replace(r, '')] with the [g] flag: every match is
    removed, scanning left to right; after an empty match the scan moves on
    by one code unit. *)
Fixpoint replace_loop (fuel : nat) (r : regex) (bol : bool) (s : jsstring) : jsstring :=
  match fuel with
  | O => s
  | S fuel' =>
      let keep_one :=
        match s with
        | [] => []
        | x :: s' => x :: replace_loop fuel' r false s'
        end in
      match match_here r bol s with
      | Some rest =>
          if (length rest <? length s)%nat
          then replace_loop fuel' r false rest
          else keep_one
      | None => keep_one
      end
  end.

Definition replace_all_empty (r : regex) (s : jsstring) : jsstring :=
  replace_loop (S (length s)) r true s.

(** ** Numbers

    A number is a binary64 value.  An integer literal denotes the nearest
    one ([of_int]), [/] is IEEE division with rounding to nearest, ties to
    even ([div]); both are the standard library's executable
    specification. *)

Definition number := spec_float.

Definition of_int (z : Z) : number := binary_normalize 53 1024 z 0 false.

Definition div (x y : number) : number := SFdiv 53 1024 x y.

(** The digits of the decimal representation of [n >= 0], most significant
    first, with no leading zero (one digit 0 for zero); [digit_of n] is the
    code unit of the last digit. *)
Definition digit_of (n : Z) : N := Z.to_N (48 + n mod 10).

Fixpoint digits_loop (fuel : nat) (n : Z) (acc : jsstring) : jsstring :=
  match fuel with
  | O => acc
  | S fuel' =>
      let acc' := digit_of n :: acc in
      if n <? 10 then acc' else digits_loop fuel' (n / 10) acc'
  end.

Definition decimal_digits (n : Z) : jsstring :=
  digits_loop (S (Z.to_nat (Z.log2 n))) n [].

(** [Number.prototype.toFixed(f)], steps 6 to 12 of the language
    definition, for [0 <= f <= 100].  [NumberToString] stands for
    [Number::toString] on a finite value of magnitude at least [10^21]
    (exponent notation, step 10), the one part this development leaves
    abstract. *)
Section ToFixed.
Variable NumberToString : number -> jsstring.

(** Step 11a for [x = m * 2^e > 0]: the integer [n] with [n / 10^f - x]
    closest to zero, the larger one of two. *)
Definition nearest_scaled (f : nat) (m : positive) (e : Z) : Z :=
  let p := 10 ^ Z.of_nat f in
  if 0 <=? e then Z.pos m * 2 ^ e * p
  else (2 * Z.pos m * p + 2 ^ (- e)) / 2 ^ (1 - e).

(** Step 10: [x >= 10^21] for [x = m * 2^e]. *)
Definition at_least_1e21 (m : positive) (e : Z) : bool :=
  if 0 <=? e then 10 ^ 21 <=? Z.pos m * 2 ^ e
  else 10 ^ 21 * 2 ^ (- e) <=? Z.pos m.

(** Steps 11b and 11c. *)
Definition fixed_digits (f : nat) (n : Z) : jsstring :=
  let m := decimal_digits n in
  match f with
  | O => m
  | S _ =>
      let k := length m in
      let m := if (k <=? f)%nat then repeat 48%N (f + 1 - k) ++ m else m in
      let k := length m in
      firstn (k - f) m ++ str "." ++ skipn (k - f) m
  end.

Definition toFixed (f : nat) (x : number) : jsstring :=
  match x with
  | S754_nan => str "NaN"
  | S754_infinity false => str "Infinity"
  | S754_infinity true => str "-Infinity"
  | S754_zero _ => fixed_digits f 0
  | S754_finite sign m e =>
      (if sign then str "-" else []) ++
      (if at_least_1e21 m e then NumberToString (S754_finite false m e)
       else fixed_digits f (nearest_scaled f m e))
  end.

End ToFixed.

(** ** Values, errors and host-defined behaviour *)

Fixpoint jsstring_eqb (a b : jsstring) : bool :=
  match a, b with
  | [], [] => true
  | x :: a', y :: b' => (x =? y)%N && jsstring_eqb a' b'
  | _, _ => false
  end.

(** An [Error] object, as far as the program looks at it. *)
Record error := { error_name : jsstring; message : jsstring }.

(** The completion of a call: a normal return or a thrown error. *)
Inductive completion (A : Type) :=
| Return (a : A)
| Throw (e : error).
Arguments Return {A} a.
Arguments Throw {A} e.

(** The values a parsed response is made of, plus [undefined]; an object is
    the list of its own properties in insertion order, each name once. *)
#[local] Set Warnings "-register-all".
Inductive value :=
| Undefined
| JNull
| JBool (b : bool)
| JNum (x : number)
| JStr (s : jsstring)
| JArr (items : list value)
| JObj (fields : list (jsstring * value)).

Fixpoint assoc (key : jsstring) (fields : list (jsstring * value)) : option value :=
  match fields with
  | [] => None
  | (k, v) :: rest => if jsstring_eqb k key then Some v else assoc key rest
  end.

(** What the language leaves to the engine or what this development does
    not spell out: [Number::toString] in exponent notation, [ToNumber] and
    [ToString] on strings, arrays and objects, and the text of the
    [TypeError] raised by a property read on [undefined] or [null]. *)
Record host := {
  number_to_string : number -> jsstring;
  to_number_other : value -> number;
  to_string_other : value -> jsstring;
  type_error_message : value -> jsstring -> jsstring
}.

(** [v.key] for a name that no built-in prototype defines, which holds for
    every name the program reads from a response. *)
Definition get_property (H : host) (v : value) (key : jsstring) : completion value :=
  match v with
  | Undefined | JNull =>
      Throw {| error_name := str "TypeError";
               message := type_error_message H v key |}
  | JObj fields =>
      Return (match assoc key fields with Some x => x | None => Undefined end)
  | JBool _ | JNum _ | JStr _ | JArr _ => Return Undefined
  end.

(** [ToBoolean] *)
Definition truthy (v : value) : bool :=
  match v with
  | Undefined | JNull => false
  | JBool b => b
  | JNum (S754_zero _) | JNum S754_nan => false
  | JNum _ => true
  | JStr s => match s with [] => false | _ :: _ => true end
  | JArr _ | JObj _ => true
  end.

(** [ToNumber] *)
Definition ToNumber (H : host) (v : value) : number :=
  match v with
  | Undefined => S754_nan
  | JNull => S754_zero false
  | JBool b => if b then of_int 1 else S754_zero false
  | JNum x => x
  | JStr _ | JArr _ | JObj _ => to_number_other H v
  end.

(** [ToString] *)
Definition ToString (H : host) (v : value) : jsstring :=
  match v with
  | Undefined => str "undefined"
  | JNull => str "null"
  | JBool b => if b then str "true" else str "false"
  | JStr s => s
  | JNum _ | JArr _ | JObj _ => to_string_other H v
  end.

(** [QuoteJSONString], the way [JSON.stringify] writes a string. *)
Definition hex_digit (n : N) : N := if (n <? 10)%N then (48 + n)%N else (87 + n)%N.

Definition unicode_escape (c : N) : jsstring :=
  [92; 117; hex_digit (c / 4096); hex_digit ((c / 256) mod 16);
   hex_digit ((c / 16) mod 16); hex_digit (c mod 16)]%N.

Definition is_high_surrogate (c : N) : bool := (55296 <=? c)%N && (c <=? 56319)%N.
Definition is_low_surrogate (c : N) : bool := (56320 <=? c)%N && (c <=? 57343)%N.

Fixpoint quote_units (s : jsstring) : jsstring :=
  match s with
  | [] => []
  | c :: rest =>
      if (c =? 8)%N then [92; 98]%N ++ quote_units rest
      else if (c =? 9)%N then [92; 116]%N ++ quote_units rest
      else if (c =? 10)%N then [92; 110]%N ++ quote_units rest
      else if (c =? 12)%N then [92; 102]%N ++ quote_units rest
      else if (c =? 13)%N then [92; 114]%N ++ quote_units rest
      else if (c =? 34)%N then [92; 34]%N ++ quote_units rest
      else if (c =? 92)%N then [92; 92]%N ++ quote_units rest
      else if (c <? 32)%N then unicode_escape c ++ quote_units rest
      else if is_high_surrogate c then
        match rest with
        | c' :: rest' =>
            if is_low_surrogate c' then c :: c' :: quote_units rest'
            else unicode_escape c ++ quote_units rest
        | [] => unicode_escape c
        end
      else if is_low_surrogate c then unicode_escape c ++ quote_units rest
      else c :: quote_units rest
  end.

Definition JSON_quote (s : jsstring) : jsstring := [34%N] ++ quote_units s ++ [34%N].


End JS.

(** ** The configuration script *)

Module Config.
Import JS.

(** [BARCODE_LENGTH: 16] *)
Definition BARCODE_LENGTH : nat := 16.

(** [BARCODE_PATTERN: /^[0-9]{16}$/] *)
Definition BARCODE_PATTERN : regex :=
  RSeq RBol (RSeq (RCount (RClass is_digit) 16) REol).

(** [SCANNER_TIMEOUT: 30000] *)
Definition SCANNER_TIMEOUT : Z := 30000.

(** A read [table[key]] of a table written as an object literal finds an
    own property of that name or, failing that, the member of
    [Object.prototype] of that name: a function, or the prototype object
    for [__proto__].  [Object_prototype] lists the names the language
    defines there (Annex B included). *)
Definition Object_prototype : list jsstring :=
  [str "constructor"; str "hasOwnProperty"; str "isPrototypeOf";
   str "propertyIsEnumerable"; str "toLocaleString"; str "toString";
   str "valueOf"; str "__proto__"; str "__defineGetter__";
   str "__defineSetter__"; str "__lookupGetter__"; str "__lookupSetter__"].

Inductive entry (A : Type) :=
| Plain (a : A)
| Builtin (name : jsstring).
Arguments Plain {A} a.
Arguments Builtin {A} name.

(** [table[key]]; [None] is [undefined]. *)
Definition read {A : Type} (table : gmap jsstring A) (key : jsstring)
    : option (entry A) :=
  match table !! key with
  | Some a => Some (Plain a)
  | None =>
      if existsb (jsstring_eqb key) Object_prototype then Some (Builtin key)
      else None
  end.

(** The [CONFIG] object, as far as the environment helpers read it: the
    table [ENV_NAMES] of labels and the key [CURRENT_ENV], each of them
    [None] when the object has no such property.  A table holds its own
    string-valued properties. *)
Record config := {
  ENV_NAMES : option (gmap jsstring jsstring);
  CURRENT_ENV : option jsstring
}.

(** [const CONFIG = { SETTINGS: { ... } }]: the literal of the file has the
    one property [SETTINGS], whose entries are the constants above and
    below; it has neither [ENV_NAMES] nor [CURRENT_ENV]. *)
Definition CONFIG : config := {| ENV_NAMES := None; CURRENT_ENV := None |}.

(** [ToPropertyKey] of [CONFIG.CURRENT_ENV] *)
Definition environment_key (cfg : config) : jsstring :=
  match CURRENT_ENV cfg with
  | Some k => k
  | None => str "undefined"
  end.

(** [function getCurrentEnvironmentName()], on a given [CONFIG]:
    [CONFIG.ENV_NAMES[CONFIG.CURRENT_ENV] || 'Unknown']. *)
Definition getCurrentEnvironmentName (H : host) (cfg : config)
    : completion (entry jsstring) :=
  match ENV_NAMES cfg with
  | None =>
      Throw {| error_name := str "TypeError";
               message := type_error_message H Undefined (environment_key cfg) |}
  | Some names =>
      match read names (environment_key cfg) with
      | Some (Plain (c :: label)) => Return (Plain (c :: label))
      | Some (Builtin name) => Return (Builtin name)
      | Some (Plain []) | None => Return (Plain (str "Unknown"))
      end
  end.

(** "Exactly 16 decimal digits and nothing else", the property of a
    string that the statements below relate [isValidBarcode] to. *)
Definition sixteen_digits (s : jsstring) : Prop :=
  length s = 16%nat /\ Forall (fun c => (48 <= c <= 57)%N) s.

(** [function isValidBarcode(barcode)] *)
Definition isValidBarcode (barcode : jsstring) : bool :=
  test BARCODE_PATTERN barcode.

(** [CURRENCY_SYMBOL: '€'] *)
Definition CURRENCY_SYMBOL : jsstring := str "€".

(** [function formatCurrency(amountInCents)] *)
Definition formatCurrency (NumberToString : number -> jsstring)
    (amountInCents : number) : jsstring :=
  let amount := div amountInCents (of_int 100) in
  CURRENCY_SYMBOL ++ toFixed NumberToString 2 amount.

(** The reading of "the amount divided by 100, with exactly two decimal
    places" that the statements below compare [formatCurrency] with: the
    sign, the integer part of [|a| / 100], a dot and the two digits of
    [|a| mod 100]. *)
Definition two_decimals (a : Z) : jsstring :=
  (if a <? 0 then str "-" else []) ++
  decimal_digits (Z.abs a / 100) ++ str "." ++
  [digit_of (Z.abs a / 10); digit_of (Z.abs a)].

End Config.

(** ** The scanner: class BarcodeScanner *)

Module Scanner.
Import JS.

(** The function values the program installs as callbacks:
    [ScannerManager.handleScanResult] and [handleScanError] (bound), and the
    arrow function that [handleScanButtonClick] hands to the manager. *)
Inductive callback :=
| Manager_handleScanResult
| Manager_handleScanError
| App_scanComplete.

(** The decoding engine (the global [Quagga], an external library) as the
    scanner sees it: whether the decoder runs, how many handlers are
    subscribed to its detection event, and what its next calls of
    [Quagga.stop()] will do, in order: throw the given error, or return
    ([None], and every call once the list is used up).  A call that
    returns halts the decoder; a call that throws leaves it as it was.
    [Quagga.offDetected()] without an argument drops every
    subscription. *)
Record quagga := {
  started : bool;
  detected_handlers : nat;
  stop_errors : list (option error)
}.

Definition Quagga_stop (q : quagga) : quagga * completion unit :=
  match stop_errors q with
  | Some e :: later =>
      ({| started := started q; detected_handlers := detected_handlers q;
          stop_errors := later |}, Throw e)
  | None :: later =>
      ({| started := false; detected_handlers := detected_handlers q;
          stop_errors := later |}, Return tt)
  | [] =>
      ({| started := false; detected_handlers := detected_handlers q;
          stop_errors := [] |}, Return tt)
  end.

Definition Quagga_offDetected (q : quagga) : quagga :=
  {| started := started q; detected_handlers := O; stop_errors := stop_errors q |}.

(** Whether the next call of [Quagga.stop()] throws. *)
Definition stop_throws (q : quagga) : bool :=
  match stop_errors q with
  | Some _ :: _ => true
  | _ => false
  end.

(** The fields of a [BarcodeScanner] ([currentStream] is never assigned
    after the constructor and is left out), with the engine it drives. *)
Record scanner := {
  isScanning : bool;
  scannerInitialized : bool;
  flashEnabled : bool;
  onScanResult : option callback;
  onScanError : option callback;
  Quagga : quagga
}.

(** [stop()]: when [Quagga.stop()] throws, the [catch] logs the error and
    the flag stays as it is. *)
Definition stop (s : scanner) : scanner :=
  let s1 :=
    if isScanning s then
      match Quagga_stop (Quagga s) with
      | (q, Return _) =>
          {| isScanning := false;
             scannerInitialized := scannerInitialized s;
             flashEnabled := flashEnabled s;
             onScanResult := onScanResult s;
             onScanError := onScanError s;
             Quagga := q |}
      | (q, Throw _) =>
          {| isScanning := isScanning s;
             scannerInitialized := scannerInitialized s;
             flashEnabled := flashEnabled s;
             onScanResult := onScanResult s;
             onScanError := onScanError s;
             Quagga := q |}
      end
    else s in
  {| isScanning := isScanning s1;
     scannerInitialized := false;
     flashEnabled := flashEnabled s1;
     onScanResult := onScanResult s1;
     onScanError := onScanError s1;
     Quagga := Quagga_offDetected (Quagga s1) |}.

(** Whether [stop()] leaves the scanner scanning: it was scanning and the
    engine's [stop()] throws. *)
Definition stop_fails (s : scanner) : bool :=
  isScanning s && stop_throws (Quagga s).

(** [handleDetection(result)], with [code = result.codeResult.code]: the
    new state and, when [this.onScanResult?.(code)] makes a call, the
    callee with its argument. *)
Definition handleDetection (s : scanner) (code : jsstring)
    : scanner * option (callback * jsstring) :=
  if negb (isScanning s) then (s, None)
  else if Config.isValidBarcode code then
    let s' := stop s in
    (s', match onScanResult s' with
         | Some f => Some (f, code)
         | None => None
         end)
  else (s, None).


End Scanner.

(** ** The scanner manager: class ScannerManager *)

Module Manager.
Import JS.

(** The fields the closing path touches: the scanner, the modal element
    ([None] when [getElementById] found none, else whether its class list
    holds [hidden]), the completion callback and the handle of the scan
    timeout; [timeouts] are the handles of the timeouts still pending in
    the browser. *)
Record manager := {
  scanner : Scanner.scanner;
  modal : option bool;
  onScanComplete : option Scanner.callback;
  scanTimeout : option positive;
  timeouts : list positive
}.

(** [clearTimeout(t)] *)
Definition clearTimeout (t : positive) (pending : list positive) : list positive :=
  List.filter (fun t' => negb (Pos.eqb t' t)) pending.

(** [closeScannerModal()] *)
Definition closeScannerModal (m : manager) : manager :=
  {| scanner := Scanner.stop (scanner m);
     modal := match modal m with Some _ => Some true | None => None end;
     onScanComplete := onScanComplete m;
     scanTimeout := None;
     timeouts := match scanTimeout m with
                 | Some t => clearTimeout t (timeouts m)
                 | None => timeouts m
                 end |}.

(** A call [this.onScanComplete?.(barcode, error)]. *)
Record completion_call := {
  callee : Scanner.callback;
  barcode_arg : option jsstring;
  error_arg : option jsstring
}.

(** [handleScanResult(barcode)] *)
Definition handleScanResult (barcode : jsstring) (m : manager)
    : manager * option completion_call :=
  let m' := closeScannerModal m in
  (m', match onScanComplete m' with
       | Some f => Some {| callee := f; barcode_arg := Some barcode; error_arg := None |}
       | None => None
       end).

(** [handleScanError(error)] *)
Definition handleScanError (error : jsstring) (m : manager)
    : manager * option completion_call :=
  let m' := closeScannerModal m in
  (m', match onScanComplete m' with
       | Some f => Some {| callee := f; barcode_arg := None; error_arg := Some error |}
       | None => None
       end).



(** The way the scanner's [onScanResult] call reaches the manager. *)
Definition deliver (call : option (Scanner.callback * jsstring)) (m : manager)
    : manager * option completion_call :=
  match call with
  | Some (Scanner.Manager_handleScanResult, code) => handleScanResult code m
  | Some (Scanner.Manager_handleScanError, msg) => handleScanError msg m
  | Some (Scanner.App_scanComplete, _) | None => (m, None)
  end.

(** The engine reports a decoded value while the manager's scanner
    listens. *)
Definition detection (code : jsstring) (m : manager) : manager * option completion_call :=
  let '(s', call) := Scanner.handleDetection (scanner m) code in
  deliver call
    {| scanner := s'; modal := modal m; onScanComplete := onScanComplete m;
       scanTimeout := scanTimeout m; timeouts := timeouts m |}.

End Manager.

(** ** The controller: class CommunityCardApp *)

Module App.
Import JS.

(** The callbacks the controller hands to [setTimeout]: the delayed lookup
    of [handleBarcodeInput], the auto-hide of [showError] and the clean-up
    of [handleBarcodePaste]. *)
Inductive timer :=
| AutoLookup
| AutoHideError
| PasteCleanup.

(** The controller with the page it drives, after [initialize()] has bound
    the required elements.  Of the barcode input: its value, whether it is
    disabled and whether it has the focus; of the two buttons: whether they
    are disabled, and the text of the lookup button's [.button-text] and
    [.button-icon] children; of the three sections: whether their class
    list holds [hidden]; the text of the three display nodes.  A child or
    display node the page lacks is [None].  [timeouts] are the calls of
    [setTimeout] still pending, with their delay in milliseconds. *)
Record app := {
  barcodeInput_value : jsstring;
  barcodeInput_disabled : bool;
  barcodeInput_focused : bool;
  scanButton_disabled : bool;
  lookupButton_disabled : bool;
  buttonText : option jsstring;
  buttonIcon : option jsstring;
  loadingSection_hidden : bool;
  errorSection_hidden : bool;
  successSection_hidden : bool;
  errorMessage : option jsstring;
  availableBalance : option jsstring;
  monthlyBudget : option jsstring;
  isLookingUp : bool;
  currentBarcode : option jsstring;
  timeouts : list (Z * timer)
}.

(** Assignment to one field. *)
Definition set_barcodeInput_value (v : jsstring) (s : app) : app :=
  {| barcodeInput_value := v;
     barcodeInput_disabled := barcodeInput_disabled s;
     barcodeInput_focused := barcodeInput_focused s;
     scanButton_disabled := scanButton_disabled s;
     lookupButton_disabled := lookupButton_disabled s;
     buttonText := buttonText s; buttonIcon := buttonIcon s;
     loadingSection_hidden := loadingSection_hidden s;
     errorSection_hidden := errorSection_hidden s;
     successSection_hidden := successSection_hidden s;
     errorMessage := errorMessage s; availableBalance := availableBalance s;
     monthlyBudget := monthlyBudget s; isLookingUp := isLookingUp s;
     currentBarcode := currentBarcode s; timeouts := timeouts s |}.

Definition set_barcodeInput_disabled (v : bool) (s : app) : app :=
  {| barcodeInput_value := barcodeInput_value s; barcodeInput_disabled := v;
     barcodeInput_focused := barcodeInput_focused s;
     scanButton_disabled := scanButton_disabled s;
     lookupButton_disabled := lookupButton_disabled s;
     buttonText := buttonText s; buttonIcon := buttonIcon s;
     loadingSection_hidden := loadingSection_hidden s;
     errorSection_hidden := errorSection_hidden s;
     successSection_hidden := successSection_hidden s;
     errorMessage := errorMessage s; availableBalance := availableBalance s;
     monthlyBudget := monthlyBudget s; isLookingUp := isLookingUp s;
     currentBarcode := currentBarcode s; timeouts := timeouts s |}.

Definition set_barcodeInput_focused (v : bool) (s : app) : app :=
  {| barcodeInput_value := barcodeInput_value s;
     barcodeInput_disabled := barcodeInput_disabled s;
     barcodeInput_focused := v; scanButton_disabled := scanButton_disabled s;
     lookupButton_disabled := lookupButton_disabled s;
     buttonText := buttonText s; buttonIcon := buttonIcon s;
     loadingSection_hidden := loadingSection_hidden s;
     errorSection_hidden := errorSection_hidden s;
     successSection_hidden := successSection_hidden s;
     errorMessage := errorMessage s; availableBalance := availableBalance s;
     monthlyBudget := monthlyBudget s; isLookingUp := isLookingUp s;
     currentBarcode := currentBarcode s; timeouts := timeouts s |}.

Definition set_scanButton_disabled (v : bool) (s : app) : app :=
  {| barcodeInput_value := barcodeInput_value s;
     barcodeInput_disabled := barcodeInput_disabled s;
     barcodeInput_focused := barcodeInput_focused s;
     scanButton_disabled := v;
     lookupButton_disabled := lookupButton_disabled s;
     buttonText := buttonText s; buttonIcon := buttonIcon s;
     loadingSection_hidden := loadingSection_hidden s;
     errorSection_hidden := errorSection_hidden s;
     successSection_hidden := successSection_hidden s;
     errorMessage := errorMessage s; availableBalance := availableBalance s;
     monthlyBudget := monthlyBudget s; isLookingUp := isLookingUp s;
     currentBarcode := currentBarcode s; timeouts := timeouts s |}.

Definition set_lookupButton_disabled (v : bool) (s : app) : app :=
  {| barcodeInput_value := barcodeInput_value s;
     barcodeInput_disabled := barcodeInput_disabled s;
     barcodeInput_focused := barcodeInput_focused s;
     scanButton_disabled := scanButton_disabled s;
     lookupButton_disabled := v; buttonText := buttonText s;
     buttonIcon := buttonIcon s;
     loadingSection_hidden := loadingSection_hidden s;
     errorSection_hidden := errorSection_hidden s;
     successSection_hidden := successSection_hidden s;
     errorMessage := errorMessage s; availableBalance := availableBalance s;
     monthlyBudget := monthlyBudget s; isLookingUp := isLookingUp s;
     currentBarcode := currentBarcode s; timeouts := timeouts s |}.

Definition set_buttonText (v : option jsstring) (s : app) : app :=
  {| barcodeInput_value := barcodeInput_value s;
     barcodeInput_disabled := barcodeInput_disabled s;
     barcodeInput_focused := barcodeInput_focused s;
     scanButton_disabled := scanButton_disabled s;
     lookupButton_disabled := lookupButton_disabled s; buttonText := v;
     buttonIcon := buttonIcon s;
     loadingSection_hidden := loadingSection_hidden s;
     errorSection_hidden := errorSection_hidden s;
     successSection_hidden := successSection_hidden s;
     errorMessage := errorMessage s; availableBalance := availableBalance s;
     monthlyBudget := monthlyBudget s; isLookingUp := isLookingUp s;
     currentBarcode := currentBarcode s; timeouts := timeouts s |}.

Definition set_buttonIcon (v : option jsstring) (s : app) : app :=
  {| barcodeInput_value := barcodeInput_value s;
     barcodeInput_disabled := barcodeInput_disabled s;
     barcodeInput_focused := barcodeInput_focused s;
     scanButton_disabled := scanButton_disabled s;
     lookupButton_disabled := lookupButton_disabled s;
     buttonText := buttonText s; buttonIcon := v;
     loadingSection_hidden := loadingSection_hidden s;
     errorSection_hidden := errorSection_hidden s;
     successSection_hidden := successSection_hidden s;
     errorMessage := errorMessage s; availableBalance := availableBalance s;
     monthlyBudget := monthlyBudget s; isLookingUp := isLookingUp s;
     currentBarcode := currentBarcode s; timeouts := timeouts s |}.

Definition set_loadingSection_hidden (v : bool) (s : app) : app :=
  {| barcodeInput_value := barcodeInput_value s;
     barcodeInput_disabled := barcodeInput_disabled s;
     barcodeInput_focused := barcodeInput_focused s;
     scanButton_disabled := scanButton_disabled s;
     lookupButton_disabled := lookupButton_disabled s;
     buttonText := buttonText s; buttonIcon := buttonIcon s;
     loadingSection_hidden := v;
     errorSection_hidden := errorSection_hidden s;
     successSection_hidden := successSection_hidden s;
     errorMessage := errorMessage s; availableBalance := availableBalance s;
     monthlyBudget := monthlyBudget s; isLookingUp := isLookingUp s;
     currentBarcode := currentBarcode s; timeouts := timeouts s |}.

Definition set_errorSection_hidden (v : bool) (s : app) : app :=
  {| barcodeInput_value := barcodeInput_value s;
     barcodeInput_disabled := barcodeInput_disabled s;
     barcodeInput_focused := barcodeInput_focused s;
     scanButton_disabled := scanButton_disabled s;
     lookupButton_disabled := lookupButton_disabled s;
     buttonText := buttonText s; buttonIcon := buttonIcon s;
     loadingSection_hidden := loadingSection_hidden s;
     errorSection_hidden := v;
     successSection_hidden := successSection_hidden s;
     errorMessage := errorMessage s; availableBalance := availableBalance s;
     monthlyBudget := monthlyBudget s; isLookingUp := isLookingUp s;
     currentBarcode := currentBarcode s; timeouts := timeouts s |}.

Definition set_successSection_hidden (v : bool) (s : app) : app :=
  {| barcodeInput_value := barcodeInput_value s;
     barcodeInput_disabled := barcodeInput_disabled s;
     barcodeInput_focused := barcodeInput_focused s;
     scanButton_disabled := scanButton_disabled s;
     lookupButton_disabled := lookupButton_disabled s;
     buttonText := buttonText s; buttonIcon := buttonIcon s;
     loadingSection_hidden := loadingSection_hidden s;
     errorSection_hidden := errorSection_hidden s;
     successSection_hidden := v; errorMessage := errorMessage s;
     availableBalance := availableBalance s;
     monthlyBudget := monthlyBudget s; isLookingUp := isLookingUp s;
     currentBarcode := currentBarcode s; timeouts := timeouts s |}.

Definition set_errorMessage (v : option jsstring) (s : app) : app :=
  {| barcodeInput_value := barcodeInput_value s;
     barcodeInput_disabled := barcodeInput_disabled s;
     barcodeInput_focused := barcodeInput_focused s;
     scanButton_disabled := scanButton_disabled s;
     lookupButton_disabled := lookupButton_disabled s;
     buttonText := buttonText s; buttonIcon := buttonIcon s;
     loadingSection_hidden := loadingSection_hidden s;
     errorSection_hidden := errorSection_hidden s;
     successSection_hidden := successSection_hidden s; errorMessage := v;
     availableBalance := availableBalance s;
     monthlyBudget := monthlyBudget s; isLookingUp := isLookingUp s;
     currentBarcode := currentBarcode s; timeouts := timeouts s |}.

Definition set_availableBalance (v : option jsstring) (s : app) : app :=
  {| barcodeInput_value := barcodeInput_value s;
     barcodeInput_disabled := barcodeInput_disabled s;
     barcodeInput_focused := barcodeInput_focused s;
     scanButton_disabled := scanButton_disabled s;
     lookupButton_disabled := lookupButton_disabled s;
     buttonText := buttonText s; buttonIcon := buttonIcon s;
     loadingSection_hidden := loadingSection_hidden s;
     errorSection_hidden := errorSection_hidden s;
     successSection_hidden := successSection_hidden s;
     errorMessage := errorMessage s; availableBalance := v;
     monthlyBudget := monthlyBudget s; isLookingUp := isLookingUp s;
     currentBarcode := currentBarcode s; timeouts := timeouts s |}.

Definition set_monthlyBudget (v : option jsstring) (s : app) : app :=
  {| barcodeInput_value := barcodeInput_value s;
     barcodeInput_disabled := barcodeInput_disabled s;
     barcodeInput_focused := barcodeInput_focused s;
     scanButton_disabled := scanButton_disabled s;
     lookupButton_disabled := lookupButton_disabled s;
     buttonText := buttonText s; buttonIcon := buttonIcon s;
     loadingSection_hidden := loadingSection_hidden s;
     errorSection_hidden := errorSection_hidden s;
     successSection_hidden := successSection_hidden s;
     errorMessage := errorMessage s; availableBalance := availableBalance s;
     monthlyBudget := v; isLookingUp := isLookingUp s;
     currentBarcode := currentBarcode s; timeouts := timeouts s |}.

Definition set_isLookingUp (v : bool) (s : app) : app :=
  {| barcodeInput_value := barcodeInput_value s;
     barcodeInput_disabled := barcodeInput_disabled s;
     barcodeInput_focused := barcodeInput_focused s;
     scanButton_disabled := scanButton_disabled s;
     lookupButton_disabled := lookupButton_disabled s;
     buttonText := buttonText s; buttonIcon := buttonIcon s;
     loadingSection_hidden := loadingSection_hidden s;
     errorSection_hidden := errorSection_hidden s;
     successSection_hidden := successSection_hidden s;
     errorMessage := errorMessage s; availableBalance := availableBalance s;
     monthlyBudget := monthlyBudget s; isLookingUp := v;
     currentBarcode := currentBarcode s; timeouts := timeouts s |}.

Definition set_currentBarcode (v : option jsstring) (s : app) : app :=
  {| barcodeInput_value := barcodeInput_value s;
     barcodeInput_disabled := barcodeInput_disabled s;
     barcodeInput_focused := barcodeInput_focused s;
     scanButton_disabled := scanButton_disabled s;
     lookupButton_disabled := lookupButton_disabled s;
     buttonText := buttonText s; buttonIcon := buttonIcon s;
     loadingSection_hidden := loadingSection_hidden s;
     errorSection_hidden := errorSection_hidden s;
     successSection_hidden := successSection_hidden s;
     errorMessage := errorMessage s; availableBalance := availableBalance s;
     monthlyBudget := monthlyBudget s; isLookingUp := isLookingUp s;
     currentBarcode := v; timeouts := timeouts s |}.

Definition set_timeouts (v : list (Z * timer)) (s : app) : app :=
  {| barcodeInput_value := barcodeInput_value s;
     barcodeInput_disabled := barcodeInput_disabled s;
     barcodeInput_focused := barcodeInput_focused s;
     scanButton_disabled := scanButton_disabled s;
     lookupButton_disabled := lookupButton_disabled s;
     buttonText := buttonText s; buttonIcon := buttonIcon s;
     loadingSection_hidden := loadingSection_hidden s;
     errorSection_hidden := errorSection_hidden s;
     successSection_hidden := successSection_hidden s;
     errorMessage := errorMessage s; availableBalance := availableBalance s;
     monthlyBudget := monthlyBudget s; isLookingUp := isLookingUp s;
     currentBarcode := currentBarcode s; timeouts := v |}.

(** [this.barcodeInput.focus()]: a disabled control takes no focus. *)
Definition focus (s : app) : app :=
  if barcodeInput_disabled s then s else set_barcodeInput_focused true s.

(** [hideAllSections()] *)
Definition hideAllSections (s : app) : app :=
  set_successSection_hidden true
    (set_errorSection_hidden true (set_loadingSection_hidden true s)).

(** [showLoading()] and [hideLoading()] *)
Definition showLoading (s : app) : app :=
  set_loadingSection_hidden false (hideAllSections s).

Definition hideLoading (s : app) : app := set_loadingSection_hidden true s.

(** [element.textContent = text] on a node that may be missing. *)
Definition set_text (text : jsstring) (node : option jsstring) : option jsstring :=
  match node with
  | Some _ => Some text
  | None => None
  end.

(** [setLookupState(isLookingUp)] *)
Definition setLookupState (b : bool) (s : app) : app :=
  let s := set_isLookingUp b s in
  let s := set_lookupButton_disabled b s in
  let s := set_scanButton_disabled b s in
  let s := set_barcodeInput_disabled b s in
  if b then
    let s := set_buttonText (set_text (str "Checking...") (buttonText s)) s in
    let s := set_buttonIcon (set_text (str "hourglass_empty") (buttonIcon s)) s in
    showLoading s
  else
    let s := set_buttonText (set_text (str "Check Balance") (buttonText s)) s in
    let s := set_buttonIcon (set_text (str "search") (buttonIcon s)) s in
    hideLoading s.

(** [showError(message)] *)
Definition showError (msg : jsstring) (s : app) : app :=
  let s := hideAllSections s in
  let s := set_errorMessage (set_text msg (errorMessage s)) s in
  let s := set_errorSection_hidden false s in
  set_timeouts (timeouts s ++ [(5000, AutoHideError)]) s.

(** [resetResults()] and [resetUI()] *)
Definition resetResults (s : app) : app :=
  set_currentBarcode None (hideAllSections s).

Definition resetUI (s : app) : app :=
  set_currentBarcode None (setLookupState false (hideAllSections s)).

(** [showSuccess(data)]: the state reached, and the error when a read of
    [data] throws on the way. *)
Definition showSuccess (H : host) (data : value) (s : app) : app * option error :=
  let s := hideAllSections s in
  let first :=
    match availableBalance s with
    | Some _ =>
        match get_property H data (str "availableMoneyMinor") with
        | Return v =>
            inl (set_availableBalance
                   (Some (Config.formatCurrency (number_to_string H) (ToNumber H v))) s)
        | Throw e => inr e
        end
    | None => inl s
    end in
  match first with
  | inr e => (s, Some e)
  | inl s =>
      let second :=
        match monthlyBudget s with
        | Some _ =>
            match get_property H data (str "startingBudgetMinor") with
            | Return v =>
                inl (set_monthlyBudget
                       (Some (Config.formatCurrency (number_to_string H) (ToNumber H v))) s)
            | Throw e => inr e
            end
        | None => inl s
        end in
      match second with
      | inr e => (s, Some e)
      | inl s => (set_successSection_hidden false s, None)
      end
  end.

(** [handleBarcodeInput(event)], where [event.target] is the barcode input,
    the one element the listener is registered on (and the one the paste
    handler passes). *)
Definition handleBarcodeInput (s : app) : app :=
  let value := barcodeInput_value s in
  let digitsOnly := replace_all_empty (RClass is_non_digit) value in
  let s := if jsstring_eqb digitsOnly value then s
           else set_barcodeInput_value digitsOnly s in
  let s := if (16 <? length digitsOnly)%nat
           then set_barcodeInput_value (substring0 16 digitsOnly) s
           else s in
  let s := match currentBarcode s with
           | Some b => if jsstring_eqb b (barcodeInput_value s) then s
                       else resetResults s
           | None => resetResults s
           end in
  if (length (barcodeInput_value s) =? 16)%nat
  then set_timeouts (timeouts s ++ [(500, AutoLookup)]) s
  else s.

(** [handleBarcodePaste(event)] *)
Definition handleBarcodePaste (s : app) : app :=
  set_timeouts (timeouts s ++ [(0, PasteCleanup)]) s.

(** *** The backend call *)

(** The arguments of [fetch]. *)
Record request := {
  url : jsstring;
  method : jsstring;
  headers : list (jsstring * jsstring);
  body : jsstring
}.

(** A response, as far as the program reads it: what [response.json()]
    settles to. *)
Record response := { json : completion value }.

(** [JSON.stringify({data: {barcode: barcode}})] for a string [barcode]. *)
Definition stringify_request (barcode : jsstring) : jsstring :=
  str "{" ++ JSON_quote (str "data") ++ str ":" ++
  str "{" ++ JSON_quote (str "barcode") ++ str ":" ++ JSON_quote barcode ++
  str "}" ++ str "}".

(** [async getCardBalance(barcode)]: the one request it issues, and its
    completion for each way the promise of [fetch] settles
    ([Throw]: the promise is rejected). *)
Definition getCardBalance (H : host) (barcode : jsstring)
    : request * (completion response -> completion value) :=
  ({| url := str "https://europe-west1-community-card-dev.cloudfunctions.net/getCardBalance";
      method := str "POST";
      headers := [(str "Content-Type", str "application/json")];
      body := stringify_request barcode |},
   fun settled =>
     match settled with
     | Throw e => Throw e
     | Return resp =>
         match json resp with
         | Throw e => Throw e
         | Return res => get_property H res (str "result")
         end
     end).

(** A parsed body without a top-level [result]: an object with no such
    property, or a number, string, boolean or array. *)
Definition lacks_result (res : value) : Prop :=
  match res with
  | JObj fields => assoc (str "result") fields = None
  | JBool _ | JNum _ | JStr _ | JArr _ => True
  | Undefined | JNull => False
  end.

(** "No top-level result object", read on the parsed body: anything but
    an object whose property [result] holds an object or an array. *)
Definition no_result_object (res : value) : Prop :=
  match res with
  | JObj fields =>
      match assoc (str "result") fields with
      | Some (JObj _) | Some (JArr _) => False
      | _ => True
      end
  | Undefined => False
  | JNull | JBool _ | JNum _ | JStr _ | JArr _ => True
  end.

(** A boolean, a number or a string. *)
Definition primitive (v : value) : Prop :=
  match v with
  | JBool _ | JNum _ | JStr _ => True
  | Undefined | JNull | JArr _ | JObj _ => False
  end.

(** The [switch] on [result.status], inside the [try]. *)
Definition handle_result (H : host) (result : value) (s : app) : app * option error :=
  match get_property H result (str "status") with
  | Throw e => (s, Some e)
  | Return (JStr status) =>
      if jsstring_eqb status (str "success") then
        match get_property H result (str "data") with
        | Return data => showSuccess H data s
        | Throw e => (s, Some e)
        end
      else if jsstring_eqb status (str "card_not_found") then
        (showError (str "Card not found. Please check the barcode and try again.") s, None)
      else if jsstring_eqb status (str "error") then
        match get_property H result (str "message") with
        | Return m =>
            (showError
               (if truthy m then ToString H m
                else str "An error occurred while checking the card") s, None)
        | Throw e => (s, Some e)
        end
      else (showError (str "Unexpected response from server") s, None)
  | Return _ => (showError (str "Unexpected response from server") s, None)
  end.

(** [performLookup()] after the [await]: [settled] is the completion of
    [getCardBalance], [s] the state at that moment. *)
Definition performLookup_resume (H : host) (settled : completion value) (s : app) : app :=
  let s :=
    match settled with
    | Return result =>
        match handle_result H result s with
        | (s, None) => s
        | (s, Some e) => showError (str "Network error: " ++ message e) s
        end
    | Throw e => showError (str "Network error: " ++ message e) s
    end in
  setLookupState false s.

(** [async performLookup()] up to the [await]: the new state and, when the
    lookup starts, the request with the rest of the function. *)
Definition performLookup (H : host) (s : app)
    : app * option (request * (completion response -> app -> app)) :=
  let barcode := trim (barcodeInput_value s) in
  match barcode with
  | [] => (focus (showError (str "Please enter a barcode") s), None)
  | _ :: _ =>
      if negb (Config.isValidBarcode barcode) then
        (focus (showError (str "Please enter a valid 16-digit barcode") s), None)
      else if isLookingUp s then (s, None)
      else
        let s := set_currentBarcode (Some barcode) (setLookupState true s) in
        let '(req, k) := getCardBalance H barcode in
        (s, Some (req, fun settled s' => performLookup_resume H (k settled) s'))
  end.

(** The arrow function [handleScanButtonClick] passes to the scanner
    manager: [(barcode, error) => ...], each argument [null] or a string. *)
Definition scanComplete (H : host) (barcode error : option jsstring) (s : app)
    : app * option (request * (completion response -> app -> app)) :=
  match error, barcode with
  | Some (c :: e), _ => (showError (str "Scanning failed: " ++ c :: e) s, None)
  | _, Some (c :: b) => performLookup H (set_barcodeInput_value (c :: b) s)
  | _, _ => (s, None)
  end.

(** What a pending timeout does when it fires. *)
Definition fire (H : host) (t : timer) (s : app)
    : app * option (request * (completion response -> app -> app)) :=
  match t with
  | AutoLookup => performLookup H s
  | AutoHideError =>
      (if negb (errorSection_hidden s) then resetUI s else s, None)
  | PasteCleanup => (handleBarcodeInput s, None)
  end.

(** The page with its lookups in flight: every request sent and not yet
    settled, oldest first, with the continuation waiting for it. *)
Record page := {
  controller : app;
  in_flight : list (request * (completion response -> app -> app))
}.

Definition started (p : page)
    (r : app * option (request * (completion response -> app -> app))) : page :=
  {| controller := fst r;
     in_flight := match snd r with
                  | Some x => in_flight p ++ [x]
                  | None => in_flight p
                  end |}.

(** What can happen to the page: a trigger calls [performLookup()]; the
    user edits the input (possible while it is enabled); the scanner
    manager reports a scan; a timeout fires; the oldest request settles. *)
Inductive event :=
| Lookup
| Edit (v : jsstring)
| Scan (barcode error : option jsstring)
| Fire (delay : Z) (t : timer)
| Settle (settled : completion response).

Fixpoint remove_timeout (d : Z) (t : timer) (l : list (Z * timer)) : option (list (Z * timer)) :=
  match l with
  | [] => None
  | (d', t') :: rest =>
      if (d' =? d) && match t, t' with
                      | AutoLookup, AutoLookup
                      | AutoHideError, AutoHideError
                      | PasteCleanup, PasteCleanup => true
                      | _, _ => false
                      end
      then Some rest
      else match remove_timeout d t rest with
           | Some rest' => Some ((d', t') :: rest')
           | None => None
           end
  end.

Definition step (H : host) (e : event) (p : page) : page :=
  let s := controller p in
  match e with
  | Lookup => started p (performLookup H s)
  | Edit v =>
      if barcodeInput_disabled s then p
      else started p (handleBarcodeInput (set_barcodeInput_value v s), None)
  | Scan barcode error => started p (scanComplete H barcode error s)
  | Fire d t =>
      match remove_timeout d t (timeouts s) with
      | Some rest => started p (fire H t (set_timeouts rest s))
      | None => p
      end
  | Settle settled =>
      match in_flight p with
      | [] => p
      | (_, k) :: rest => {| controller := k settled s; in_flight := rest |}
      end
  end.

(** What the flag is there for: at most one request is out, and the flag
    is up while one is. *)
Definition guarded (p : page) : Prop :=
  (length (in_flight p) <= 1)%nat /\
  (in_flight p <> [] -> isLookingUp (controller p) = true).


End App.

(** ** Sample states *)

Module Sample.
Import JS.

(** A scanner in the middle of a session started by the manager. *)
Definition scanning : Scanner.scanner :=
  {| Scanner.isScanning := true;
     Scanner.scannerInitialized := true;
     Scanner.flashEnabled := false;
     Scanner.onScanResult := Some Scanner.Manager_handleScanResult;
     Scanner.onScanError := Some Scanner.Manager_handleScanError;
     Scanner.Quagga := {| Scanner.started := true; Scanner.detected_handlers := 1;
                          Scanner.stop_errors := [] |} |}.

(** The manager with its modal open and the scan timeout pending. *)
Definition modal_open : Manager.manager :=
  {| Manager.scanner := scanning;
     Manager.modal := Some false;
     Manager.onScanComplete := Some Scanner.App_scanComplete;
     Manager.scanTimeout := Some 7%positive;
     Manager.timeouts := [7%positive] |}.

(** The manager before [initialize()]: no element bound, nothing running. *)
Definition never_opened : Manager.manager :=
  {| Manager.scanner :=
       {| Scanner.isScanning := false;
          Scanner.scannerInitialized := false;
          Scanner.flashEnabled := false;
          Scanner.onScanResult := None;
          Scanner.onScanError := None;
          Scanner.Quagga := {| Scanner.started := false; Scanner.detected_handlers := 0;
                             Scanner.stop_errors := [] |} |};
     Manager.modal := None;
     Manager.onScanComplete := None;
     Manager.scanTimeout := None;
     Manager.timeouts := [] |}.

(** The page right after start-up, with every optional node present, and
    the same page with a barcode typed in. *)
Definition idle : App.app :=
  {| App.barcodeInput_value := [];
     App.barcodeInput_disabled := false;
     App.barcodeInput_focused := true;
     App.scanButton_disabled := false;
     App.lookupButton_disabled := false;
     App.buttonText := Some (str "Check Balance");
     App.buttonIcon := Some (str "search");
     App.loadingSection_hidden := true;
     App.errorSection_hidden := true;
     App.successSection_hidden := true;
     App.errorMessage := Some [];
     App.availableBalance := Some [];
     App.monthlyBudget := Some [];
     App.isLookingUp := false;
     App.currentBarcode := None;
     App.timeouts := [] |}.

Definition typed (v : jsstring) : App.app := App.set_barcodeInput_value v idle.

(** An engine for the samples: its texts are of no consequence. *)
Definition engine : host :=
  {| number_to_string := fun _ => [];
     to_number_other := fun _ => S754_nan;
     to_string_other := fun _ => [];
     type_error_message := fun _ key => str "Cannot read properties of undefined: " ++ key |}.

End Sample.

(** ** The configuration script: backend configuration *)

Module Environment.
Import JS.

(** [function getCurrentFirebaseConfig()], on a given table
    [CONFIG.FIREBASE_CONFIGS] ([None] when the object has no such
    property) and the environment key of a [CONFIG]. *)
Definition getCurrentFirebaseConfig (H : host)
    (FIREBASE_CONFIGS : option (gmap jsstring value)) (cfg : Config.config)
    : completion (Config.entry value) :=
  match FIREBASE_CONFIGS with
  | None =>
      Throw {| error_name := str "TypeError";
               message := type_error_message H Undefined (Config.environment_key cfg) |}
  | Some table =>
      let missing :=
        Throw {| error_name := str "Error";
                 message := str "No Firebase configuration found for environment: "
                            ++ Config.environment_key cfg |} in
      match Config.read table (Config.environment_key cfg) with
      | Some (Config.Plain config) =>
          if truthy config then Return (Config.Plain config) else missing
      | Some (Config.Builtin name) => Return (Config.Builtin name)
      | None => missing
      end
  end.

End Environment.

(** ** The flashlight: [toggleFlash], [isFlashSupported], [updateFlashButton] *)

Module Flash.
Import JS.

(** The active video track as the scanner looks at it: [None] when the
    track has no [getCapabilities] method, else the [torch] entry of the
    capabilities it reports ([Undefined] when there is none). *)
Record track := { torch : option value }.

(** [Quagga.CameraAccess.getActiveTrack()]: a throw, no track ([null] or
    [undefined]), or a track. *)
Definition camera := completion (option track).

(** [toggleFlash()] up to its [await]: the new state and either the error
    thrown or the torch value handed to [track.applyConstraints]. *)
Definition toggleFlash (cam : camera) (s : Scanner.scanner)
    : Scanner.scanner * (error + bool) :=
  let unsupported :=
    (s, inl {| error_name := str "Error";
               message := str "Flash not supported on this device" |}) in
  match cam with
  | Throw e => (s, inl e)
  | Return None => unsupported
  | Return (Some {| torch := None |}) => unsupported
  | Return (Some {| torch := Some t |}) =>
      if truthy t then
        let s' :=
          {| Scanner.isScanning := Scanner.isScanning s;
             Scanner.scannerInitialized := Scanner.scannerInitialized s;
             Scanner.flashEnabled := negb (Scanner.flashEnabled s);
             Scanner.onScanResult := Scanner.onScanResult s;
             Scanner.onScanError := Scanner.onScanError s;
             Scanner.Quagga := Scanner.Quagga s |} in
        (s', inr (Scanner.flashEnabled s'))
      else unsupported
  end.

(** [toggleFlash()] after the [await]: [applied] is how the promise of
    [applyConstraints] settled, [s] the state at that moment. *)
Definition toggleFlash_resume (applied : completion unit) (s : Scanner.scanner)
    : completion bool :=
  match applied with
  | Return _ => Return (Scanner.flashEnabled s)
  | Throw e => Throw e
  end.

(** [isFlashSupported()] *)
Definition isFlashSupported (cam : camera) : bool :=
  match cam with
  | Return (Some {| torch := Some (JBool true) |}) => true
  | _ => false
  end.

(** [isFlashEnabled()] *)
Definition isFlashEnabled (s : Scanner.scanner) : bool := Scanner.flashEnabled s.

(** The flash button of the page: the text of its [.material-icons] and
    [span:last-child] children ([None] for a child it lacks) and the two
    style properties the manager assigns. *)
Record button := {
  icon : option jsstring;
  label : option jsstring;
  background : jsstring;
  color : jsstring
}.

Definition set_text (text : jsstring) (node : option jsstring) : option jsstring :=
  match node with
  | Some _ => Some text
  | None => None
  end.

(** [updateFlashButton(enabled = null)]; [flashButton] is [None] when the
    page has no such element. *)
Definition updateFlashButton (enabled : option bool) (s : Scanner.scanner)
    (flashButton : option button) : option button :=
  match flashButton with
  | None => None
  | Some b =>
      let isEnabled :=
        match enabled with
        | Some e => e
        | None => isFlashEnabled s
        end in
      Some {| icon := set_text (if isEnabled then str "flash_on" else str "flash_off") (icon b);
              label := set_text (if isEnabled then str "Flash On" else str "Flash Off") (label b);
              background := if isEnabled then str "#667eea" else str "#f8f9fa";
              color := if isEnabled then str "white" else str "#333" |}
  end.

(** [ScannerManager.toggleFlash()], both halves: the failure of the
    scanner's [toggleFlash] is logged and goes no further. *)
Definition manager_toggleFlash (cam : camera) (s : Scanner.scanner)
    (flashButton : option button)
    : Scanner.scanner * option button * option bool :=
  match toggleFlash cam s with
  | (s', inl _) => (s', flashButton, None)
  | (s', inr requested) => (s', flashButton, Some requested)
  end.

Definition manager_toggleFlash_resume (applied : completion unit)
    (s : Scanner.scanner) (flashButton : option button) : option button :=
  match toggleFlash_resume applied s with
  | Return flashEnabled => updateFlashButton (Some flashEnabled) s flashButton
  | Throw _ => flashButton
  end.

End Flash.

(** ** A scanning session: [initialize], [openScannerModal], the timeout *)

Module Session.
Import JS.

(** [Quagga.onDetected(handler)] and [Quagga.start()] *)
Definition Quagga_onDetected (q : Scanner.quagga) : Scanner.quagga :=
  {| Scanner.started := Scanner.started q;
     Scanner.detected_handlers := S (Scanner.detected_handlers q);
     Scanner.stop_errors := Scanner.stop_errors q |}.

Definition Quagga_start (q : Scanner.quagga) : Scanner.quagga :=
  {| Scanner.started := true;
     Scanner.detected_handlers := Scanner.detected_handlers q;
     Scanner.stop_errors := Scanner.stop_errors q |}.

(** [BarcodeScanner.initialize(videoElement, onResult, onError)] up to the
    promise it returns.  [camera_supported] is
    [navigator.mediaDevices && navigator.mediaDevices.getUserMedia].  The
    result is the new state, the call [this.onScanError?.(...)] of the
    [catch] if one is made, and the error the promise is rejected with at
    once; without one the promise waits for the callback of
    [Quagga.init]. *)
Definition initialize (camera_supported : bool)
    (onResult onError : option Scanner.callback) (s : Scanner.scanner)
    : Scanner.scanner * option (Scanner.callback * jsstring) * option error :=
  let s :=
    {| Scanner.isScanning := Scanner.isScanning s;
       Scanner.scannerInitialized := Scanner.scannerInitialized s;
       Scanner.flashEnabled := Scanner.flashEnabled s;
       Scanner.onScanResult := onResult;
       Scanner.onScanError := onError;
       Scanner.Quagga := Scanner.Quagga s |} in
  if camera_supported then (s, None, None)
  else
    let e := {| error_name := str "Error";
                message := str "Camera not supported on this device" |} in
    (s,
     match Scanner.onScanError s with
     | Some f => Some (f, str "Scanner initialization failed: " ++ message e)
     | None => None
     end,
     Some e).

(** The callback handed to [Quagga.init], called with the engine's error
    or with none: the new state and how the promise of [initialize]
    settles. *)
Definition init_callback (err : option error) (s : Scanner.scanner)
    : Scanner.scanner * completion unit :=
  match err with
  | Some e =>
      (s, Throw {| error_name := str "Error";
                   message := str "Scanner initialization failed: " ++ message e |})
  | None =>
      ({| Scanner.isScanning := true;
          Scanner.scannerInitialized := true;
          Scanner.flashEnabled := Scanner.flashEnabled s;
          Scanner.onScanResult := Scanner.onScanResult s;
          Scanner.onScanError := Scanner.onScanError s;
          Scanner.Quagga := Quagga_start (Quagga_onDetected (Scanner.Quagga s)) |},
       Return tt)
  end.

Definition with_scanner (s : Scanner.scanner) (m : Manager.manager) : Manager.manager :=
  {| Manager.scanner := s;
     Manager.modal := Manager.modal m;
     Manager.onScanComplete := Manager.onScanComplete m;
     Manager.scanTimeout := Manager.scanTimeout m;
     Manager.timeouts := Manager.timeouts m |}.

Definition calls_of (c : option Manager.completion_call) : list Manager.completion_call :=
  match c with
  | Some x => [x]
  | None => []
  end.

(** [ScannerManager.openScannerModal(onComplete)] up to its [await]: the
    new state, the calls of the completion callback made so far, oldest
    first, and whether the method now waits for the engine. *)
Definition openScannerModal (H : host) (camera_supported : bool)
    (onComplete : option Scanner.callback) (m : Manager.manager)
    : Manager.manager * list Manager.completion_call * bool :=
  let m :=
    {| Manager.scanner := Manager.scanner m;
       Manager.modal := Manager.modal m;
       Manager.onScanComplete := onComplete;
       Manager.scanTimeout := Manager.scanTimeout m;
       Manager.timeouts := Manager.timeouts m |} in
  match Manager.modal m with
  | None =>
      let '(m, c) :=
        Manager.handleScanError (type_error_message H JNull (str "classList")) m in
      (m, calls_of c, false)
  | Some _ =>
      let m :=
        {| Manager.scanner := Manager.scanner m;
           Manager.modal := Some false;
           Manager.onScanComplete := Manager.onScanComplete m;
           Manager.scanTimeout := Manager.scanTimeout m;
           Manager.timeouts := Manager.timeouts m |} in
      let '(s, reported, rejected) :=
        initialize camera_supported
          (Some Scanner.Manager_handleScanResult)
          (Some Scanner.Manager_handleScanError) (Manager.scanner m) in
      let '(m, c1) := Manager.deliver reported (with_scanner s m) in
      match rejected with
      | Some e =>
          let '(m, c2) := Manager.handleScanError (message e) m in
          (m, calls_of c1 ++ calls_of c2, false)
      | None => (m, calls_of c1, true)
      end
  end.

(** The engine answers [Quagga.init]: the callback runs, the promise
    settles and [openScannerModal] goes on.  [t] is the handle
    [setTimeout] returns. *)
Definition engine_ready (err : option error) (t : positive)
    (m : Manager.manager) (flashButton : option Flash.button)
    : Manager.manager * option Flash.button * option Manager.completion_call :=
  let '(s, settled) := init_callback err (Manager.scanner m) in
  let m := with_scanner s m in
  match settled with
  | Return _ =>
      ({| Manager.scanner := Manager.scanner m;
          Manager.modal := Manager.modal m;
          Manager.onScanComplete := Manager.onScanComplete m;
          Manager.scanTimeout := Some t;
          Manager.timeouts := Manager.timeouts m ++ [t] |},
       Flash.updateFlashButton None (Manager.scanner m) flashButton,
       None)
  | Throw e =>
      let '(m, c) := Manager.handleScanError (message e) m in
      (m, flashButton, c)
  end.

(** A pending timeout set by [openScannerModal] fires. *)
Definition timeout_fired (t : positive) (m : Manager.manager)
    : Manager.manager * option Manager.completion_call :=
  if existsb (Pos.eqb t) (Manager.timeouts m) then
    Manager.handleScanError (str "Scan timeout - please try again")
      {| Manager.scanner := Manager.scanner m;
         Manager.modal := Manager.modal m;
         Manager.onScanComplete := Manager.onScanComplete m;
         Manager.scanTimeout := Manager.scanTimeout m;
         Manager.timeouts := Manager.clearTimeout t (Manager.timeouts m) |}
  else (m, None).

(** A run of detection events while the manager's scanner listens, with
    the calls of the completion callback they lead to, oldest first. *)
Fixpoint detections (codes : list jsstring) (m : Manager.manager)
    : Manager.manager * list Manager.completion_call :=
  match codes with
  | [] => (m, [])
  | code :: rest =>
      let '(m1, call) := Manager.detection code m in
      let '(m2, calls) := detections rest m1 in
      (m2, calls_of call ++ calls)
  end.

(** What can happen during a session: the engine reports a decoded
    value, a timeout fires, or the user closes the modal (close button,
    backdrop or Escape). *)
Inductive event :=
| Detected (code : jsstring)
| TimedOut (t : positive)
| Closed.

Definition step (e : event) (m : Manager.manager)
    : Manager.manager * option Manager.completion_call :=
  match e with
  | Detected code => Manager.detection code m
  | TimedOut t => timeout_fired t m
  | Closed => (Manager.closeScannerModal m, None)
  end.

(** A run of such events, with the calls of the completion callback they
    lead to, oldest first. *)
Fixpoint events (es : list event) (m : Manager.manager)
    : Manager.manager * list Manager.completion_call :=
  match es with
  | [] => (m, [])
  | e :: rest =>
      let '(m1, call) := step e m in
      let '(m2, calls) := events rest m1 in
      (m2, calls_of call ++ calls)
  end.

(** Three conditions on a manager that the statements about a session
    use: none of the calls of [Quagga.stop()] still to come throws; every
    timeout still pending is the one recorded in [scanTimeout]; the
    session is over, the scanner not scanning and no timeout pending. *)
Definition stop_returns (m : Manager.manager) : Prop :=
  Forall (fun outcome => outcome = None)
    (Scanner.stop_errors (Scanner.Quagga (Manager.scanner m))).

Definition one_timeout (m : Manager.manager) : Prop :=
  forall t, In t (Manager.timeouts m) -> Manager.scanTimeout m = Some t.

Definition over (m : Manager.manager) : Prop :=
  Scanner.isScanning (Manager.scanner m) = false /\ Manager.timeouts m = [].

End Session.

(** ** The controller: the remaining handlers and start-up *)

Module Wiring.
Import JS.

(** [handleBarcodeKeypress(event)] with [key = event.key] *)
Definition handleBarcodeKeypress (H : host) (key : jsstring) (s : App.app)
    : App.app * option (App.request * (completion App.response -> App.app -> App.app)) :=
  if jsstring_eqb key (str "Enter") then App.performLookup H s else (s, None).

(** [handleLookupButtonClick()] *)
Definition handleLookupButtonClick (H : host) (s : App.app)
    : App.app * option (App.request * (completion App.response -> App.app -> App.app)) :=
  App.performLookup H s.

(** [clearBarcode()] *)
Definition clearBarcode (s : App.app) : App.app :=
  App.focus (App.resetResults (App.set_barcodeInput_value [] s)).

(** A call of the manager's completion callback reaches the arrow function
    of [handleScanButtonClick]. *)
Definition deliver (H : host) (call : option Manager.completion_call) (s : App.app)
    : App.app * option (App.request * (completion App.response -> App.app -> App.app)) :=
  match call with
  | Some {| Manager.callee := Scanner.App_scanComplete;
            Manager.barcode_arg := barcode; Manager.error_arg := error |} =>
      App.scanComplete H barcode error s
  | _ => (s, None)
  end.

(** [String.prototype.includes] *)
Fixpoint starts_with (needle s : jsstring) : bool :=
  match needle, s with
  | [], _ => true
  | x :: needle', y :: s' => (x =? y)%N && starts_with needle' s'
  | _ :: _, [] => false
  end.

Fixpoint includes (needle s : jsstring) : bool :=
  starts_with needle s ||
  match s with
  | [] => false
  | _ :: s' => includes needle s'
  end.

(** The elements [initializeDOMReferences()] insists on, in the order of
    its loop. *)
Definition requiredElements : list jsstring :=
  [str "barcodeInput"; str "scanButton"; str "lookupButton";
   str "loadingSection"; str "errorSection"; str "successSection"].

(** [initializeDOMReferences()] on a page where [present id] tells whether
    [document.getElementById(id)] finds an element. *)
Definition initializeDOMReferences (present : jsstring -> bool) : completion unit :=
  match List.find (fun name => negb (present name)) requiredElements with
  | Some name =>
      Throw {| error_name := str "Error";
               message := str "Required element not found: " ++ name |}
  | None => Return tt
  end.

(** How the page comes up: the controller is ready; or the error section
    is shown, with the message written into its text node when the page
    has that node ([None] when it has not); or, when [showError] itself
    throws, the handler of [DOMContentLoaded] falls back to [alert]. *)
Inductive startup :=
| Ready
| Banner (text : option jsstring)
| Alert (msg : jsstring).

(** [showError] in the [catch] of [initialize()] reads the three sections
    before anything else. *)
Definition sections_bound (present : jsstring -> bool) : bool :=
  present (str "loadingSection") && present (str "errorSection")
  && present (str "successSection").

(** [initialize()] inside the handler of [DOMContentLoaded]. *)
Definition initialize (present : jsstring -> bool) : startup :=
  match initializeDOMReferences present with
  | Return _ => Ready
  | Throw e =>
      let msg :=
        if includes (str "Authentication failed") (message e)
        then str "Authentication setup required. Anonymous sign-in may not be enabled in Firebase console."
        else str "Failed to initialize application: " ++ message e in
      if sections_bound present then
        Banner (if present (str "errorMessage") then Some msg else None)
      else Alert (str "Failed to initialize application. Please refresh the page and try again.")
  end.

(** A sequence of events on the page, oldest first. *)
Definition run (H : host) (events : list App.event) (p : App.page) : App.page :=
  fold_left (fun p e => App.step H e p) events p.

(** Two properties of the page that the statements below follow through
    every event: the three controls are disabled exactly while the flag
    is up, and at most one of the three sections is visible. *)
Definition controls_follow_flag (s : App.app) : Prop :=
  App.lookupButton_disabled s = App.isLookingUp s /\
  App.scanButton_disabled s = App.isLookingUp s /\
  App.barcodeInput_disabled s = App.isLookingUp s.

Definition at_most_one_section (s : App.app) : Prop :=
  (App.loadingSection_hidden s = true /\ App.errorSection_hidden s = true) \/
  (App.loadingSection_hidden s = true /\ App.successSection_hidden s = true) \/
  (App.errorSection_hidden s = true /\ App.successSection_hidden s = true).

End Wiring.

(** ** More sample states *)

Module Fixture.
Import JS.

(** The manager after [initialize()], modal closed, nothing running. *)
Definition closed : Manager.manager :=
  {| Manager.scanner :=
       {| Scanner.isScanning := false;
          Scanner.scannerInitialized := false;
          Scanner.flashEnabled := false;
          Scanner.onScanResult := None;
          Scanner.onScanError := None;
          Scanner.Quagga := {| Scanner.started := false; Scanner.detected_handlers := 0;
                             Scanner.stop_errors := [] |} |};
     Manager.modal := Some true;
     Manager.onScanComplete := None;
     Manager.scanTimeout := None;
     Manager.timeouts := [] |}.

(** A flash button showing "off", and a rear camera with a torch. *)
Definition flash_off : Flash.button :=
  {| Flash.icon := Some (str "flash_off");
     Flash.label := Some (str "Flash Off");
     Flash.background := str "#f8f9fa";
     Flash.color := str "#333" |}.


(** A page with every element, one without its scan button, one without
    its two buttons, and one that lacks the scan button and the text node
    of the error section. *)
Definition full_page (id : jsstring) : bool := true.

Definition no_scan_button (id : jsstring) : bool :=
  negb (jsstring_eqb id (str "scanButton")).

Definition no_buttons (id : jsstring) : bool :=
  negb (jsstring_eqb id (str "scanButton") || jsstring_eqb id (str "lookupButton")).

Definition no_message_node (id : jsstring) : bool :=
  negb (jsstring_eqb id (str "scanButton") || jsstring_eqb id (str "errorMessage")).





End Fixture.

(** * Properties *)

Import JS.

Ltac split_all := repeat match goal with |- _ /\ _ => split end.

Example str_euro : str "€12.34" = [8364; 49; 50; 46; 51; 52]%N.
Proof. reflexivity. Qed.

(** ** The barcode pattern *)

Section RegexLemmas.
Context {A : Type}.

(** [c{n}] consumes exactly [n] code units of class [c]. *)
Lemma rmatch_count_class (c : N -> bool) (n : nat) :
  forall (k : bool -> jsstring -> option A) bol s,
    rmatch (RCount (RClass c) n) k bol s =
      if (n <=? length s)%nat && forallb c (firstn n s)
      then k (match n with O => bol | S _ => false end) (skipn n s)
      else None.
Proof.
  induction n as [|n IH]; intros k bol s.
  - reflexivity.
  - change (rmatch (RCount (RClass c) (S n)) k bol s)
      with (match s with
            | x :: s' =>
                if c x then rmatch (RCount (RClass c) n) k false s' else None
            | [] => None
            end).
    destruct s as [|x s]; [reflexivity|].
    cbn [length firstn forallb skipn].
    destruct (c x); [|now rewrite andb_false_r].
    rewrite IH. change (S n <=? S (length s))%nat with (n <=? length s)%nat.
    cbn [andb].
    destruct ((n <=? length s)%nat && forallb c (firstn n s)) eqn:E;
      [|reflexivity].
    destruct n; reflexivity.
Qed.

End RegexLemmas.

Lemma match_here_barcode bol s :
  match_here Config.BARCODE_PATTERN bol s =
    if bol && (length s =? 16)%nat && forallb is_digit s then Some [] else None.
Proof.
  unfold match_here, Config.BARCODE_PATTERN.
  destruct bol; [|reflexivity].
  change (rmatch (RSeq RBol (RSeq (RCount (RClass is_digit) 16) REol))
            (fun _ rest => Some rest) true s)
    with (rmatch (RCount (RClass is_digit) 16)
            (fun b s' => rmatch REol (fun _ rest => Some rest) b s') true s).
  rewrite (rmatch_count_class is_digit 16). cbn [andb rmatch].
  destruct (16 <=? length s)%nat eqn:Hle.
  - destruct (length s =? 16)%nat eqn:Heq.
    + apply Nat.eqb_eq in Heq.
      rewrite firstn_all2 by lia. rewrite skipn_all2 by lia.
      cbn [andb]. destruct (forallb is_digit s); reflexivity.
    + apply Nat.eqb_neq in Heq. apply Nat.leb_le in Hle.
      cbn [andb].
      destruct (forallb is_digit (firstn 16 s)); [|reflexivity].
      destruct (skipn 16 s) eqn:Hs; [|reflexivity].
      apply (f_equal (@length N)) in Hs. rewrite length_skipn in Hs.
      cbn in Hs. lia.
  - apply Nat.leb_gt in Hle.
    replace (length s =? 16)%nat with false
      by (symmetry; apply Nat.eqb_neq; lia).
    reflexivity.
Qed.

Lemma search_barcode_not_bol s : search Config.BARCODE_PATTERN false s = false.
Proof.
  induction s as [|x s IH]; cbn [search]; rewrite match_here_barcode;
    cbn [andb]; [reflexivity | exact IH].
Qed.

Lemma isValidBarcode_eq s :
  Config.isValidBarcode s = (length s =? 16)%nat && forallb is_digit s.
Proof.
  unfold Config.isValidBarcode, test.
  destruct s as [|x s]; [reflexivity|].
  cbn [search]. rewrite match_here_barcode. cbn [andb].
  destruct ((length (x :: s) =? 16)%nat && forallb is_digit (x :: s));
    [reflexivity | apply search_barcode_not_bol].
Qed.

Lemma is_digit_iff (c : N) : is_digit c = true <-> (48 <= c <= 57)%N.
Proof. unfold is_digit. rewrite andb_true_iff, !N.leb_le. tauto. Qed.

Lemma forallb_is_digit (s : jsstring) :
  forallb is_digit s = true <-> Forall (fun c => (48 <= c <= 57)%N) s.
Proof.
  rewrite forallb_forall, List.Forall_forall.
  split; intros H c Hc; apply is_digit_iff, H, Hc.
Qed.

Lemma isValidBarcode_spec (s : jsstring) :
  Config.isValidBarcode s = true <-> Config.sixteen_digits s.
Proof.
  rewrite isValidBarcode_eq, andb_true_iff, Nat.eqb_eq, forallb_is_digit.
  reflexivity.
Qed.

(** C1. For every string, [isValidBarcode] answers [true] exactly when the
    string is made of 16 decimal digits and nothing else; a string of
    another length, or with a code unit that is no digit, is rejected. *)
Theorem isValidBarcode_iff_16_digits (value : jsstring) :
  (Config.isValidBarcode value = true <-> Config.sixteen_digits value) /\
  (length value <> 16%nat -> Config.isValidBarcode value = false) /\
  (Exists (fun c => ~ (48 <= c <= 57)%N) value ->
     Config.isValidBarcode value = false).
Proof.
  split; [apply isValidBarcode_spec|]. split.
  - intros Hlen. apply not_true_is_false. intros E.
    apply isValidBarcode_spec in E as [E _]. contradiction.
  - intros Hex. apply not_true_is_false. intros E.
    apply isValidBarcode_spec in E as [_ E].
    apply List.Exists_exists in Hex as (c & Hin & Hc).
    rewrite List.Forall_forall in E. destruct (Hc (E c Hin)).
Qed.

Lemma isValidBarcode_iff_16_digits_witness :
  Config.isValidBarcode (str "12345") = false /\
  Config.isValidBarcode (str "abcdefghij123456") = false /\
  Config.isValidBarcode (str "1234567890123456") = true.
Proof.
  split; [|split].
  - destruct (isValidBarcode_iff_16_digits (str "12345")) as (_ & H & _).
    apply H. intros E. vm_compute in E. discriminate E.
  - destruct (isValidBarcode_iff_16_digits (str "abcdefghij123456"))
      as (_ & _ & H).
    apply H. apply List.Exists_cons_hd. vm_compute. intros [_ E].
    apply E. reflexivity.
  - destruct (isValidBarcode_iff_16_digits (str "1234567890123456"))
      as ((_ & H) & _).
    apply H. split; [reflexivity|]. change (str "1234567890123456")
      with [49; 50; 51; 52; 53; 54; 55; 56; 57; 48; 49; 50; 51; 52; 53; 54]%N.
    repeat (apply List.Forall_cons; [lia|]). apply List.Forall_nil.
Defined.

(** ** Binary64 division by 100 and [toFixed(2)] *)

Lemma digits2_pos_bounds (p : positive) :
  2 ^ (Z.pos (digits2_pos p) - 1) <= Z.pos p < 2 ^ Z.pos (digits2_pos p).
Proof.
  induction p as [p IH|p IH|]; cbn [digits2_pos].
  - rewrite Pos2Z.inj_succ, (Pos2Z.inj_xI p).
    replace (Z.succ (Z.pos (digits2_pos p)) - 1)
      with (Z.succ (Z.pos (digits2_pos p) - 1)) by lia.
    rewrite !Z.pow_succ_r by lia. lia.
  - rewrite Pos2Z.inj_succ, (Pos2Z.inj_xO p).
    replace (Z.succ (Z.pos (digits2_pos p)) - 1)
      with (Z.succ (Z.pos (digits2_pos p) - 1)) by lia.
    rewrite !Z.pow_succ_r by lia. lia.
  - cbn. lia.
Qed.

Lemma Zdigits2_eq (q d : Z) :
  2 ^ (d - 1) <= q < 2 ^ d -> 0 < d -> Zdigits2 q = d.
Proof.
  intros [Hlo Hhi] Hd. destruct q as [|p|p].
  - pose proof (Z.pow_pos_nonneg 2 (d - 1)). lia.
  - cbn [Zdigits2]. pose proof (digits2_pos_bounds p) as [Hl Hh].
    destruct (Z.lt_trichotomy (Z.pos (digits2_pos p)) d) as [H|[H|H]];
      [exfalso | exact H | exfalso].
    + assert (2 ^ Z.pos (digits2_pos p) <= 2 ^ (d - 1))
        by (apply Z.pow_le_mono_r; lia). lia.
    + assert (2 ^ d <= 2 ^ (Z.pos (digits2_pos p) - 1))
        by (apply Z.pow_le_mono_r; lia). lia.
  - pose proof (Z.pow_pos_nonneg 2 (d - 1)). lia.
Qed.

Lemma Zdigits2_53 (q : Z) :
  4503599627370496 <= q < 9007199254740992 -> Zdigits2 q = 53.
Proof.
  intros H. apply Zdigits2_eq; [|lia].
  change (2 ^ (53 - 1)) with 4503599627370496.
  change (2 ^ 53) with 9007199254740992. exact H.
Qed.

Lemma Zdigits2_54 (q : Z) :
  9007199254740992 <= q < 18014398509481984 -> Zdigits2 q = 54.
Proof.
  intros H. apply Zdigits2_eq; [|lia].
  change (2 ^ (54 - 1)) with 9007199254740992.
  change (2 ^ 54) with 18014398509481984. exact H.
Qed.

Lemma loc_of_shr_record_of_loc m l :
  loc_of_shr_record (shr_record_of_loc m l) = l.
Proof. destruct l as [|[]]; reflexivity. Qed.

Lemma shr_m_record_of_loc m l : shr_m (shr_record_of_loc m l) = m.
Proof. destruct l as [|[]]; reflexivity. Qed.

(** A mantissa of 53 bits is left alone by the shift to the canonical
    exponent. *)
Lemma shr_fexp_53 (q e : Z) (l : location) :
  4503599627370496 <= q < 9007199254740992 -> -1074 <= e ->
  shr_fexp 53 1024 q e l = (shr_record_of_loc q l, e).
Proof.
  intros Hq He. unfold shr_fexp.
  rewrite (Zdigits2_53 q) by lia.
  unfold fexp, emin. replace (Z.max (53 + e - 53) (3 - 1024 - 53) - e) with 0 by lia.
  reflexivity.
Qed.

(** One of 54 bits loses its last bit, which becomes the round bit. *)
Lemma shr_fexp_54 (q e : Z) (l : location) :
  9007199254740992 <= q < 18014398509481984 -> -1074 <= e ->
  shr_fexp 53 1024 q e l = (shr_1 (shr_record_of_loc q l), e + 1).
Proof.
  intros Hq He. unfold shr_fexp.
  rewrite (Zdigits2_54 q) by lia.
  unfold fexp, emin. replace (Z.max (54 + e - 53) (3 - 1024 - 53) - e) with 1 by lia.
  reflexivity.
Qed.

Lemma round_nearest_even_range m l :
  m <= round_nearest_even m l <= m + 1.
Proof. destruct l as [|[]]; cbn; try destruct (Z.even m); lia. Qed.

(** Rounding a mantissa that already has 53 bits. *)
Lemma binary_round_aux_53 (s : bool) (q e : Z) (l : location) :
  4503599627370496 <= q < 9007199254740992 -> -1074 <= e < 971 ->
  binary_round_aux 53 1024 s q e l =
    let m := round_nearest_even q l in
    if m <? 9007199254740992 then S754_finite s (Z.to_pos m) e
    else S754_finite s 4503599627370496 (e + 1).
Proof.
  intros Hq He. unfold binary_round_aux.
  rewrite shr_fexp_53 by lia.
  rewrite shr_m_record_of_loc, loc_of_shr_record_of_loc.
  pose proof (round_nearest_even_range q l) as Hm.
  cbv zeta. destruct (Z.ltb_spec (round_nearest_even q l) 9007199254740992) as [Hlt|Hge].
  - rewrite shr_fexp_53 by lia. cbn [shr_record_of_loc shr_m].
    destruct (round_nearest_even q l) as [|m|m]; try lia.
    replace (e <=? 1024 - 53) with true by (symmetry; apply Z.leb_le; lia).
    reflexivity.
  - replace (round_nearest_even q l) with 9007199254740992 by lia.
    rewrite shr_fexp_54 by lia. cbn [shr_record_of_loc shr_1 shr_m].
    replace (e + 1 <=? 1024 - 53) with true by (symmetry; apply Z.leb_le; lia).
    reflexivity.
Qed.

Lemma shr_1_record_of_loc (q : Z) (l : location) :
  0 <= q ->
  shr_1 (shr_record_of_loc q l) =
    {| shr_m := q / 2; shr_r := Z.odd q;
       shr_s := match l with loc_Exact => false | _ => true end |}.
Proof.
  intros Hq.
  assert (Hhalf : forall p, Z.pos p = (Z.pos p~0) / 2 /\ Z.pos p = (Z.pos p~1) / 2).
  { intros p. split;
      [apply Z.div_unique_pos with (r := 0) | apply Z.div_unique_pos with (r := 1)];
      lia. }
  destruct q as [|[p|p|]|p]; try lia;
    destruct l as [|[]]; cbn [shr_record_of_loc shr_1 orb Z.odd];
    try reflexivity; f_equal; apply (Hhalf p).
Qed.

(** Rounding a mantissa of 54 bits: one bit is shifted out first. *)
Lemma binary_round_aux_54 (s : bool) (q e : Z) (l : location) :
  9007199254740992 <= q < 18014398509481984 -> -1074 <= e < 970 ->
  binary_round_aux 53 1024 s q e l =
    let mrs := shr_1 (shr_record_of_loc q l) in
    let m := round_nearest_even (shr_m mrs) (loc_of_shr_record mrs) in
    if m <? 9007199254740992 then S754_finite s (Z.to_pos m) (e + 1)
    else S754_finite s 4503599627370496 (e + 2).
Proof.
  intros Hq He. unfold binary_round_aux.
  rewrite shr_fexp_54 by lia.
  rewrite shr_1_record_of_loc by lia. cbn [shr_m]. cbv zeta.
  set (l' := loc_of_shr_record _).
  assert (Hh : 4503599627370496 <= q / 2 < 9007199254740992).
  { split; [apply Z.div_le_lower_bound | apply Z.div_lt_upper_bound]; lia. }
  pose proof (round_nearest_even_range (q / 2) l') as Hm.
  destruct (Z.ltb_spec (round_nearest_even (q / 2) l') 9007199254740992) as [Hlt|Hge].
  - rewrite shr_fexp_53 by lia. cbn [shr_record_of_loc shr_m].
    destruct (round_nearest_even (q / 2) l') as [|m|m]; try lia.
    replace (e + 1 <=? 1024 - 53) with true by (symmetry; apply Z.leb_le; lia).
    reflexivity.
  - replace (round_nearest_even (q / 2) l') with 9007199254740992 by lia.
    rewrite shr_fexp_54 by lia. cbn [shr_record_of_loc shr_1 shr_m].
    replace (e + 1 + 1 <=? 1024 - 53) with true by (symmetry; apply Z.leb_le; lia).
    replace (e + 1 + 1) with (e + 2) by lia.
    reflexivity.
Qed.

(** The location computed from a remainder [r] of a division by
    [D = 100 * 2^46] steers the rounding to the nearest multiple. *)
Lemma round_location_53 (q r : Z) :
  0 <= r < 7036874417766400 ->
  let m := round_nearest_even q (new_location 7036874417766400 r) in
  - 7036874417766400 <= 2 * ((m - q) * 7036874417766400 - r) <= 7036874417766400.
Proof.
  intros Hr. unfold new_location. cbn [Z.even]. unfold new_location_even.
  destruct (Z.eqb_spec r 0) as [->|Hr0]; cbn [round_nearest_even]; [lia|].
  destruct (Z.compare_spec (2 * r) 7036874417766400);
    cbn [round_nearest_even]; try destruct (Z.even q); cbv zeta; lia.
Qed.

Lemma round_location_54 (q r : Z) :
  0 <= q -> 0 <= r < 7036874417766400 ->
  let mrs := shr_1 (shr_record_of_loc q (new_location 7036874417766400 r)) in
  let m := round_nearest_even (shr_m mrs) (loc_of_shr_record mrs) in
  - 7036874417766400
    <= m * (2 * 7036874417766400) - (q * 7036874417766400 + r)
    <= 7036874417766400.
Proof.
  intros Hq Hr. rewrite shr_1_record_of_loc by lia. cbn [shr_m]. cbv zeta.
  unfold new_location. cbn [Z.even]. unfold new_location_even.
  pose proof (Z.div_mod q 2 ltac:(lia)) as Hdm.
  pose proof (Z.mod_pos_bound q 2 ltac:(lia)) as Hmb.
  rewrite Zmod_odd in Hdm, Hmb.
  destruct (Z.eqb_spec r 0) as [->|Hr0];
    [|destruct (Z.compare (2 * r) 7036874417766400)];
    destruct (Z.odd q) eqn:Hodd;
    cbn [loc_of_shr_record round_nearest_even];
    try destruct (Z.even (q / 2)); lia.
Qed.

Lemma pos_iter_xO (p n : positive) :
  Z.pos (Pos.iter xO p n) = Z.pos p * 2 ^ Z.pos n.
Proof.
  rewrite <- Z.shiftl_mul_pow2 by lia. cbn [Z.shiftl].
  apply (Pos.iter_swap_gen _ _ Z.pos xO (Z.mul 2)). reflexivity.
Qed.

(** An integer below [2^53] in magnitude is a binary64 value: its mantissa
    is the integer shifted left to 53 bits. *)
Lemma binary_round_int (s : bool) (p : positive) :
  Z.pos p < 9007199254740992 ->
  exists (A : positive) (k : Z),
    0 <= k <= 52 /\
    binary_round 53 1024 s p 0 = S754_finite s A (- k) /\
    Z.pos A = Z.pos p * 2 ^ k /\
    4503599627370496 <= Z.pos A < 9007199254740992.
Proof.
  intros Hp. pose proof (digits2_pos_bounds p) as [Hlo Hhi].
  set (d := Z.pos (digits2_pos p)) in *.
  assert (Hd : 0 < d <= 53).
  { split; [subst d; lia|].
    destruct (Z.le_gt_cases d 53) as [H|H]; [exact H|exfalso].
    assert (2 ^ 53 <= 2 ^ (d - 1)) by (apply Z.pow_le_mono_r; lia).
    change (2 ^ 53) with 9007199254740992 in *. lia. }
  assert (Hpow : 2 ^ (d - 1) * 2 ^ (53 - d) = 4503599627370496
                 /\ 2 ^ d * 2 ^ (53 - d) = 9007199254740992).
  { rewrite <- !Z.pow_add_r by lia.
    replace (d - 1 + (53 - d)) with 52 by lia.
    replace (d + (53 - d)) with 53 by lia. split; reflexivity. }
  assert (Hk : 0 < 2 ^ (53 - d)) by (apply Z.pow_pos_nonneg; lia).
  unfold binary_round, shl_align, fexp, emin. fold d.
  replace (Z.max (d + 0 - 53) (3 - 1024 - 53) - 0) with (d - 53) by lia.
  replace (Z.max (d + 0 - 53) (3 - 1024 - 53)) with (d - 53) by lia.
  destruct (d - 53) as [|n|n] eqn:Hn; [| lia |].
  - exists p, 0. rewrite binary_round_aux_53 by (replace d with 53 in * by lia; change (2 ^ (53 - 1)) with 4503599627370496 in *; change (2 ^ 53) with 9007199254740992 in *; lia).
    cbn [round_nearest_even]. cbv zeta.
    replace (Z.pos p <? 9007199254740992) with true
      by (symmetry; apply Z.ltb_lt; lia).
    replace d with 53 in * by lia.
    change (2 ^ (53 - 1)) with 4503599627370496 in *.
    repeat split; try lia.
  - assert (Hnk : Z.pos n = 53 - d) by lia.
    pose proof (pos_iter_xO p n) as HA. rewrite Hnk in HA.
    assert (HAb : 4503599627370496 <= Z.pos (Pos.iter xO p n) < 9007199254740992).
    { rewrite HA. destruct Hpow as [H1 H2]. nia. }
    exists (Pos.iter xO p n), (53 - d).
    rewrite binary_round_aux_53 by lia.
    cbn [round_nearest_even]. cbv zeta.
    replace (Z.pos (Pos.iter xO p n) <? 9007199254740992) with true
      by (symmetry; apply Z.ltb_lt; lia).
    replace (- (53 - d)) with (Z.neg n) by lia.
    repeat split; lia.
Qed.

Lemma div_eucl_div_mod (a b : Z) : Z.div_eucl a b = (a / b, a mod b).
Proof. unfold Z.div, Z.modulo. destruct (Z.div_eucl a b). reflexivity. Qed.

Lemma of_int_100 : of_int 100 = S754_finite false 7036874417766400 (-46).
Proof. reflexivity. Qed.

(** Division of a normalised value by one hundred, down to the rounding of
    the integer quotient [A * 2^53 / (100 * 2^46)]. *)
Lemma div_100_finite (s : bool) (A : positive) (E : Z) :
  4503599627370496 <= Z.pos A < 9007199254740992 -> -52 <= E <= 971 ->
  div (S754_finite s A E) (of_int 100) =
    binary_round_aux 53 1024 s
      (Z.pos A * 9007199254740992 / 7036874417766400) (E - 7)
      (new_location 7036874417766400
         ((Z.pos A * 9007199254740992) mod 7036874417766400)).
Proof.
  intros HA HE. rewrite of_int_100. unfold div, SFdiv, SFdiv_core_binary.
  rewrite (Zdigits2_53 (Z.pos A)) by exact HA.
  change (Zdigits2 (Z.pos 7036874417766400)) with 53.
  unfold fexp, emin.
  replace (Z.min (Z.max (53 + E - (53 + -46) - 53) (3 - 1024 - 53)) (E - -46))
    with (E - 7) by lia.
  replace (E - -46 - (E - 7)) with 53 by lia.
  rewrite Z.shiftl_mul_pow2 by lia. change (2 ^ 53) with 9007199254740992.
  rewrite div_eucl_div_mod, xorb_false_r. reflexivity.
Qed.

(** Step 11a of [toFixed(2)] recovers the integer [a] from any value
    [m * 2^(-j-7)] that is within [2^(-j-8) * 100 / 256] of [a / 100]. *)
Lemma nearest_scaled_eq (m : positive) (j a : Z) :
  0 <= j ->
  -100 <= 200 * Z.pos m - 256 * (a * 2 ^ j) <= 100 ->
  nearest_scaled 2 m (- j - 7) = a.
Proof.
  intros Hj Hb. unfold nearest_scaled.
  replace (0 <=? - j - 7) with false by (symmetry; apply Z.leb_gt; lia).
  change (10 ^ Z.of_nat 2) with 100.
  replace (- (- j - 7)) with (j + 7) by lia.
  replace (1 - (- j - 7)) with (j + 8) by lia.
  rewrite !Z.pow_add_r by lia.
  change (2 ^ 7) with 128. change (2 ^ 8) with 256.
  assert (HJ : 0 < 2 ^ j) by (apply Z.pow_pos_nonneg; lia).
  set (J := 2 ^ j) in *. set (P := a * J) in *.
  symmetry.
  apply Z.div_unique with (r := 2 * Z.pos m * 100 + J * 128 - 256 * P).
  - left. lia.
  - replace (J * 256 * a) with (256 * P) by (subst P; ring). lia.
Qed.

Lemma below_1e21 (m : positive) (e : Z) :
  Z.pos m < 9007199254740992 -> e < 0 -> at_least_1e21 m e = false.
Proof.
  intros Hm He. unfold at_least_1e21.
  replace (0 <=? e) with false by (symmetry; apply Z.leb_gt; lia).
  apply Z.leb_gt. change (10 ^ 21) with 1000000000000000000000.
  assert (0 < 2 ^ (- e)) by (apply Z.pow_pos_nonneg; lia). nia.
Qed.

(** The heart of the matter: for an integer [0 < a < 100 * 2^46] the
    quotient computed in binary64 is close enough to [a / 100] for
    [toFixed(2)] to find [a] again. *)
Lemma div_100_nearest (s : bool) (p : positive) :
  Z.pos p < 7036874417766400 ->
  exists (m : positive) (e : Z),
    div (binary_round 53 1024 s p 0) (of_int 100) = S754_finite s m e /\
    at_least_1e21 m e = false /\
    nearest_scaled 2 m e = Z.pos p.
Proof.
  intros Hp.
  destruct (binary_round_int s p ltac:(lia)) as (A & k & Hk & -> & HA & HAb).
  rewrite div_100_finite by lia.
  set (N := Z.pos A * 9007199254740992).
  pose proof (Z.div_mod N 7036874417766400 ltac:(lia)) as Hdm.
  pose proof (Z.mod_pos_bound N 7036874417766400 ltac:(lia)) as Hr.
  set (q := N / 7036874417766400) in *. set (r := N mod 7036874417766400) in *.
  assert (HJ : 0 < 2 ^ k) by (apply Z.pow_pos_nonneg; lia).
  assert (Hq : 4503599627370496 <= q < 18014398509481984) by (subst N; lia).
  destruct (Z.lt_ge_cases q 9007199254740992) as [Hq53|Hq54].
  - rewrite binary_round_aux_53 by lia.
    pose proof (round_location_53 q r Hr) as Hb. cbv zeta in Hb |- *.
    pose proof (round_nearest_even_range q (new_location 7036874417766400 r)) as Hm.
    set (mr := round_nearest_even q (new_location 7036874417766400 r)) in *.
    destruct (Z.ltb_spec mr 9007199254740992) as [Hlt|Hge].
    + destruct mr as [|m|m] eqn:Emr; try lia. cbn [Z.to_pos].
      exists m, (- k - 7). split; [reflexivity|]. split.
      * apply below_1e21; lia.
      * apply nearest_scaled_eq; [lia|]. subst N. lia.
    + (* the rounding carried into the next binade *)
      assert (Hmr : mr = 9007199254740992) by lia.
      assert (Hk1 : 1 <= k).
      { destruct (Z.eq_dec k 0) as [->|]; [|lia].
        change (2 ^ 0) with 1 in *. subst N. lia. }
      exists 4503599627370496%positive, (- (k - 1) - 7).
      split; [f_equal; lia|]. split.
      * apply below_1e21; lia.
      * apply nearest_scaled_eq; [lia|].
        assert (Hpow : 2 ^ k = 2 * 2 ^ (k - 1)).
        { rewrite <- Z.pow_succ_r by lia. f_equal. lia. }
        assert (0 < 2 ^ (k - 1)) by (apply Z.pow_pos_nonneg; lia).
        subst N. nia.
  - assert (Hk1 : 1 <= k).
    { destruct (Z.eq_dec k 0) as [->|]; [|lia].
      change (2 ^ 0) with 1 in *. subst N. lia. }
    assert (Hpow : 2 ^ k = 2 * 2 ^ (k - 1)).
    { rewrite <- Z.pow_succ_r by lia. f_equal. lia. }
    assert (0 < 2 ^ (k - 1)) by (apply Z.pow_pos_nonneg; lia).
    rewrite binary_round_aux_54 by lia.
    pose proof (round_location_54 q r ltac:(lia) Hr) as Hb. cbv zeta in Hb |- *.
    set (mrs := shr_1 (shr_record_of_loc q (new_location 7036874417766400 r))) in *.
    assert (Hh : shr_m mrs = q / 2)
      by (subst mrs; rewrite shr_1_record_of_loc by lia; reflexivity).
    pose proof (round_nearest_even_range (shr_m mrs) (loc_of_shr_record mrs)) as Hm.
    set (mr := round_nearest_even (shr_m mrs) (loc_of_shr_record mrs)) in *.
    assert (Hq2 : 4503599627370496 <= q / 2 < 9007199254740992 - 1).
    { split; [apply Z.div_le_lower_bound | apply Z.div_lt_upper_bound];
        subst N; lia. }
    replace (mr <? 9007199254740992) with true
      by (symmetry; apply Z.ltb_lt; lia).
    destruct mr as [|m|m] eqn:Emr; try lia. cbn [Z.to_pos].
    exists m, (- (k - 1) - 7). split; [f_equal; lia|]. split.
    + apply below_1e21; lia.
    + apply nearest_scaled_eq; [lia|]. subst N. nia.
Qed.

(** *** Decimal digits *)

Lemma digits_loop_acc (fuel : nat) :
  forall n acc, digits_loop fuel n acc = digits_loop fuel n [] ++ acc.
Proof.
  induction fuel as [|fuel IH]; intros n acc; [reflexivity|].
  cbn [digits_loop]. cbv zeta. destruct (n <? 10); [reflexivity|].
  rewrite (IH _ (_ :: acc)), (IH _ [_]), <- app_assoc. reflexivity.
Qed.

Lemma digits_loop_step (fuel : nat) (n : Z) :
  digits_loop (S fuel) n [] =
    if n <? 10 then [digit_of n]
    else digits_loop fuel (n / 10) [] ++ [digit_of n].
Proof.
  cbn [digits_loop]. cbv zeta. destruct (n <? 10); [reflexivity|].
  apply digits_loop_acc.
Qed.

Lemma digits_loop_fuel (f1 : nat) :
  forall (f2 : nat) (n : Z),
    0 <= n < 2 ^ Z.of_nat (S f1) -> 0 <= n < 2 ^ Z.of_nat (S f2) ->
    digits_loop (S f1) n [] = digits_loop (S f2) n [].
Proof.
  induction f1 as [|f1 IH]; intros f2 n H1 H2.
  - rewrite (digits_loop_step 0 n), (digits_loop_step f2 n).
    change (2 ^ Z.of_nat 1) with 2 in H1.
    replace (n <? 10) with true by (symmetry; apply Z.ltb_lt; lia).
    reflexivity.
  - rewrite (digits_loop_step (S f1) n), (digits_loop_step f2 n).
    destruct (Z.ltb_spec n 10) as [Hlt|Hge]; [reflexivity|].
    destruct f2 as [|f2].
    { change (2 ^ Z.of_nat 1) with 2 in H2. lia. }
    f_equal. rewrite Nat2Z.inj_succ, Z.pow_succ_r in H1, H2 by lia.
    apply IH; split; try (apply Z.div_pos; lia);
      apply Z.div_lt_upper_bound; lia.
Qed.

Lemma decimal_digits_small (n : Z) :
  0 <= n < 10 -> decimal_digits n = [digit_of n].
Proof.
  intros Hn. unfold decimal_digits. rewrite digits_loop_step.
  replace (n <? 10) with true by (symmetry; apply Z.ltb_lt; lia).
  reflexivity.
Qed.

Lemma decimal_digits_step (n : Z) :
  10 <= n -> decimal_digits n = decimal_digits (n / 10) ++ [digit_of n].
Proof.
  intros Hn. unfold decimal_digits. rewrite digits_loop_step.
  replace (n <? 10) with false by (symmetry; apply Z.ltb_ge; lia).
  f_equal.
  assert (Hq : 0 < n / 10) by (apply Z.div_str_pos; lia).
  assert (Hlog : Z.log2 (n / 10) < Z.log2 n).
  { apply Z.log2_lt_pow2; [lia|].
    pose proof (Z.log2_spec n ltac:(lia)) as [_ Hu].
    pose proof (Z.log2_nonneg n).
    rewrite Z.pow_succ_r in Hu by lia.
    apply Z.div_lt_upper_bound; lia. }
  pose proof (Z.log2_nonneg (n / 10)).
  destruct (Z.to_nat (Z.log2 n)) as [|f] eqn:Ef; [lia|].
  assert (Hf : Z.of_nat (S f) = Z.log2 n) by lia.
  apply digits_loop_fuel.
  - split; [lia|]. rewrite Hf.
    apply Z.lt_le_trans with (2 ^ Z.succ (Z.log2 (n / 10))).
    + apply Z.log2_spec; lia.
    + apply Z.pow_le_mono_r; lia.
  - split; [lia|]. rewrite Nat2Z.inj_succ, Z2Nat.id by lia.
    apply Z.log2_spec; lia.
Qed.

(** Steps 11b and 11c for two fraction digits: the integer part, a dot and
    the two last digits. *)
Lemma fixed_digits_2 (n : Z) :
  0 <= n ->
  fixed_digits 2 n =
    decimal_digits (n / 100) ++ str "." ++ [digit_of (n / 10); digit_of n].
Proof.
  intros Hn. unfold fixed_digits.
  destruct (Z.lt_ge_cases n 10) as [H10|H10].
  - rewrite (decimal_digits_small n) by lia.
    rewrite (Z.div_small n 100) by lia. rewrite (Z.div_small n 10) by lia.
    reflexivity.
  - rewrite (decimal_digits_step n) by lia.
    destruct (Z.lt_ge_cases n 100) as [H100|H100].
    + rewrite (decimal_digits_small (n / 10))
        by (split; [apply Z.div_pos | apply Z.div_lt_upper_bound]; lia).
      rewrite (Z.div_small n 100) by lia. reflexivity.
    + rewrite (decimal_digits_step (n / 10))
        by (apply Z.div_le_lower_bound; lia).
      rewrite Z.div_div by lia. change (10 * 10) with 100.
      set (hi := decimal_digits (n / 100)).
      rewrite <- app_assoc. cbn [app].
      rewrite !length_app. cbn [length].
      replace (length hi + 2 <=? 2)%nat with false.
      2:{ symmetry. apply Nat.leb_gt.
          assert (0 < length hi)%nat; [|lia].
          subst hi. unfold decimal_digits. rewrite digits_loop_step.
          destruct (n / 100 <? 10); [cbn; lia|].
          rewrite length_app. cbn. lia. }
      rewrite !length_app. cbn [length].
      replace (length hi + 2 - 2)%nat with (length hi) by lia.
      rewrite take_app_length, drop_app_length. reflexivity.
Qed.

(** *** [formatCurrency] *)

Lemma formatCurrency_nonzero (ts : number -> jsstring) (s : bool) (p : positive) :
  Z.pos p <= 7036874417766400 ->
  Config.formatCurrency ts (binary_round 53 1024 s p 0) =
    Config.CURRENCY_SYMBOL ++ (if s then str "-" else []) ++
    decimal_digits (Z.pos p / 100) ++ str "." ++
    [digit_of (Z.pos p / 10); digit_of (Z.pos p)].
Proof.
  intros Hp. destruct (Z.eq_dec (Z.pos p) 7036874417766400) as [E|E].
  - injection E as ->. destruct s; vm_compute; reflexivity.
  - destruct (div_100_nearest s p ltac:(lia)) as (m & e & Hdiv & H21 & Hn).
    unfold Config.formatCurrency. cbv zeta. rewrite Hdiv.
    unfold toFixed. rewrite H21, Hn, fixed_digits_2 by lia.
    reflexivity.
Qed.

(** C2 (amended). For every integer amount [a] of minor units with
    [|a| <= 7036874417766400 = 100 * 2^46], [formatCurrency] yields the
    currency symbol followed by [a / 100] with exactly two decimal places;
    in particular 1234, 0 and 100000 give "€12.34", "€0.00" and
    "€1000.00". *)
Theorem formatCurrency_two_decimals (ts : number -> jsstring) (a : Z) :
  Z.abs a <= 7036874417766400 ->
  Config.formatCurrency ts (of_int a) =
    Config.CURRENCY_SYMBOL ++ Config.two_decimals a /\
  Config.formatCurrency ts (of_int 1234) = str "€12.34" /\
  Config.formatCurrency ts (of_int 0) = str "€0.00" /\
  Config.formatCurrency ts (of_int 100000) = str "€1000.00".
Proof.
  intros Ha. split; [|repeat split; vm_compute; reflexivity].
  destruct a as [|p|p].
  - vm_compute. reflexivity.
  - change (of_int (Z.pos p)) with (binary_round 53 1024 false p 0).
    rewrite formatCurrency_nonzero by lia. reflexivity.
  - change (of_int (Z.neg p)) with (binary_round 53 1024 true p 0).
    rewrite formatCurrency_nonzero by lia. reflexivity.
Qed.

Lemma formatCurrency_two_decimals_witness :
  Config.formatCurrency (fun _ => []) (of_int 500) = str "€5.00".
Proof.
  apply (formatCurrency_two_decimals (fun _ => []) 500). vm_compute. discriminate.
Defined.

(** C2, as stated, fails one cent above the bound: the quotient
    [7036874417766401 / 100] is rounded to [70368744177664.015625], which
    [toFixed(2)] renders as "....02". *)
Lemma formatCurrency_two_decimals_counterexample :
  ~ (forall (ts : number -> jsstring) (a : Z),
       Config.formatCurrency ts (of_int a) =
         Config.CURRENCY_SYMBOL ++ Config.two_decimals a).
Proof.
  intros H. specialize (H (fun _ => []) 7036874417766401).
  vm_compute in H. discriminate H.
Qed.

Example formatCurrency_above_bound (ts : number -> jsstring) :
  Config.formatCurrency ts (of_int 7036874417766401) = str "€70368744177664.02"
  /\ Config.two_decimals 7036874417766401 = str "70368744177664.01".
Proof. split; vm_compute; reflexivity. Qed.

(** *** Negative amounts of any size *)

Lemma shr_1_m (mrs : shr_record) :
  0 <= shr_m mrs -> shr_m (shr_1 mrs) = shr_m mrs / 2.
Proof.
  destruct mrs as [m r s]. cbn [shr_m]. intros Hm.
  assert (Hhalf : forall p, Z.pos p = (Z.pos p~0) / 2 /\ Z.pos p = (Z.pos p~1) / 2).
  { intros p. split;
      [apply Z.div_unique_pos with (r := 0) | apply Z.div_unique_pos with (r := 1)];
      lia. }
  destruct m as [|[p|p|]|p]; try lia; cbn [shr_1 shr_m];
    try reflexivity; apply (Hhalf p).
Qed.

Lemma iter_shr_1_m (n : positive) :
  forall mrs, 0 <= shr_m mrs ->
    shr_m (SpecFloat.iter_pos shr_1 n mrs) = shr_m mrs / 2 ^ Z.pos n.
Proof.
  assert (Hpos : forall k, 0 < 2 ^ Z.pos k) by (intros k; apply Z.pow_pos_nonneg; lia).
  induction n as [n IH|n IH|]; intros mrs Hm; cbn [SpecFloat.iter_pos].
  - assert (H1 : 0 <= shr_m (shr_1 mrs)).
    { rewrite shr_1_m by lia. apply Z.div_pos; lia. }
    assert (H2 : 0 <= shr_m (SpecFloat.iter_pos shr_1 n (shr_1 mrs))).
    { rewrite IH by lia. apply Z.div_pos; [lia | apply Hpos]. }
    rewrite IH, IH, shr_1_m by lia.
    pose proof (Hpos n).
    rewrite !Z.div_div by lia. f_equal.
    replace (Z.pos n~1) with (1 + Z.pos n + Z.pos n) by lia.
    rewrite !Z.pow_add_r by lia. change (2 ^ 1) with 2. ring.
  - assert (H2 : 0 <= shr_m (SpecFloat.iter_pos shr_1 n mrs)).
    { rewrite IH by lia. apply Z.div_pos; [lia | apply Hpos]. }
    rewrite IH, IH by lia. pose proof (Hpos n).
    rewrite Z.div_div by lia. f_equal.
    replace (Z.pos n~0) with (Z.pos n + Z.pos n) by lia.
    rewrite !Z.pow_add_r by lia. reflexivity.
  - rewrite shr_1_m by lia. reflexivity.
Qed.

(** The binary64 value of a non-zero integer keeps its sign and is never a
    zero or a NaN: it is a normal number or, from [2^1024] on, an
    infinity. *)
Lemma binary_round_cases (s : bool) (p : positive) :
  match binary_round 53 1024 s p 0 with
  | S754_finite s' A E =>
      s' = s /\ 4503599627370496 <= Z.pos A < 9007199254740992
      /\ -52 <= E <= 971
  | S754_infinity s' => s' = s
  | _ => False
  end.
Proof.
  destruct (Z.lt_ge_cases (Z.pos p) 9007199254740992) as [Hlt|Hge].
  { destruct (binary_round_int s p Hlt) as (A & k & Hk & -> & _ & Hb).
    repeat split; lia. }
  pose proof (digits2_pos_bounds p) as [Hlo Hhi].
  set (d := Z.pos (digits2_pos p)) in *.
  assert (Hd : 54 <= d).
  { destruct (Z.le_gt_cases 54 d) as [H|H]; [exact H|exfalso].
    assert (2 ^ d <= 2 ^ 53) by (apply Z.pow_le_mono_r; lia).
    change (2 ^ 53) with 9007199254740992 in *. lia. }
  unfold binary_round, shl_align, fexp, emin. fold d.
  replace (Z.max (d + 0 - 53) (3 - 1024 - 53) - 0) with (d - 53) by lia.
  replace (Z.max (d + 0 - 53) (3 - 1024 - 53)) with (d - 53) by lia.
  destruct (d - 53) as [|n|n] eqn:Hn; try lia.
  unfold binary_round_aux, shr_fexp at 1.
  change (Zdigits2 (Z.pos p)) with d.
  unfold fexp, emin.
  replace (Z.max (d + 0 - 53) (3 - 1024 - 53) - 0) with (Z.pos n) by lia.
  cbn [shr shr_record_of_loc].
  set (mrs := SpecFloat.iter_pos shr_1 n _).
  assert (Hm : 4503599627370496 <= shr_m mrs < 9007199254740992).
  { subst mrs. rewrite iter_shr_1_m by (cbn; lia). cbn [shr_m].
    assert (H1 : 2 ^ (d - 1) = 4503599627370496 * 2 ^ Z.pos n).
    { replace (d - 1) with (52 + Z.pos n) by lia.
      rewrite Z.pow_add_r by lia. reflexivity. }
    assert (H2 : 2 ^ d = 9007199254740992 * 2 ^ Z.pos n).
    { replace d with (53 + Z.pos n) by lia.
      rewrite Z.pow_add_r by lia. reflexivity. }
    assert (0 < 2 ^ Z.pos n) by (apply Z.pow_pos_nonneg; lia).
    split; [apply Z.div_le_lower_bound | apply Z.div_lt_upper_bound]; lia. }
  pose proof (round_nearest_even_range (shr_m mrs) (loc_of_shr_record mrs)) as Hr.
  set (mr := round_nearest_even (shr_m mrs) (loc_of_shr_record mrs)) in *.
  destruct (Z.lt_ge_cases mr 9007199254740992) as [Hmr|Hmr].
  - rewrite shr_fexp_53 by lia. cbn [shr_record_of_loc shr_m].
    destruct mr as [|m|m] eqn:Emr; try lia.
    destruct (Z.leb_spec (0 + Z.pos n) (1024 - 53)); [|reflexivity].
    repeat split; lia.
  - replace mr with 9007199254740992 by lia.
    rewrite shr_fexp_54 by lia. cbn [shr_record_of_loc shr_1 shr_m].
    destruct (Z.leb_spec (0 + Z.pos n + 1) (1024 - 53)); [|reflexivity].
    repeat split; lia.
Qed.

Lemma div_100_sign (s : bool) (A : positive) (E : Z) :
  4503599627370496 <= Z.pos A < 9007199254740992 -> -52 <= E <= 971 ->
  exists (m : positive) (e : Z),
    div (S754_finite s A E) (of_int 100) = S754_finite s m e.
Proof.
  intros HA HE. rewrite div_100_finite by lia.
  set (N := Z.pos A * 9007199254740992).
  pose proof (Z.div_mod N 7036874417766400 ltac:(lia)) as Hdm.
  pose proof (Z.mod_pos_bound N 7036874417766400 ltac:(lia)) as Hr.
  set (q := N / 7036874417766400) in *. set (r := N mod 7036874417766400) in *.
  assert (Hq : 4503599627370496 <= q < 18014398509481984 - 2) by (subst N; lia).
  destruct (Z.lt_ge_cases q 9007199254740992) as [Hq53|Hq54].
  - rewrite binary_round_aux_53 by lia. cbv zeta.
    pose proof (round_nearest_even_range q (new_location 7036874417766400 r)) as Hm.
    destruct (_ <? _); [|eauto].
    destruct (round_nearest_even q _) as [|m|m]; try lia. cbn [Z.to_pos]. eauto.
  - rewrite binary_round_aux_54 by lia. cbv zeta.
    set (mrs := shr_1 _).
    assert (Hh : shr_m mrs = q / 2)
      by (subst mrs; rewrite shr_1_record_of_loc by lia; reflexivity).
    pose proof (round_nearest_even_range (shr_m mrs) (loc_of_shr_record mrs)) as Hm.
    assert (Hq2 : 4503599627370496 <= q / 2)
      by (apply Z.div_le_lower_bound; lia).
    destruct (_ <? _); [|eauto].
    destruct (round_nearest_even (shr_m mrs) _) as [|m|m]; try lia.
    cbn [Z.to_pos]. eauto.
Qed.

(** C9. For every negative integer amount the result starts with the
    currency symbol, and the minus sign comes right after it; down to
    [-7036874417766400] what follows is the magnitude with two decimal
    places, so that [formatCurrency(-1234)] is "€-12.34". *)
Theorem formatCurrency_negative (ts : number -> jsstring) (a : Z) :
  a < 0 ->
  (exists rest : jsstring,
     Config.formatCurrency ts (of_int a) =
       Config.CURRENCY_SYMBOL ++ str "-" ++ rest) /\
  (-7036874417766400 <= a ->
     Config.formatCurrency ts (of_int a) =
       Config.CURRENCY_SYMBOL ++ str "-" ++ Config.two_decimals (- a)) /\
  Config.formatCurrency ts (of_int (-1234)) = str "€-12.34".
Proof.
  intros Ha. destruct a as [|p|p]; try lia.
  change (of_int (Z.neg p)) with (binary_round 53 1024 true p 0).
  split; [|split].
  - unfold Config.formatCurrency. cbv zeta.
    pose proof (binary_round_cases true p) as Hc.
    destruct (binary_round 53 1024 true p 0) as [?|s'| |s' A E];
      try contradiction.
    + subst s'. exists (str "Infinity"). reflexivity.
    + destruct Hc as (-> & HA & HE).
      destruct (div_100_sign true A E HA HE) as (m & e & ->).
      cbn [toFixed]. eauto.
  - intros Hlo. rewrite formatCurrency_nonzero by lia. reflexivity.
  - vm_compute. reflexivity.
Qed.

Lemma formatCurrency_negative_witness :
  Config.formatCurrency (fun _ => []) (of_int (-1)) =
    Config.CURRENCY_SYMBOL ++ str "-" ++ Config.two_decimals 1.
Proof.
  destruct (formatCurrency_negative (fun _ => []) (-1) ltac:(lia)) as (_ & H & _).
  apply H. lia.
Defined.

(** ** Environment name *)

(** With an [ENV_NAMES] table in [CONFIG] the helper returns the label of
    the current key, and "Unknown" for a key that has no label (or an
    empty one) and is not a name of [Object.prototype]; for such a name
    without a label it returns the inherited member. *)
Lemma getCurrentEnvironmentName_with_table
    (H : host) (names : gmap jsstring jsstring) (env : option jsstring) :
  let cfg := {| Config.ENV_NAMES := Some names; Config.CURRENT_ENV := env |} in
  (forall label, names !! Config.environment_key cfg = Some label ->
     label <> [] ->
     Config.getCurrentEnvironmentName H cfg = Return (Config.Plain label)) /\
  (names !! Config.environment_key cfg = None ->
     Config.getCurrentEnvironmentName H cfg =
       if existsb (jsstring_eqb (Config.environment_key cfg)) Config.Object_prototype
       then Return (Config.Builtin (Config.environment_key cfg))
       else Return (Config.Plain (str "Unknown"))).
Proof.
  cbv zeta. unfold Config.getCurrentEnvironmentName, Config.read.
  cbn [Config.ENV_NAMES]. split.
  - intros label Hl Hne. rewrite Hl. destruct label; [contradiction | reflexivity].
  - intros Hl. rewrite Hl.
    destruct (existsb _ Config.Object_prototype); reflexivity.
Qed.

Example getCurrentEnvironmentName_dev (H : host) :
  Config.getCurrentEnvironmentName H
    {| Config.ENV_NAMES := Some {[ str "dev" := str "Development" ]};
       Config.CURRENT_ENV := Some (str "dev") |} =
    Return (Config.Plain (str "Development"))
  /\ Config.getCurrentEnvironmentName H
    {| Config.ENV_NAMES := Some {[ str "dev" := str "Development" ]};
       Config.CURRENT_ENV := Some (str "staging") |} =
    Return (Config.Plain (str "Unknown"))
  /\ Config.getCurrentEnvironmentName H
    {| Config.ENV_NAMES := Some {[ str "dev" := str "Development" ]};
       Config.CURRENT_ENV := Some (str "toString") |} =
    Return (Config.Builtin (str "toString")).
Proof. split_all; reflexivity. Qed.

(** C8, on the [CONFIG] of the file. The object has no [ENV_NAMES]
    property, so the current key has no label; the call does not return
    "Unknown" but throws the [TypeError] of a property read on
    [undefined]. *)
Theorem getCurrentEnvironmentName_throws (H : host) :
  Config.getCurrentEnvironmentName H Config.CONFIG =
    Throw {| error_name := str "TypeError";
             message := type_error_message H Undefined (str "undefined") |}
  /\ Config.getCurrentEnvironmentName H Config.CONFIG <> Return (Config.Plain (str "Unknown")).
Proof. split; [reflexivity | discriminate]. Qed.
(** ** The scanner *)

Lemma isScanning_after_stop (s : Scanner.scanner) :
  Scanner.isScanning (Scanner.stop s) = Scanner.stop_fails s.
Proof.
  unfold Scanner.stop, Scanner.stop_fails, Scanner.stop_throws, Scanner.Quagga_stop.
  destruct (Scanner.isScanning s) eqn:E; [|cbn; exact E].
  destruct (Scanner.stop_errors (Scanner.Quagga s)) as [|[e|] later]; reflexivity.
Qed.

Lemma stop_isScanning (s : Scanner.scanner) :
  Scanner.stop_fails s = false -> Scanner.isScanning (Scanner.stop s) = false.
Proof. intros E. rewrite isScanning_after_stop. exact E. Qed.

Lemma stop_keeps_callbacks (s : Scanner.scanner) :
  Scanner.onScanResult (Scanner.stop s) = Scanner.onScanResult s /\
  Scanner.onScanError (Scanner.stop s) = Scanner.onScanError s /\
  Scanner.flashEnabled (Scanner.stop s) = Scanner.flashEnabled s /\
  Scanner.scannerInitialized (Scanner.stop s) = false /\
  Scanner.detected_handlers (Scanner.Quagga (Scanner.stop s)) = O.
Proof.
  unfold Scanner.stop, Scanner.Quagga_stop.
  destruct (Scanner.isScanning s); [|split_all; reflexivity].
  destruct (Scanner.stop_errors (Scanner.Quagga s)) as [|[e|] later];
    split_all; reflexivity.
Qed.








(** ** The scanner manager *)

Lemma stop_idempotent (s : Scanner.scanner) :
  Scanner.stop_fails s = false -> Scanner.stop (Scanner.stop s) = Scanner.stop s.
Proof.
  intros Hs. pose proof (stop_isScanning s Hs) as E.
  unfold Scanner.stop at 1. rewrite E.
  revert E. unfold Scanner.stop, Scanner.Quagga_stop.
  destruct (Scanner.isScanning s); [|reflexivity].
  destruct (Scanner.stop_errors (Scanner.Quagga s)) as [|[e|] later];
    intros E; try reflexivity; discriminate E.
Qed.

Lemma clearTimeout_not_in (t : positive) (pending : list positive) :
  ~ In t (Manager.clearTimeout t pending).
Proof.
  unfold Manager.clearTimeout. rewrite filter_In, negb_true_iff, Pos.eqb_neq.
  tauto.
Qed.

Lemma clearTimeout_only (t : positive) (pending : list positive) :
  (forall t', In t' pending -> t' = t) -> Manager.clearTimeout t pending = [].
Proof.
  intros H. induction pending as [|x l IH]; [reflexivity|].
  cbn. rewrite (H x) by (left; reflexivity). rewrite Pos.eqb_refl. cbn.
  apply IH. intros t' Ht'. apply H. right. exact Ht'.
Qed.

Lemma clearTimeout_subset (t t' : positive) (pending : list positive) :
  In t' (Manager.clearTimeout t pending) -> In t' pending.
Proof. unfold Manager.clearTimeout. rewrite filter_In. tauto. Qed.





(** A valid detection during a session the manager started: the scanner
    runs [stop()], its callback is the manager's [handleScanResult], which
    closes the modal and hands the barcode on. *)
Lemma detection_valid (m : Manager.manager) (code : jsstring) :
  Scanner.isScanning (Manager.scanner m) = true ->
  Scanner.onScanResult (Manager.scanner m) = Some Scanner.Manager_handleScanResult ->
  Config.sixteen_digits code ->
  Manager.detection code m =
    (Manager.closeScannerModal
       (Session.with_scanner (Scanner.stop (Manager.scanner m)) m),
     option_map
       (fun f => {| Manager.callee := f; Manager.barcode_arg := Some code;
                    Manager.error_arg := None |})
       (Manager.onScanComplete m)).
Proof.
  intros Ha Hcb Hv. apply isValidBarcode_spec in Hv.
  unfold Manager.detection, Scanner.handleDetection. rewrite Ha, Hv.
  cbn [negb]. destruct (stop_keeps_callbacks (Manager.scanner m)) as (-> & _).
  rewrite Hcb.
  cbn [Manager.deliver]. unfold Manager.handleScanResult, Session.with_scanner.
  cbn [Manager.closeScannerModal Manager.onScanComplete].
  destruct (Manager.onScanComplete m); reflexivity.
Qed.

Lemma detection_closes_modal (m : Manager.manager) (code : jsstring) :
  Scanner.isScanning (Manager.scanner m) = true ->
  Scanner.onScanResult (Manager.scanner m) = Some Scanner.Manager_handleScanResult ->
  Config.sixteen_digits code ->
  Scanner.stop_fails (Manager.scanner m) = false ->
  Manager.detection code m =
    (Manager.closeScannerModal m,
     option_map
       (fun f => {| Manager.callee := f; Manager.barcode_arg := Some code;
                    Manager.error_arg := None |})
       (Manager.onScanComplete m)).
Proof.
  intros Ha Hcb Hv Hs. rewrite (detection_valid m code Ha Hcb Hv).
  unfold Manager.closeScannerModal, Session.with_scanner.
  cbn [Manager.scanner Manager.modal Manager.onScanComplete Manager.scanTimeout
       Manager.timeouts].
  rewrite (stop_idempotent _ Hs). reflexivity.
Qed.

(** An error of the scanner reaches the completion callback as
    [(null, error)]. *)
Lemma handleScanError_reports (m : Manager.manager) (error : jsstring) :
  snd (Manager.handleScanError error m) =
    option_map
      (fun f => {| Manager.callee := f; Manager.barcode_arg := None;
                   Manager.error_arg := Some error |})
      (Manager.onScanComplete m).
Proof.
  unfold Manager.handleScanError. cbn [snd Manager.closeScannerModal Manager.onScanComplete].
  destruct (Manager.onScanComplete m); reflexivity.
Qed.

(** ** The application controller *)

Lemma jsstring_eqb_eq (a b : jsstring) : jsstring_eqb a b = true <-> a = b.
Proof.
  revert b. induction a as [|x a IH]; intros [|y b]; cbn; try (split; congruence).
  rewrite andb_true_iff, N.eqb_eq, IH. split; [intros [-> ->]; reflexivity|].
  intros E. injection E as -> ->. split; reflexivity.
Qed.

(** Removing every match of a one-character class keeps the other
    characters, in order. *)
Lemma replace_loop_class (c : N -> bool) (fuel : nat) :
  forall (bol : bool) (s : jsstring),
    (length s < fuel)%nat ->
    replace_loop fuel (RClass c) bol s = List.filter (fun x => negb (c x)) s.
Proof.
  induction fuel as [|fuel IH]; intros bol s Hlen; [lia|].
  destruct s as [|x s]; [reflexivity|].
  cbn [replace_loop match_here rmatch List.filter length] in *.
  destruct (c x); cbn [negb].
  - replace (length s <? S (length s))%nat with true
      by (symmetry; apply Nat.ltb_lt; lia).
    apply IH. lia.
  - f_equal. apply IH. lia.
Qed.

Lemma strip_non_digits (v : jsstring) :
  replace_all_empty (RClass is_non_digit) v = List.filter is_digit v.
Proof.
  unfold replace_all_empty. rewrite replace_loop_class by lia.
  apply List.filter_ext. intros x. unfold is_non_digit. apply negb_involutive.
Qed.

(** C4. After the input handler has run, the value of the barcode field
    is what was in the field with every non-digit removed, cut down to its
    first 16 characters: "12a34" becomes "1234", and of 20 digits the first
    16 stay. *)
Theorem handleBarcodeInput_stored_value (s : App.app) :
  App.barcodeInput_value (App.handleBarcodeInput s) =
    firstn 16 (List.filter is_digit (App.barcodeInput_value s)) /\
  (App.barcodeInput_value s = str "12a34" ->
     App.barcodeInput_value (App.handleBarcodeInput s) = str "1234") /\
  (App.barcodeInput_value s = str "12345678901234567890" ->
     App.barcodeInput_value (App.handleBarcodeInput s) = str "1234567890123456").
Proof.
  assert (Hv : App.barcodeInput_value (App.handleBarcodeInput s) =
               firstn 16 (List.filter is_digit (App.barcodeInput_value s))).
  { unfold App.handleBarcodeInput. cbv zeta. rewrite strip_non_digits.
    set (v := App.barcodeInput_value s).
    set (d := List.filter is_digit v).
    set (s1 := if jsstring_eqb d v then s else App.set_barcodeInput_value d s).
    assert (H1 : App.barcodeInput_value s1 = d).
    { subst s1. destruct (jsstring_eqb d v) eqn:E; [|reflexivity].
      apply jsstring_eqb_eq in E. symmetry. exact E. }
    set (s2 := if (16 <? length d)%nat
               then App.set_barcodeInput_value (substring0 16 d) s1 else s1).
    assert (H2 : App.barcodeInput_value s2 = firstn 16 d).
    { subst s2. destruct (16 <? length d)%nat eqn:E; [reflexivity|].
      apply Nat.ltb_ge in E. rewrite H1. symmetry. apply firstn_all2. exact E. }
    set (s3 := match App.currentBarcode s2 with
               | Some b => if jsstring_eqb b (App.barcodeInput_value s2) then s2
                           else App.resetResults s2
               | None => App.resetResults s2
               end).
    assert (H3 : App.barcodeInput_value s3 = firstn 16 d).
    { subst s3. destruct (App.currentBarcode s2) as [b|];
        [destruct (jsstring_eqb b _)|]; exact H2. }
    destruct (length (App.barcodeInput_value s3) =? 16)%nat; exact H3. }
  split; [exact Hv|]. split; intros E; rewrite Hv, E; reflexivity.
Qed.

Lemma handleBarcodeInput_stored_value_witness :
  App.barcodeInput_value (App.handleBarcodeInput (Sample.typed (str "12a34")))
    = str "1234" /\
  App.barcodeInput_value
    (App.handleBarcodeInput (Sample.typed (str "12345678901234567890")))
    = str "1234567890123456".
Proof.
  split.
  - destruct (handleBarcodeInput_stored_value (Sample.typed (str "12a34")))
      as (_ & H & _).
    apply H. reflexivity.
  - destruct (handleBarcodeInput_stored_value
                (Sample.typed (str "12345678901234567890"))) as (_ & _ & H).
    apply H. reflexivity.
Defined.

(** *** The backend call *)


Lemma showError_then_done (msg : jsstring) (s : App.app) :
  let s' := App.setLookupState false (App.showError msg s) in
  App.errorMessage s' = App.set_text msg (App.errorMessage s) /\
  App.errorSection_hidden s' = false /\
  App.loadingSection_hidden s' = true /\
  App.successSection_hidden s' = true /\
  App.isLookingUp s' = false.
Proof. cbv zeta. repeat split. Qed.




Lemma network_error_is_not_unexpected (msg : jsstring) (node : option jsstring) :
  App.set_text (str "Network error: " ++ msg) node
    <> Some (str "Unexpected response from server").
Proof.
  destruct node as [old|]; unfold App.set_text; [|discriminate].
  intros E.
  apply (f_equal (fun o => match o with Some (c :: _) => c | _ => 0%N end)) in E.
  vm_compute in E. discriminate E.
Qed.

(** A body that is the JSON value [null]: the read of [result] throws
    inside [getCardBalance] itself. *)
Lemma getCardBalance_null_body (H : host) (barcode : jsstring) :
  snd (App.getCardBalance H barcode) (Return {| App.json := Return JNull |}) =
    Throw {| error_name := str "TypeError";
             message := type_error_message H JNull (str "result") |}.
Proof. reflexivity. Qed.

Lemma set_text_some (text old : jsstring) : App.set_text text (Some old) = Some text.
Proof. reflexivity. Qed.

Lemma shown_network_error (msg : jsstring) (s : App.app) :
  let s' := App.setLookupState false (App.showError (str "Network error: " ++ msg) s) in
  App.errorMessage s' = App.set_text (str "Network error: " ++ msg) (App.errorMessage s) /\
  (forall old, App.errorMessage s = Some old ->
     App.errorMessage s' = Some (str "Network error: " ++ msg)) /\
  App.errorMessage s' <> Some (str "Unexpected response from server") /\
  App.errorSection_hidden s' = false /\
  App.isLookingUp s' = false.
Proof.
  cbv zeta.
  destruct (showError_then_done (str "Network error: " ++ msg) s)
    as (Hm & He & _ & _ & Hl).
  split_all.
  - exact Hm.
  - intros old Ho. rewrite Hm, Ho. reflexivity.
  - rewrite Hm. apply network_error_is_not_unexpected.
  - exact He.
  - exact Hl.
Qed.

(** C10, as the code has it.  When the response parses as JSON to a value
    other than [null] that has no [result] property, [getCardBalance]
    returns [undefined]; the read of [result.status] in [performLookup]
    then throws, and the failure is shown as "Network error: " with the
    message of that error, not as "Unexpected response from server".  A
    body [null] makes [getCardBalance] itself throw, and a [result] that
    is [null] makes the read throw: both are shown the same way.  A
    [result] that is a boolean, a number or a string is dispatched
    without an error and shown as "Unexpected response from server". *)
Theorem missing_result_is_network_error
    (H : host) (barcode : jsstring) (res : value) (s : App.app) :
  let settled :=
    snd (App.getCardBalance H barcode) (Return {| App.json := Return res |}) in
  let s' := App.performLookup_resume H settled s in
  let network_error (e : error) :=
    App.errorMessage s' =
      App.set_text (str "Network error: " ++ message e) (App.errorMessage s) /\
    (forall old, App.errorMessage s = Some old ->
       App.errorMessage s' = Some (str "Network error: " ++ message e)) /\
    App.errorMessage s' <> Some (str "Unexpected response from server") /\
    App.errorSection_hidden s' = false /\
    App.isLookingUp s' = false in
  (App.lacks_result res ->
     settled = Return Undefined /\
     exists e : error,
       get_property H Undefined (str "status") = Throw e /\
       App.handle_result H Undefined s = (s, Some e) /\
       network_error e) /\
  (res = JNull ->
     exists e : error, settled = Throw e /\ network_error e) /\
  (forall fields, res = JObj fields -> assoc (str "result") fields = Some JNull ->
     settled = Return JNull /\
     exists e : error,
       App.handle_result H JNull s = (s, Some e) /\ network_error e) /\
  (forall fields r, res = JObj fields -> assoc (str "result") fields = Some r ->
     App.primitive r ->
     settled = Return r /\
     snd (App.handle_result H r s) = None /\
     (forall old, App.errorMessage s = Some old ->
        App.errorMessage s' = Some (str "Unexpected response from server")) /\
     App.errorSection_hidden s' = false).
Proof.
  cbv zeta. split_all.
  - intros Hres.
    assert (E : snd (App.getCardBalance H barcode) (Return {| App.json := Return res |})
                = Return Undefined).
    { cbn [App.getCardBalance snd App.json].
      destruct res as [| |b|x|t|items|fields]; try contradiction; try reflexivity.
      cbn [App.lacks_result] in Hres. cbn [get_property]. rewrite Hres. reflexivity. }
    rewrite E. split; [reflexivity|].
    eexists. split; [reflexivity|]. split; [reflexivity|].
    unfold App.performLookup_resume. cbn [App.handle_result get_property message].
    apply (shown_network_error (type_error_message H Undefined (str "status")) s).
  - intros ->. eexists. split; [reflexivity|].
    cbn [App.getCardBalance snd App.json get_property].
    unfold App.performLookup_resume. cbn [message].
    apply (shown_network_error (type_error_message H JNull (str "result")) s).
  - intros fields -> Hr.
    assert (E : snd (App.getCardBalance H barcode)
                  (Return {| App.json := Return (JObj fields) |}) = Return JNull).
    { cbn [App.getCardBalance snd App.json get_property]. rewrite Hr. reflexivity. }
    rewrite E. split; [reflexivity|].
    eexists. split; [reflexivity|].
    unfold App.performLookup_resume. cbn [App.handle_result get_property message].
    apply (shown_network_error (type_error_message H JNull (str "status")) s).
  - intros fields r -> Hr Hp.
    assert (E : snd (App.getCardBalance H barcode)
                  (Return {| App.json := Return (JObj fields) |}) = Return r).
    { cbn [App.getCardBalance snd App.json get_property]. rewrite Hr. reflexivity. }
    rewrite E.
    assert (Eh : App.handle_result H r s =
                 (App.showError (str "Unexpected response from server") s, None)).
    { destruct r; try contradiction; reflexivity. }
    unfold App.performLookup_resume. rewrite Eh. cbn [snd].
    destruct (showError_then_done (str "Unexpected response from server") s)
      as (Hm & He & _).
    split_all.
    + reflexivity.
    + reflexivity.
    + intros old Ho. rewrite Hm, Ho. reflexivity.
    + exact He.
Qed.

Lemma missing_result_is_network_error_witness :
  App.errorMessage
    (App.performLookup_resume Sample.engine
       (snd (App.getCardBalance Sample.engine (str "1234567890123456"))
          (Return {| App.json := Return (JObj [(str "status", JStr (str "success"))]) |}))
       Sample.idle) =
    Some (str "Network error: "
          ++ str "Cannot read properties of undefined: " ++ str "status") /\
  App.errorMessage
    (App.performLookup_resume Sample.engine
       (snd (App.getCardBalance Sample.engine (str "1234567890123456"))
          (Return {| App.json := Return (JObj [(str "result", JNum (of_int 42))]) |}))
       Sample.idle) =
    Some (str "Unexpected response from server").
Proof.
  split.
  - destruct (missing_result_is_network_error Sample.engine
                (str "1234567890123456")
                (JObj [(str "status", JStr (str "success"))]) Sample.idle)
      as (W & _).
    destruct W as (_ & e & He & _ & _ & W & _); [reflexivity|].
    injection He as <-.
    apply (W []). reflexivity.
  - destruct (missing_result_is_network_error Sample.engine
                (str "1234567890123456")
                (JObj [(str "result", JNum (of_int 42))]) Sample.idle)
      as (_ & _ & _ & W).
    destruct (W [(str "result", JNum (of_int 42))] (JNum (of_int 42)) eq_refl eq_refl Logic.I)
      as (_ & _ & W' & _).
    apply (W' []). reflexivity.
Defined.

(** C10 as the claim words it fails for a body whose [result] is not an
    object, such as [{"result": 42}]: [getCardBalance] returns the
    number, not [undefined], nothing throws, and the page shows
    "Unexpected response from server". *)
Lemma missing_result_is_network_error_counterexample :
  ~ (forall (H : host) (barcode : jsstring) (res : value),
       App.no_result_object res ->
       snd (App.getCardBalance H barcode) (Return {| App.json := Return res |}) =
         Return Undefined) /\
  ~ (forall (H : host) (barcode : jsstring) (res : value) (s : App.app),
       App.no_result_object res ->
       App.errorMessage
         (App.performLookup_resume H
            (snd (App.getCardBalance H barcode) (Return {| App.json := Return res |})) s) <>
         Some (str "Unexpected response from server")).
Proof.
  assert (E : snd (App.getCardBalance Sample.engine (str "1234567890123456"))
                (Return {| App.json := Return (JObj [(str "result", JNum (of_int 42))]) |})
              = Return (JNum (of_int 42))) by reflexivity.
  split.
  - intros C.
    specialize (C Sample.engine (str "1234567890123456")
                  (JObj [(str "result", JNum (of_int 42))]) Logic.I).
    rewrite E in C. discriminate C.
  - intros C.
    apply (C Sample.engine (str "1234567890123456")
             (JObj [(str "result", JNum (of_int 42))]) Sample.idle Logic.I).
    rewrite E. reflexivity.
Qed.

(** *** One lookup at a time *)

(** While the flag is up, a further [performLookup()] on a valid input
    sends nothing and changes nothing. *)
Lemma performLookup_dropped (H : host) (s : App.app) :
  App.isLookingUp s = true ->
  Config.sixteen_digits (trim (App.barcodeInput_value s)) ->
  App.performLookup H s = (s, None).
Proof.
  intros Hl Hv. unfold App.performLookup. cbv zeta. rewrite Hl.
  apply isValidBarcode_spec in Hv. rewrite Hv.
  destruct (trim (App.barcodeInput_value s)); [discriminate Hv | reflexivity].
Qed.

(** It sends nothing whatever the input is: an empty or malformed input
    gets its validation message first. *)
Lemma performLookup_no_request (H : host) (s : App.app) :
  App.isLookingUp s = true -> snd (App.performLookup H s) = None.
Proof.
  intros Hl. unfold App.performLookup. cbv zeta. rewrite Hl.
  destruct (trim (App.barcodeInput_value s)); [reflexivity|].
  destruct (Config.isValidBarcode _); reflexivity.
Qed.

(** Every way a lookup ends lowers the flag. *)
Lemma isLookingUp_setLookupState (b : bool) (s : App.app) :
  App.isLookingUp (App.setLookupState b s) = b.
Proof. destruct b; reflexivity. Qed.

Lemma performLookup_resume_clears_flag (H : host) (settled : completion value) (s : App.app) :
  App.isLookingUp (App.performLookup_resume H settled s) = false.
Proof. unfold App.performLookup_resume. apply isLookingUp_setLookupState. Qed.

(** So does [resetUI()], whether a lookup is under way or not. *)
Lemma resetUI_clears_flag (s : App.app) : App.isLookingUp (App.resetUI s) = false.
Proof. reflexivity. Qed.

(** The guard does its work against every event but one. *)
Lemma isLookingUp_showError (msg : jsstring) (s : App.app) :
  App.isLookingUp (App.showError msg s) = App.isLookingUp s.
Proof. reflexivity. Qed.

Lemma isLookingUp_focus (s : App.app) :
  App.isLookingUp (App.focus s) = App.isLookingUp s.
Proof. unfold App.focus. destruct (App.barcodeInput_disabled s); reflexivity. Qed.

Lemma isLookingUp_handleBarcodeInput (s : App.app) :
  App.isLookingUp (App.handleBarcodeInput s) = App.isLookingUp s.
Proof.
  unfold App.handleBarcodeInput. cbv zeta.
  repeat match goal with
         | |- context [if ?b then _ else _] => destruct b
         | |- context [match App.currentBarcode ?x with _ => _ end] =>
             destruct (App.currentBarcode x)
         end; reflexivity.
Qed.

Lemma performLookup_flag (H : host) (s : App.app) :
  match snd (App.performLookup H s) with
  | Some _ =>
      App.isLookingUp s = false /\
      App.isLookingUp (fst (App.performLookup H s)) = true
  | None =>
      App.isLookingUp (fst (App.performLookup H s)) = App.isLookingUp s
  end.
Proof.
  unfold App.performLookup. cbv zeta.
  destruct (trim (App.barcodeInput_value s)) as [|c b] eqn:Et.
  - cbn [fst snd]. rewrite isLookingUp_focus. reflexivity.
  - destruct (Config.isValidBarcode (c :: b)); cbn [negb].
    + destruct (App.isLookingUp s) eqn:El; cbn [fst snd App.getCardBalance].
      * exact El.
      * split; [reflexivity|].
        transitivity (App.isLookingUp (App.setLookupState true s));
          [generalize (App.setLookupState true s); reflexivity
          | apply isLookingUp_setLookupState].
    + cbn [fst snd]. rewrite isLookingUp_focus. reflexivity.
Qed.

Lemma started_guarded (H : host) (p : App.page) (s : App.app) :
  App.guarded p ->
  App.isLookingUp s = App.isLookingUp (App.controller p) ->
  App.guarded (App.started p (App.performLookup H s)).
Proof.
  intros [Hlen Hflag] Hs. pose proof (performLookup_flag H s) as Hp.
  unfold App.guarded, App.started. cbn [App.controller App.in_flight].
  destruct (snd (App.performLookup H s)) as [r|].
  - destruct Hp as [Hoff Hon].
    assert (Hnil : App.in_flight p = []).
    { destruct (App.in_flight p) as [|x l]; [reflexivity|].
      rewrite Hs, Hflag in Hoff by discriminate. discriminate Hoff. }
    rewrite Hnil. split; [cbn; lia | intros _; exact Hon].
  - split; [exact Hlen|]. intros Hne. rewrite Hp, Hs. apply Hflag, Hne.
Qed.

Lemma quiet_guarded (p : App.page) (s : App.app) :
  App.guarded p ->
  App.isLookingUp s = App.isLookingUp (App.controller p) ->
  App.guarded (App.started p (s, None)).
Proof.
  intros [Hlen Hflag] Hs. split; [exact Hlen|].
  cbn [App.started App.controller App.in_flight fst snd].
  intros Hne. rewrite Hs. apply Hflag, Hne.
Qed.

Lemma guard_preserved (H : host) (e : App.event) (p : App.page) :
  App.guarded p ->
  (forall d, e <> App.Fire d App.AutoHideError) ->
  App.guarded (App.step H e p).
Proof.
  intros Hg He. destruct e as [|v|barcode error|d t|settled]; cbn [App.step]; cbv zeta.
  - apply started_guarded; [exact Hg | reflexivity].
  - destruct (App.barcodeInput_disabled (App.controller p)); [exact Hg|].
    apply quiet_guarded; [exact Hg|].
    rewrite isLookingUp_handleBarcodeInput. reflexivity.
  - unfold App.scanComplete.
    destruct error as [[|c e]|], barcode as [[|c' b]|];
      try (apply quiet_guarded; [exact Hg | reflexivity]);
      apply started_guarded; solve [exact Hg | reflexivity].
  - destruct (App.remove_timeout d t (App.timeouts (App.controller p))) as [rest|];
      [|exact Hg].
    destruct t; cbn [App.fire].
    + apply started_guarded; [exact Hg | reflexivity].
    + destruct (He d eq_refl).
    + apply quiet_guarded; [exact Hg|].
    rewrite isLookingUp_handleBarcodeInput. reflexivity.
  - destruct Hg as [Hlen Hflag].
    destruct (App.in_flight p) as [|[r k] rest] eqn:Ef;
      [unfold App.guarded; rewrite Ef; split; [exact Hlen | exact Hflag]|].
    destruct rest; [|cbn in Hlen; lia].
    split; [cbn; lia | intros Hne; destruct (Hne eq_refl)].
Qed.

(** C6, at a run of the page. A lookup is started; while its request is
    outstanding the scanner reports an error, whose message is hidden five
    seconds later by [resetUI()]; that lowers the flag, and the next call
    of [performLookup()] sends a second request although the first one has
    not settled. *)
Theorem second_lookup_while_in_flight (H : host) :
  let page0 := {| App.controller := Sample.typed (str "1234567890123456");
                  App.in_flight := [] |} in
  let page1 := App.step H App.Lookup page0 in
  let page2 := App.step H (App.Scan None (Some (str "Camera not supported on this device"))) page1 in
  let page3 := App.step H (App.Fire 5000 App.AutoHideError) page2 in
  let page4 := App.step H App.Lookup page3 in
  (length (App.in_flight page1) = 1%nat /\
   App.isLookingUp (App.controller page1) = true) /\
  (length (App.in_flight page2) = 1%nat /\
   App.isLookingUp (App.controller page2) = true /\
   App.errorSection_hidden (App.controller page2) = false) /\
  (length (App.in_flight page3) = 1%nat /\
   App.isLookingUp (App.controller page3) = false) /\
  length (App.in_flight page4) = 2%nat.
Proof.
  cbv zeta. split_all;
    vm_compute; reflexivity.
Qed.

(** * More of the scanner, the manager and the controller *)


(** X1. [getCurrentFirebaseConfig] returns the table's own entry for the
    current environment exactly when that entry exists and is truthy; an
    own entry that is falsy throws an [Error] that names the environment.
    Without an own entry the read goes on to [Object.prototype]: for a key
    that names one of its members ([constructor], [toString], ...) the
    function returns that inherited member and does not throw; for any
    other key it throws the [Error].  On the [CONFIG] of this file, which
    has no table, the read throws a [TypeError] instead. *)
Theorem getCurrentFirebaseConfig_lookup
    (H : host) (table : gmap jsstring value) (cfg : Config.config) :
  let key := Config.environment_key cfg in
  let inherited := existsb (jsstring_eqb key) Config.Object_prototype in
  let missing :=
    Throw {| error_name := str "Error";
             message := str "No Firebase configuration found for environment: " ++ key |} in
  (forall v, Environment.getCurrentFirebaseConfig H (Some table) cfg = Return (Config.Plain v) <->
             table !! key = Some v /\ truthy v = true) /\
  (forall v, table !! key = Some v -> truthy v = false ->
     Environment.getCurrentFirebaseConfig H (Some table) cfg = missing) /\
  (table !! key = None -> inherited = true ->
     Environment.getCurrentFirebaseConfig H (Some table) cfg = Return (Config.Builtin key)) /\
  (table !! key = None -> inherited = false ->
     Environment.getCurrentFirebaseConfig H (Some table) cfg = missing) /\
  Environment.getCurrentFirebaseConfig H None Config.CONFIG =
    Throw {| error_name := str "TypeError";
             message := type_error_message H Undefined (str "undefined") |}.
Proof.
  intros key inherited missing.
  unfold Environment.getCurrentFirebaseConfig, Config.read. fold key. fold inherited.
  split_all.
  - intros v. destruct (table !! key) as [w|] eqn:E.
    + destruct (truthy w) eqn:T.
      * split.
        -- intros [= ->]. auto.
        -- intros [[= ->] _]. reflexivity.
      * split.
        -- discriminate.
        -- intros [[= ->] T']. congruence.
    + destruct inherited; split; try discriminate; intros [? _]; discriminate.
  - intros v E T. rewrite E, T. reflexivity.
  - intros E I. rewrite E, I. reflexivity.
  - intros E I. rewrite E, I. reflexivity.
  - reflexivity.
Qed.

Lemma getCurrentFirebaseConfig_lookup_witness :
  Environment.getCurrentFirebaseConfig Sample.engine
    (Some {[ str "dev" := JNull ]})
    {| Config.ENV_NAMES := None; Config.CURRENT_ENV := Some (str "constructor") |} =
  Return (Config.Builtin (str "constructor")) /\
  Environment.getCurrentFirebaseConfig Sample.engine
    (Some {[ str "dev" := JNull ]})
    {| Config.ENV_NAMES := None; Config.CURRENT_ENV := Some (str "dev") |} =
  Throw {| error_name := str "Error";
           message := str "No Firebase configuration found for environment: " ++ str "dev" |} /\
  Environment.getCurrentFirebaseConfig Sample.engine
    (Some {[ str "dev" := JNull ]})
    {| Config.ENV_NAMES := None; Config.CURRENT_ENV := Some (str "prod") |} =
  Throw {| error_name := str "Error";
           message := str "No Firebase configuration found for environment: " ++ str "prod" |}.
Proof.
  split_all.
  - destruct (getCurrentFirebaseConfig_lookup Sample.engine {[ str "dev" := JNull ]}
                {| Config.ENV_NAMES := None; Config.CURRENT_ENV := Some (str "constructor") |})
      as (_ & _ & W & _).
    apply W; vm_compute; reflexivity.
  - destruct (getCurrentFirebaseConfig_lookup Sample.engine {[ str "dev" := JNull ]}
                {| Config.ENV_NAMES := None; Config.CURRENT_ENV := Some (str "dev") |})
      as (_ & W & _).
    apply (W JNull); vm_compute; reflexivity.
  - destruct (getCurrentFirebaseConfig_lookup Sample.engine {[ str "dev" := JNull ]}
                {| Config.ENV_NAMES := None; Config.CURRENT_ENV := Some (str "prod") |})
      as (_ & _ & _ & W & _).
    apply W; vm_compute; reflexivity.
Defined.




Lemma scanComplete_error (H : host) (barcode : option jsstring) (msg : jsstring) (s : App.app) :
  msg <> [] ->
  App.scanComplete H barcode (Some msg) s =
    (App.showError (str "Scanning failed: " ++ msg) s, None).
Proof. intros Hm. destruct msg as [|c e]; [congruence|]. reflexivity. Qed.

Lemma showError_fields (msg : jsstring) (s : App.app) :
  let s' := App.showError msg s in
  App.errorMessage s' = App.set_text msg (App.errorMessage s) /\
  App.errorSection_hidden s' = false /\
  App.loadingSection_hidden s' = true /\
  App.successSection_hidden s' = true /\
  App.timeouts s' = App.timeouts s ++ [(5000, App.AutoHideError)] /\
  App.barcodeInput_value s' = App.barcodeInput_value s /\
  App.currentBarcode s' = App.currentBarcode s /\
  App.isLookingUp s' = App.isLookingUp s.
Proof. cbn. split_all; reflexivity. Qed.

Lemma set_text_twice (a b : jsstring) (node : option jsstring) :
  App.set_text a (App.set_text b node) = App.set_text a node.
Proof. destruct node; reflexivity. Qed.

Lemma str_nonempty (c : N) (rest msg : jsstring) : (c :: rest) ++ msg <> [].
Proof. discriminate. Qed.

(** X2. On a device without camera support, opening the scanner reports
    the failure to the page twice: once through the scanner's error
    callback ("Scanner initialization failed: Camera not supported on this
    device") and once through the [catch] of [openScannerModal] ("Camera
    not supported on this device").  Each report closes the modal, so the
    scanner runs [stop()] twice; it ends up not scanning when it was not
    scanning before or the engine's [stop()] returns.  The modal ends up
    hidden, no timeout is set, and the text node of the error section, on
    a page that has it, holds "Scanning failed: Camera not supported on
    this device", with two auto-hide timers pending. *)
Theorem openScannerModal_camera_unsupported
    (H : host) (m : Manager.manager) (s : App.app) :
  Manager.modal m <> None ->
  let '(m', calls, waiting) :=
    Session.openScannerModal H false (Some Scanner.App_scanComplete) m in
  let s' := fold_left (fun s c => fst (Wiring.deliver H (Some c) s)) calls s in
  calls =
    [ {| Manager.callee := Scanner.App_scanComplete; Manager.barcode_arg := None;
         Manager.error_arg :=
           Some (str "Scanner initialization failed: "
                 ++ str "Camera not supported on this device") |};
      {| Manager.callee := Scanner.App_scanComplete; Manager.barcode_arg := None;
         Manager.error_arg := Some (str "Camera not supported on this device") |} ] /\
  waiting = false /\
  Manager.modal m' = Some true /\
  Manager.scanner m' =
    Scanner.stop (Scanner.stop
      (fst (fst (Session.initialize false
                   (Some Scanner.Manager_handleScanResult)
                   (Some Scanner.Manager_handleScanError) (Manager.scanner m))))) /\
  (Scanner.stop_fails (Manager.scanner m) = false ->
     Scanner.isScanning (Manager.scanner m') = false) /\
  Manager.scanTimeout m' = None /\
  App.errorSection_hidden s' = false /\
  App.errorMessage s' =
    App.set_text (str "Scanning failed: " ++ str "Camera not supported on this device")
      (App.errorMessage s) /\
  (forall old, App.errorMessage s = Some old ->
     App.errorMessage s' =
       Some (str "Scanning failed: " ++ str "Camera not supported on this device")) /\
  App.timeouts s' =
    App.timeouts s ++ [(5000, App.AutoHideError); (5000, App.AutoHideError)].
Proof.
  intros Hm. unfold Session.openScannerModal. cbn [Manager.modal].
  destruct (Manager.modal m) as [hidden|] eqn:Em; [clear Hm|congruence].
  cbn -[str app Scanner.stop Wiring.deliver fold_left].
  assert (Et : App.errorMessage
                 (fold_left (fun s c => fst (Wiring.deliver H (Some c) s))
                    [ {| Manager.callee := Scanner.App_scanComplete;
                         Manager.barcode_arg := None;
                         Manager.error_arg :=
                           Some (str "Scanner initialization failed: "
                                 ++ str "Camera not supported on this device") |};
                      {| Manager.callee := Scanner.App_scanComplete;
                         Manager.barcode_arg := None;
                         Manager.error_arg :=
                           Some (str "Camera not supported on this device") |} ] s) =
               App.set_text
                 (str "Scanning failed: " ++ str "Camera not supported on this device")
                 (App.errorMessage s)).
  { cbn [app fold_left Wiring.deliver fst].
    rewrite !scanComplete_error by (vm_compute; discriminate). cbn [fst].
    destruct (showError_fields
                (str "Scanning failed: " ++ str "Camera not supported on this device")
                (App.showError
                   (str "Scanning failed: " ++ str "Scanner initialization failed: "
                    ++ str "Camera not supported on this device") s))
      as (-> & _).
    destruct (showError_fields
                (str "Scanning failed: " ++ str "Scanner initialization failed: "
                 ++ str "Camera not supported on this device") s) as (-> & _).
    apply set_text_twice. }
  split_all.
  - reflexivity.
  - reflexivity.
  - reflexivity.
  - reflexivity.
  - intros Hs. apply stop_isScanning. unfold Scanner.stop_fails.
    rewrite stop_isScanning; [reflexivity|]. exact Hs.
  - reflexivity.
  - cbn [app fold_left Wiring.deliver fst].
    rewrite !scanComplete_error by (vm_compute; discriminate). cbn [fst].
    destruct (showError_fields
                (str "Scanning failed: " ++ str "Camera not supported on this device")
                (App.showError
                   (str "Scanning failed: " ++ str "Scanner initialization failed: "
                    ++ str "Camera not supported on this device") s))
      as (_ & E & _).
    exact E.
  - exact Et.
  - intros old Ho. etransitivity; [exact Et|]. rewrite Ho. reflexivity.
  - cbn [app fold_left Wiring.deliver fst].
    rewrite !scanComplete_error by (vm_compute; discriminate). cbn [fst].
    destruct (showError_fields
                (str "Scanning failed: " ++ str "Camera not supported on this device")
                (App.showError
                   (str "Scanning failed: " ++ str "Scanner initialization failed: "
                    ++ str "Camera not supported on this device") s))
      as (_ & _ & _ & _ & -> & _).
    destruct (showError_fields
                (str "Scanning failed: " ++ str "Scanner initialization failed: "
                 ++ str "Camera not supported on this device") s)
      as (_ & _ & _ & _ & -> & _).
    rewrite <- app_assoc. reflexivity.
Qed.

Lemma openScannerModal_camera_unsupported_witness :
  let '(m', calls, waiting) :=
    Session.openScannerModal Sample.engine false
      (Some Scanner.App_scanComplete) Fixture.closed in
  waiting = false /\
  Scanner.isScanning (Manager.scanner m') = false /\
  App.errorMessage
    (fold_left (fun s c => fst (Wiring.deliver Sample.engine (Some c) s)) calls Sample.idle) =
  Some (str "Scanning failed: " ++ str "Camera not supported on this device").
Proof.
  pose proof (openScannerModal_camera_unsupported Sample.engine Fixture.closed Sample.idle
                ltac:(discriminate)) as W.
  destruct (Session.openScannerModal Sample.engine false
              (Some Scanner.App_scanComplete) Fixture.closed) as [[m' calls] waiting].
  destruct W as (_ & W1 & _ & _ & W2 & _ & _ & _ & W3 & _).
  split_all.
  - exact W1.
  - exact (W2 eq_refl).
  - exact (W3 [] eq_refl).
Defined.



(** X4. When the engine fails to start, the completion callback is
    called once, with "Scanner initialization failed: " followed by the
    engine's message; the modal is hidden again and the scanner has run
    [stop()], so it is not scanning unless it was scanning before the
    modal was opened and the engine's [stop()] throws; no timeout is set
    and the flash button is not touched. *)
Theorem open_engine_failure
    (H : host) (f : Scanner.callback) (e : error) (t : positive)
    (m : Manager.manager) (flashButton : option Flash.button) :
  Manager.modal m <> None ->
  let '(m1, calls, waiting) := Session.openScannerModal H true (Some f) m in
  let '(m2, button, call) := Session.engine_ready (Some e) t m1 flashButton in
  calls = [] /\ waiting = true /\
  call = Some {| Manager.callee := f; Manager.barcode_arg := None;
                 Manager.error_arg :=
                   Some (str "Scanner initialization failed: " ++ message e) |} /\
  Manager.modal m2 = Some true /\
  Scanner.isScanning (Manager.scanner m2) = Scanner.stop_fails (Manager.scanner m) /\
  (Scanner.isScanning (Manager.scanner m) = false ->
     Scanner.isScanning (Manager.scanner m2) = false) /\
  Manager.scanTimeout m2 = None /\
  Manager.timeouts m2 = Manager.timeouts (Manager.closeScannerModal m) /\
  button = flashButton.
Proof.
  intros Hm. unfold Session.openScannerModal. cbn [Manager.modal].
  destruct (Manager.modal m) as [hidden|] eqn:Em; [clear Hm|congruence].
  cbn -[str app Manager.clearTimeout Scanner.stop].
  split_all; try reflexivity.
  - rewrite isScanning_after_stop. reflexivity.
  - intros E. rewrite isScanning_after_stop. unfold Scanner.stop_fails.
    cbn [Scanner.isScanning]. rewrite E. reflexivity.
Qed.

Lemma open_engine_failure_witness :
  snd (Session.engine_ready
         (Some {| error_name := str "NotAllowedError"; message := str "Permission denied" |})
         3%positive
         (fst (fst (Session.openScannerModal Sample.engine true
                      (Some Scanner.App_scanComplete) Fixture.closed)))
         (Some Fixture.flash_off)) =
  Some {| Manager.callee := Scanner.App_scanComplete; Manager.barcode_arg := None;
          Manager.error_arg :=
            Some (str "Scanner initialization failed: " ++ str "Permission denied") |}.
Proof.
  pose proof (open_engine_failure Sample.engine Scanner.App_scanComplete
                {| error_name := str "NotAllowedError"; message := str "Permission denied" |}
                3%positive Fixture.closed (Some Fixture.flash_off)
                ltac:(discriminate)) as W.
  destruct (Session.openScannerModal Sample.engine true
              (Some Scanner.App_scanComplete) Fixture.closed) as [[m1 calls] waiting].
  cbn [fst].
  destruct (Session.engine_ready
              (Some {| error_name := str "NotAllowedError";
                       message := str "Permission denied" |})
              3%positive m1 (Some Fixture.flash_off)) as [[m2 button] call].
  cbn [snd].
  destruct W as (_ & _ & W & _). exact W.
Defined.

(** X5. Without a modal element, [openScannerModal] never starts the
    camera: the [TypeError] of the first statement goes to the completion
    callback, the scanner runs [stop()] (so it is not scanning unless it
    was scanning and the engine's [stop()] throws) and keeps the callbacks
    it had. *)
Theorem open_without_modal
    (H : host) (camera_supported : bool) (f : Scanner.callback) (m : Manager.manager) :
  Manager.modal m = None ->
  let '(m', calls, waiting) :=
    Session.openScannerModal H camera_supported (Some f) m in
  calls = [ {| Manager.callee := f; Manager.barcode_arg := None;
               Manager.error_arg := Some (type_error_message H JNull (str "classList")) |} ] /\
  waiting = false /\
  Manager.modal m' = None /\
  Scanner.isScanning (Manager.scanner m') = Scanner.stop_fails (Manager.scanner m) /\
  (Scanner.isScanning (Manager.scanner m) = false ->
     Scanner.isScanning (Manager.scanner m') = false) /\
  Scanner.onScanResult (Manager.scanner m') = Scanner.onScanResult (Manager.scanner m) /\
  Scanner.onScanError (Manager.scanner m') = Scanner.onScanError (Manager.scanner m).
Proof.
  intros Hm. unfold Session.openScannerModal. cbn [Manager.modal]. rewrite Hm.
  cbn -[str app Manager.clearTimeout Scanner.stop]. rewrite ?Hm.
  split_all; try reflexivity.
  - apply isScanning_after_stop.
  - intros E. rewrite isScanning_after_stop. unfold Scanner.stop_fails.
    rewrite E. reflexivity.
  - destruct (stop_keeps_callbacks (Manager.scanner m)) as (E & _). exact E.
  - destruct (stop_keeps_callbacks (Manager.scanner m)) as (_ & E & _). exact E.
Qed.

Lemma open_without_modal_witness :
  snd (Session.openScannerModal Sample.engine true
         (Some Scanner.App_scanComplete) Sample.never_opened) = false.
Proof.
  pose proof (open_without_modal Sample.engine true Scanner.App_scanComplete
                Sample.never_opened eq_refl) as W.
  destruct (Session.openScannerModal Sample.engine true
              (Some Scanner.App_scanComplete) Sample.never_opened) as [[m' calls] waiting].
  destruct W as (_ & W & _). exact W.
Defined.

(** X6. When the scan timeout fires, the completion callback is called
    with "Scan timeout - please try again", the modal is hidden and the
    scanner runs [stop()], after which it is not scanning unless the
    engine's [stop()] throws; the timeout is no longer pending and cannot
    fire a second time. *)
Theorem scan_timeout (t : positive) (m : Manager.manager) :
  Manager.scanTimeout m = Some t ->
  In t (Manager.timeouts m) ->
  let '(m', call) := Session.timeout_fired t m in
  call = option_map
           (fun f => {| Manager.callee := f; Manager.barcode_arg := None;
                        Manager.error_arg := Some (str "Scan timeout - please try again") |})
           (Manager.onScanComplete m) /\
  Manager.modal m' = option_map (fun _ => true) (Manager.modal m) /\
  Manager.scanner m' = Scanner.stop (Manager.scanner m) /\
  Scanner.isScanning (Manager.scanner m') = Scanner.stop_fails (Manager.scanner m) /\
  Manager.scanTimeout m' = None /\
  ~ In t (Manager.timeouts m') /\
  Session.timeout_fired t m' = (m', None).
Proof.
  intros Hs Hin. unfold Session.timeout_fired at 1.
  assert (E : existsb (Pos.eqb t) (Manager.timeouts m) = true).
  { apply existsb_exists. exists t. split; [exact Hin|apply Pos.eqb_refl]. }
  rewrite E. unfold Manager.handleScanError.
  set (m' := Manager.closeScannerModal _).
  assert (Hn : ~ In t (Manager.timeouts m')).
  { subst m'. cbn [Manager.closeScannerModal Manager.timeouts Manager.scanTimeout].
    rewrite Hs. intros Hin'.
    apply (clearTimeout_not_in t _ Hin'). }
  split_all.
  - subst m'. cbn [Manager.closeScannerModal Manager.onScanComplete].
    destruct (Manager.onScanComplete m); reflexivity.
  - subst m'. cbn [Manager.closeScannerModal Manager.modal].
    destruct (Manager.modal m); reflexivity.
  - reflexivity.
  - subst m'. apply isScanning_after_stop.
  - reflexivity.
  - exact Hn.
  - unfold Session.timeout_fired.
    destruct (existsb (Pos.eqb t) (Manager.timeouts m')) eqn:E'; [|reflexivity].
    exfalso. apply existsb_exists in E'. destruct E' as (x & Hx & Hxt).
    apply Pos.eqb_eq in Hxt. subst x. exact (Hn Hx).
Qed.

Lemma scan_timeout_witness :
  snd (Session.timeout_fired 7%positive Sample.modal_open) =
    Some {| Manager.callee := Scanner.App_scanComplete; Manager.barcode_arg := None;
            Manager.error_arg := Some (str "Scan timeout - please try again") |}.
Proof.
  pose proof (scan_timeout 7%positive Sample.modal_open eq_refl
                ltac:(simpl; tauto)) as W.
  destruct (Session.timeout_fired 7%positive Sample.modal_open) as [m' call].
  destruct W as (W & _). exact W.
Defined.

(** X7. Closing the modal cancels the scan timeout: once the modal is
    closed, and in particular once a valid barcode was detected, the
    timeout of the session does nothing. *)
Theorem closed_modal_never_times_out (t : positive) (m : Manager.manager) (code : jsstring) :
  Manager.scanTimeout m = Some t ->
  Session.timeout_fired t (Manager.closeScannerModal m) = (Manager.closeScannerModal m, None) /\
  (Scanner.isScanning (Manager.scanner m) = true ->
   Scanner.onScanResult (Manager.scanner m) = Some Scanner.Manager_handleScanResult ->
   Config.sixteen_digits code ->
   Session.timeout_fired t (fst (Manager.detection code m)) =
     (fst (Manager.detection code m), None)).
Proof.
  intros Hs.
  assert (Hc : forall m0, Manager.scanTimeout m0 = Some t ->
               Session.timeout_fired t (Manager.closeScannerModal m0) =
               (Manager.closeScannerModal m0, None)).
  { intros m0 Hs0. unfold Session.timeout_fired.
    destruct (existsb (Pos.eqb t) (Manager.timeouts (Manager.closeScannerModal m0))) eqn:E';
      [|reflexivity].
    exfalso. apply existsb_exists in E'. destruct E' as (x & Hx & Hxt).
    apply Pos.eqb_eq in Hxt. subst x. revert Hx.
    cbn [Manager.closeScannerModal Manager.timeouts]. rewrite Hs0.
    apply clearTimeout_not_in. }
  split; [exact (Hc m Hs)|].
  intros Ha Hr Hd. rewrite (detection_valid m code Ha Hr Hd). cbn [fst].
  apply Hc. exact Hs.
Qed.

Lemma closed_modal_never_times_out_witness :
  Session.timeout_fired 7%positive
    (fst (Manager.detection (str "1234567890123456") Sample.modal_open)) =
  (fst (Manager.detection (str "1234567890123456") Sample.modal_open), None).
Proof.
  destruct (closed_modal_never_times_out 7%positive Sample.modal_open
              (str "1234567890123456") eq_refl) as (_ & W).
  apply W.
  - reflexivity.
  - reflexivity.
  - apply isValidBarcode_spec. vm_compute. reflexivity.
Defined.


(** ** The controller, handler by handler *)

Lemma digit_not_white_space (c : N) : (48 <= c <= 57)%N -> is_white_space c = false.
Proof.
  intros Hc. unfold is_white_space. cbn [existsb].
  repeat match goal with
         | |- context [(c =? ?n)%N] =>
             replace (c =? n)%N with false by (symmetry; apply N.eqb_neq; lia)
         end.
  replace (8192 <=? c)%N with false by (symmetry; apply N.leb_gt; lia).
  reflexivity.
Qed.

Lemma trim_start_digits (s : jsstring) :
  Forall (fun c => (48 <= c <= 57)%N) s -> trim_start s = s.
Proof.
  intros [|c s' Hc _]; [reflexivity|].
  cbn [trim_start]. rewrite (digit_not_white_space c Hc). reflexivity.
Qed.

Lemma trim_digits (s : jsstring) :
  Forall (fun c => (48 <= c <= 57)%N) s -> trim s = s.
Proof.
  intros Hs. unfold trim, trim_end. rewrite (trim_start_digits s Hs).
  rewrite trim_start_digits.
  - apply rev_involutive.
  - apply List.Forall_rev. exact Hs.
Qed.

Lemma cleaned_value (s : App.app) :
  App.barcodeInput_value (App.handleBarcodeInput s) =
    firstn 16 (List.filter is_digit (App.barcodeInput_value s)).
Proof.
  unfold App.handleBarcodeInput. cbv zeta. rewrite strip_non_digits.
  set (v := App.barcodeInput_value s). set (d := List.filter is_digit v).
  assert (E1 : App.barcodeInput_value
                 (if jsstring_eqb d v then s else App.set_barcodeInput_value d s) = d).
  { destruct (jsstring_eqb d v) eqn:E; [|reflexivity].
    apply jsstring_eqb_eq in E. symmetry. exact E. }
  set (s1 := if jsstring_eqb d v then s else App.set_barcodeInput_value d s) in *.
  assert (E2 : App.barcodeInput_value
                 (if (16 <? length d)%nat
                  then App.set_barcodeInput_value (substring0 16 d) s1 else s1)
               = firstn 16 d).
  { destruct (16 <? length d)%nat eqn:E; [reflexivity|].
    rewrite E1. symmetry. apply firstn_all2. apply Nat.ltb_ge in E. lia. }
  set (s2 := if (16 <? length d)%nat
             then App.set_barcodeInput_value (substring0 16 d) s1 else s1) in *.
  assert (E3 : App.barcodeInput_value
                 match App.currentBarcode s2 with
                 | Some b => if jsstring_eqb b (App.barcodeInput_value s2) then s2
                             else App.resetResults s2
                 | None => App.resetResults s2
                 end = firstn 16 d).
  { destruct (App.currentBarcode s2) as [b|];
      [destruct (jsstring_eqb b (App.barcodeInput_value s2))|]; exact E2. }
  match goal with
  | |- App.barcodeInput_value (if ?c then _ else _) = _ => destruct c
  end; exact E3.
Qed.

Lemma filter_digits_Forall (v : jsstring) :
  Forall (fun c => (48 <= c <= 57)%N) (List.filter is_digit v).
Proof.
  apply List.Forall_forall. intros x Hx. apply List.filter_In in Hx.
  apply is_digit_iff. apply Hx.
Qed.

Lemma firstn_Forall (A : Type) (P : A -> Prop) (n : nat) (l : list A) :
  Forall P l -> Forall P (firstn n l).
Proof.
  intros Hl. rewrite <- (firstn_skipn n l) in Hl.
  apply List.Forall_app in Hl. apply Hl.
Qed.

Lemma filter_digits_id (v : jsstring) :
  Forall (fun c => (48 <= c <= 57)%N) v -> List.filter is_digit v = v.
Proof.
  induction 1 as [|c v Hc _ IH]; [reflexivity|].
  cbn [List.filter]. apply is_digit_iff in Hc. rewrite Hc, IH. reflexivity.
Qed.

Lemma timeouts_handleBarcodeInput (s : App.app) :
  App.timeouts (App.handleBarcodeInput s) =
    if (length (App.barcodeInput_value (App.handleBarcodeInput s)) =? 16)%nat
    then App.timeouts s ++ [(500, App.AutoLookup)]
    else App.timeouts s.
Proof.
  pose proof (cleaned_value s) as Hv. revert Hv.
  unfold App.handleBarcodeInput. cbv zeta.
  set (d := replace_all_empty (RClass is_non_digit) (App.barcodeInput_value s)).
  set (s1 := if jsstring_eqb d (App.barcodeInput_value s) then s
             else App.set_barcodeInput_value d s).
  set (s2 := if (16 <? length d)%nat
             then App.set_barcodeInput_value (substring0 16 d) s1 else s1).
  set (s3 := match App.currentBarcode s2 with
             | Some b => if jsstring_eqb b (App.barcodeInput_value s2) then s2
                         else App.resetResults s2
             | None => App.resetResults s2
             end).
  assert (T1 : App.timeouts s1 = App.timeouts s) by (subst s1; destruct (jsstring_eqb _ _); reflexivity).
  assert (T2 : App.timeouts s2 = App.timeouts s) by (subst s2; destruct (_ <? _)%nat; exact T1).
  assert (T3 : App.timeouts s3 = App.timeouts s).
  { subst s3. destruct (App.currentBarcode s2) as [b|];
      [destruct (jsstring_eqb b _)|]; exact T2. }
  intros Hv.
  destruct (length (App.barcodeInput_value s3) =? 16)%nat eqn:E.
  - cbn [App.set_timeouts App.timeouts App.barcodeInput_value]. rewrite E, T3. reflexivity.
  - rewrite E. exact T3.
Qed.

(** X8. After [handleBarcodeInput] the field holds decimal digits only, at
    most 16 of them, and running the handler again does not change it.
    The delayed lookup is scheduled, once, exactly when the cleaned value
    is a valid barcode, that is, when the text held at least 16 digits. *)
Theorem handleBarcodeInput_schedules_lookup (s : App.app) :
  let s' := App.handleBarcodeInput s in
  Forall (fun c => (48 <= c <= 57)%N) (App.barcodeInput_value s') /\
  (length (App.barcodeInput_value s') <= 16)%nat /\
  App.barcodeInput_value (App.handleBarcodeInput s') = App.barcodeInput_value s' /\
  App.timeouts s' =
    (if Config.isValidBarcode (App.barcodeInput_value s')
     then App.timeouts s ++ [(500, App.AutoLookup)]
     else App.timeouts s) /\
  (Config.isValidBarcode (App.barcodeInput_value s') = true <->
   (16 <= length (List.filter is_digit (App.barcodeInput_value s)))%nat).
Proof.
  cbv zeta.
  assert (Hd : Forall (fun c => (48 <= c <= 57)%N)
                 (App.barcodeInput_value (App.handleBarcodeInput s))).
  { rewrite cleaned_value. apply firstn_Forall. apply filter_digits_Forall. }
  assert (Hv : Config.isValidBarcode (App.barcodeInput_value (App.handleBarcodeInput s)) =
               (length (App.barcodeInput_value (App.handleBarcodeInput s)) =? 16)%nat).
  { rewrite isValidBarcode_eq. apply forallb_is_digit in Hd. rewrite Hd.
    apply andb_true_r. }
  split_all.
  - exact Hd.
  - rewrite cleaned_value. apply firstn_le_length.
  - rewrite (cleaned_value (App.handleBarcodeInput s)).
    rewrite (filter_digits_id _ Hd). apply firstn_all2.
    rewrite cleaned_value. apply firstn_le_length.
  - rewrite Hv. apply timeouts_handleBarcodeInput.
  - rewrite Hv. rewrite cleaned_value. rewrite length_firstn.
    rewrite Nat.eqb_eq. lia.
Qed.


Lemma handleBarcodeInput_schedules_lookup_witness :
  App.timeouts (App.handleBarcodeInput (Sample.typed (str "1234-5678-9012-3456"))) =
    [(500, App.AutoLookup)] /\
  App.timeouts (App.handleBarcodeInput (Sample.typed (str "1234-5678"))) = [].
Proof.
  split.
  - destruct (handleBarcodeInput_schedules_lookup
                (Sample.typed (str "1234-5678-9012-3456"))) as (_ & _ & _ & W & _).
    rewrite W. vm_compute. reflexivity.
  - destruct (handleBarcodeInput_schedules_lookup
                (Sample.typed (str "1234-5678"))) as (_ & _ & _ & W & _).
    rewrite W. vm_compute. reflexivity.
Defined.

(** X9. [handleBarcodeInput] keeps the sections and the looked-up barcode
    when the cleaned value is the barcode last looked up; otherwise it
    hides all three sections and forgets that barcode.  It never changes
    the lookup flag, the disabled state of a control or a displayed
    text. *)
Theorem handleBarcodeInput_resets_results (s : App.app) :
  let s' := App.handleBarcodeInput s in
  (App.currentBarcode s = Some (App.barcodeInput_value s') ->
     App.currentBarcode s' = App.currentBarcode s /\
     App.loadingSection_hidden s' = App.loadingSection_hidden s /\
     App.errorSection_hidden s' = App.errorSection_hidden s /\
     App.successSection_hidden s' = App.successSection_hidden s) /\
  (App.currentBarcode s <> Some (App.barcodeInput_value s') ->
     App.currentBarcode s' = None /\
     App.loadingSection_hidden s' = true /\
     App.errorSection_hidden s' = true /\
     App.successSection_hidden s' = true) /\
  App.isLookingUp s' = App.isLookingUp s /\
  App.barcodeInput_disabled s' = App.barcodeInput_disabled s /\
  App.lookupButton_disabled s' = App.lookupButton_disabled s /\
  App.scanButton_disabled s' = App.scanButton_disabled s /\
  App.errorMessage s' = App.errorMessage s /\
  App.availableBalance s' = App.availableBalance s /\
  App.monthlyBudget s' = App.monthlyBudget s.
Proof.
  cbv zeta. pose proof (cleaned_value s) as Hv. revert Hv.
  unfold App.handleBarcodeInput. cbv zeta.
  set (d := replace_all_empty (RClass is_non_digit) (App.barcodeInput_value s)).
  set (s1 := if jsstring_eqb d (App.barcodeInput_value s) then s
             else App.set_barcodeInput_value d s).
  set (s2 := if (16 <? length d)%nat
             then App.set_barcodeInput_value (substring0 16 d) s1 else s1).
  assert (K : forall (A : Type) (f : App.app -> A),
             (forall v x, f (App.set_barcodeInput_value v x) = f x) -> f s2 = f s).
  { intros A f Hf. subst s2 s1.
    destruct (16 <? length d)%nat; destruct (jsstring_eqb d _); rewrite ?Hf; reflexivity. }
  pose proof (K _ App.currentBarcode ltac:(reflexivity)) as K1.
  pose proof (K _ App.loadingSection_hidden ltac:(reflexivity)) as K2.
  pose proof (K _ App.errorSection_hidden ltac:(reflexivity)) as K3.
  pose proof (K _ App.successSection_hidden ltac:(reflexivity)) as K4.
  pose proof (K _ App.isLookingUp ltac:(reflexivity)) as K5.
  pose proof (K _ App.barcodeInput_disabled ltac:(reflexivity)) as K6.
  pose proof (K _ App.lookupButton_disabled ltac:(reflexivity)) as K7.
  pose proof (K _ App.scanButton_disabled ltac:(reflexivity)) as K8.
  pose proof (K _ App.errorMessage ltac:(reflexivity)) as K9.
  pose proof (K _ App.availableBalance ltac:(reflexivity)) as K10.
  pose proof (K _ App.monthlyBudget ltac:(reflexivity)) as K11.
  clearbody s2. clear K s1.
  set (s3 := match App.currentBarcode s2 with
             | Some b => if jsstring_eqb b (App.barcodeInput_value s2) then s2
                         else App.resetResults s2
             | None => App.resetResults s2
             end).
  assert (V3 : App.barcodeInput_value s3 = App.barcodeInput_value s2).
  { subst s3. destruct (App.currentBarcode s2) as [b|];
      [destruct (jsstring_eqb b _)|]; reflexivity. }
  set (s4 := if (length (App.barcodeInput_value s3) =? 16)%nat
             then App.set_timeouts (App.timeouts s3 ++ [(500, App.AutoLookup)]) s3
             else s3).
  assert (K : forall (A : Type) (f : App.app -> A),
             (forall v x, f (App.set_timeouts v x) = f x) -> f s4 = f s3).
  { intros A f Hf. subst s4. destruct (_ =? _)%nat; rewrite ?Hf; reflexivity. }
  pose proof (K _ App.barcodeInput_value ltac:(reflexivity)) as V4.
  rewrite (K _ App.currentBarcode ltac:(reflexivity)).
  rewrite (K _ App.loadingSection_hidden ltac:(reflexivity)).
  rewrite (K _ App.errorSection_hidden ltac:(reflexivity)).
  rewrite (K _ App.successSection_hidden ltac:(reflexivity)).
  rewrite (K _ App.isLookingUp ltac:(reflexivity)).
  rewrite (K _ App.barcodeInput_disabled ltac:(reflexivity)).
  rewrite (K _ App.lookupButton_disabled ltac:(reflexivity)).
  rewrite (K _ App.scanButton_disabled ltac:(reflexivity)).
  rewrite (K _ App.errorMessage ltac:(reflexivity)).
  rewrite (K _ App.availableBalance ltac:(reflexivity)).
  rewrite (K _ App.monthlyBudget ltac:(reflexivity)).
  rewrite V4, V3. clear K V4. clearbody s4. intros _.
  rewrite <- K1, <- K2, <- K3, <- K4, <- K5, <- K6, <- K7, <- K8, <- K9, <- K10, <- K11.
  clear K1 K2 K3 K4 K5 K6 K7 K8 K9 K10 K11 V3.
  subst s3. destruct (App.currentBarcode s2) as [b|] eqn:Ec.
  - destruct (jsstring_eqb b (App.barcodeInput_value s2)) eqn:Eb.
    + split_all; try reflexivity.
      * intros _. rewrite Ec. split_all; reflexivity.
      * intros Hne. exfalso. apply Hne. f_equal. apply jsstring_eqb_eq. exact Eb.
    + split_all; try reflexivity.
      * intros [= Hx]. exfalso. rewrite Hx in Eb.
        assert (Hr : jsstring_eqb (App.barcodeInput_value s2) (App.barcodeInput_value s2)
                     = true) by (apply jsstring_eqb_eq; reflexivity).
        congruence.
      * intros _. split_all; reflexivity.
  - split_all; try reflexivity.
    + discriminate.
    + intros _. split_all; reflexivity.
Qed.

Lemma handleBarcodeInput_resets_results_witness :
  App.currentBarcode
    (App.handleBarcodeInput
       (App.set_successSection_hidden false
          (App.set_currentBarcode (Some (str "1234567890123456"))
             (Sample.typed (str "12345678901234567"))))) =
    Some (str "1234567890123456") /\
  App.successSection_hidden
    (App.handleBarcodeInput
       (App.set_successSection_hidden false
          (App.set_currentBarcode (Some (str "1234567890123456"))
             (Sample.typed (str "123456789012345"))))) = true.
Proof.
  split.
  - destruct (handleBarcodeInput_resets_results
                (App.set_successSection_hidden false
                   (App.set_currentBarcode (Some (str "1234567890123456"))
                      (Sample.typed (str "12345678901234567"))))) as (W & _).
    destruct W as (W & _); [vm_compute; reflexivity|].
    rewrite W. reflexivity.
  - destruct (handleBarcodeInput_resets_results
                (App.set_successSection_hidden false
                   (App.set_currentBarcode (Some (str "1234567890123456"))
                      (Sample.typed (str "123456789012345"))))) as (_ & W & _).
    destruct W as (_ & _ & _ & W); [vm_compute; discriminate|].
    exact W.
Defined.


Lemma focus_fields (s : App.app) :
  let s' := App.focus s in
  App.barcodeInput_focused s' =
    (if App.barcodeInput_disabled s then App.barcodeInput_focused s else true) /\
  App.errorMessage s' = App.errorMessage s /\
  App.errorSection_hidden s' = App.errorSection_hidden s /\
  App.loadingSection_hidden s' = App.loadingSection_hidden s /\
  App.successSection_hidden s' = App.successSection_hidden s /\
  App.timeouts s' = App.timeouts s /\
  App.barcodeInput_value s' = App.barcodeInput_value s /\
  App.currentBarcode s' = App.currentBarcode s /\
  App.isLookingUp s' = App.isLookingUp s.
Proof.
  cbv zeta. unfold App.focus. destruct (App.barcodeInput_disabled s);
    split_all; reflexivity.
Qed.

(** X10. [performLookup] on a value that is not 16 digits after trimming
    sends nothing: it shows "Please enter a barcode" for a blank value and
    "Please enter a valid 16-digit barcode" otherwise, schedules the
    auto-hide and focuses the field if it is enabled.  The value, the
    looked-up barcode and the lookup flag stay as they were, whether or
    not a lookup is under way. *)
Theorem performLookup_rejects (H : host) (s : App.app) :
  ~ Config.sixteen_digits (trim (App.barcodeInput_value s)) ->
  let '(s', req) := App.performLookup H s in
  req = None /\
  App.errorMessage s' =
    App.set_text
      match trim (App.barcodeInput_value s) with
      | [] => str "Please enter a barcode"
      | _ :: _ => str "Please enter a valid 16-digit barcode"
      end (App.errorMessage s) /\
  App.errorSection_hidden s' = false /\
  App.loadingSection_hidden s' = true /\
  App.successSection_hidden s' = true /\
  App.timeouts s' = App.timeouts s ++ [(5000, App.AutoHideError)] /\
  App.barcodeInput_value s' = App.barcodeInput_value s /\
  App.currentBarcode s' = App.currentBarcode s /\
  App.isLookingUp s' = App.isLookingUp s /\
  (App.barcodeInput_disabled s = false -> App.barcodeInput_focused s' = true).
Proof.
  intros Hn. unfold App.performLookup. cbv zeta.
  assert (R : forall msg,
            let s' := App.focus (App.showError msg s) in
            App.errorMessage s' = App.set_text msg (App.errorMessage s) /\
            App.errorSection_hidden s' = false /\
            App.loadingSection_hidden s' = true /\
            App.successSection_hidden s' = true /\
            App.timeouts s' = App.timeouts s ++ [(5000, App.AutoHideError)] /\
            App.barcodeInput_value s' = App.barcodeInput_value s /\
            App.currentBarcode s' = App.currentBarcode s /\
            App.isLookingUp s' = App.isLookingUp s /\
            (App.barcodeInput_disabled s = false -> App.barcodeInput_focused s' = true)).
  { intros msg. cbv zeta.
    destruct (focus_fields (App.showError msg s))
      as (F0 & -> & -> & -> & -> & -> & -> & -> & ->).
    rewrite F0.
    destruct (showError_fields msg s) as (-> & -> & -> & -> & -> & -> & -> & ->).
    split_all; try reflexivity.
    change (App.barcodeInput_disabled (App.showError msg s))
      with (App.barcodeInput_disabled s).
    intros ->. reflexivity. }
  destruct (trim (App.barcodeInput_value s)) as [|c b] eqn:Et.
  - split; [reflexivity|]. apply R.
  - assert (Hv : Config.isValidBarcode (c :: b) = false).
    { apply not_true_is_false. intros Hv. apply Hn. apply isValidBarcode_spec. exact Hv. }
    rewrite Hv. cbn [negb]. split; [reflexivity|]. apply R.
Qed.

Lemma performLookup_rejects_witness :
  App.errorMessage (fst (App.performLookup Sample.engine (Sample.typed (str "  ")))) =
    Some (str "Please enter a barcode") /\
  App.errorMessage (fst (App.performLookup Sample.engine (Sample.typed (str "12345")))) =
    Some (str "Please enter a valid 16-digit barcode").
Proof.
  split.
  - pose proof (performLookup_rejects Sample.engine (Sample.typed (str "  "))) as W.
    destruct (App.performLookup Sample.engine (Sample.typed (str "  "))) as [s' req].
    destruct W as (_ & W & _).
    + intros [Hl _]. vm_compute in Hl. discriminate Hl.
    + replace (trim (App.barcodeInput_value (Sample.typed (str "  ")))) with (@nil N)
        in W by (vm_compute; reflexivity).
      cbn [fst]. rewrite W. reflexivity.
  - pose proof (performLookup_rejects Sample.engine (Sample.typed (str "12345"))) as W.
    destruct (App.performLookup Sample.engine (Sample.typed (str "12345"))) as [s' req].
    destruct W as (_ & W & _).
    + intros [Hl _]. vm_compute in Hl. discriminate Hl.
    + replace (trim (App.barcodeInput_value (Sample.typed (str "12345"))))
        with [49; 50; 51; 52; 53]%N in W by (vm_compute; reflexivity).
      cbn [fst]. rewrite W. reflexivity.
Defined.

Lemma performLookup_start (H : host) (s : App.app) :
  Config.sixteen_digits (trim (App.barcodeInput_value s)) ->
  App.isLookingUp s = false ->
  let barcode := trim (App.barcodeInput_value s) in
  exists k,
    App.performLookup H s =
      (App.set_currentBarcode (Some barcode) (App.setLookupState true s),
       Some (fst (App.getCardBalance H barcode), k)) /\
    let s' := fst (App.performLookup H s) in
    App.isLookingUp s' = true /\
    App.currentBarcode s' = Some barcode /\
    App.barcodeInput_disabled s' = true /\
    App.scanButton_disabled s' = true /\
    App.lookupButton_disabled s' = true /\
    App.buttonText s' = App.set_text (str "Checking...") (App.buttonText s) /\
    App.buttonIcon s' = App.set_text (str "hourglass_empty") (App.buttonIcon s) /\
    App.loadingSection_hidden s' = false /\
    App.errorSection_hidden s' = true /\
    App.successSection_hidden s' = true /\
    App.barcodeInput_value s' = App.barcodeInput_value s /\
    App.timeouts s' = App.timeouts s.
Proof.
  intros Hb Hl. cbv zeta. unfold App.performLookup. cbv zeta.
  assert (Hv : Config.isValidBarcode (trim (App.barcodeInput_value s)) = true)
    by (apply isValidBarcode_spec; exact Hb).
  rewrite Hv, Hl. cbn [negb].
  destruct (trim (App.barcodeInput_value s)) as [|c b] eqn:Et;
    [destruct Hb as [Hlen _]; discriminate Hlen|].
  cbn [App.getCardBalance fst snd].
  eexists. split; [reflexivity|].
  cbn -[str]. split_all; reflexivity.
Qed.

(** X11. [performLookup] on a valid barcode, surrounding white space
    aside, with no lookup under way sends the request for the trimmed
    value, raises the flag, disables the three controls, switches the
    button to "Checking..." with the icon "hourglass_empty" (on a page
    whose button has those two nodes) and shows the loading section
    alone. *)
Theorem performLookup_starts (H : host) (s : App.app) :
  Config.sixteen_digits (trim (App.barcodeInput_value s)) ->
  App.isLookingUp s = false ->
  let barcode := trim (App.barcodeInput_value s) in
  exists k,
    App.performLookup H s =
      (App.set_currentBarcode (Some barcode) (App.setLookupState true s),
       Some (fst (App.getCardBalance H barcode), k)) /\
    let s' := fst (App.performLookup H s) in
    App.isLookingUp s' = true /\
    App.currentBarcode s' = Some barcode /\
    App.barcodeInput_disabled s' = true /\
    App.scanButton_disabled s' = true /\
    App.lookupButton_disabled s' = true /\
    App.buttonText s' = App.set_text (str "Checking...") (App.buttonText s) /\
    App.buttonIcon s' = App.set_text (str "hourglass_empty") (App.buttonIcon s) /\
    App.loadingSection_hidden s' = false /\
    App.errorSection_hidden s' = true /\
    App.successSection_hidden s' = true /\
    App.barcodeInput_value s' = App.barcodeInput_value s /\
    App.timeouts s' = App.timeouts s /\
    (forall old, App.buttonText s = Some old ->
       App.buttonText s' = Some (str "Checking...")) /\
    (forall old, App.buttonIcon s = Some old ->
       App.buttonIcon s' = Some (str "hourglass_empty")).
Proof.
  intros Hb Hl.
  destruct (performLookup_start H s Hb Hl)
    as (k & E & F1 & F2 & F3 & F4 & F5 & F6 & F7 & F8 & F9 & F10 & F11 & F12).
  exists k. split; [exact E|]. cbv zeta. split_all.
  - exact F1.
  - exact F2.
  - exact F3.
  - exact F4.
  - exact F5.
  - exact F6.
  - exact F7.
  - exact F8.
  - exact F9.
  - exact F10.
  - exact F11.
  - exact F12.
  - intros old Ho. etransitivity; [exact F6|]. rewrite Ho. reflexivity.
  - intros old Ho. etransitivity; [exact F7|]. rewrite Ho. reflexivity.
Qed.

Lemma performLookup_starts_witness :
  let s' := fst (App.performLookup Sample.engine (Sample.typed (str " 1234567890123456 "))) in
  App.loadingSection_hidden s' = false /\
  App.buttonText s' = Some (str "Checking...") /\
  App.buttonIcon s' = Some (str "hourglass_empty").
Proof.
  destruct (performLookup_starts Sample.engine (Sample.typed (str " 1234567890123456 ")))
    as (k & _ & W).
  - apply isValidBarcode_spec. vm_compute. reflexivity.
  - reflexivity.
  - destruct W as (_ & _ & _ & _ & _ & _ & _ & W & _ & _ & _ & _ & W1 & W2).
    cbv zeta. split_all.
    + exact W.
    + exact (W1 (str "Check Balance") eq_refl).
    + exact (W2 (str "search") eq_refl).
Defined.



(** ** How a lookup ends *)

Lemma setLookupState_false_fields (s : App.app) :
  let s' := App.setLookupState false s in
  App.isLookingUp s' = false /\
  App.lookupButton_disabled s' = false /\
  App.scanButton_disabled s' = false /\
  App.barcodeInput_disabled s' = false /\
  App.loadingSection_hidden s' = true /\
  App.buttonText s' = App.set_text (str "Check Balance") (App.buttonText s) /\
  App.buttonIcon s' = App.set_text (str "search") (App.buttonIcon s) /\
  App.errorSection_hidden s' = App.errorSection_hidden s /\
  App.successSection_hidden s' = App.successSection_hidden s /\
  App.errorMessage s' = App.errorMessage s /\
  App.availableBalance s' = App.availableBalance s /\
  App.monthlyBudget s' = App.monthlyBudget s /\
  App.timeouts s' = App.timeouts s /\
  App.barcodeInput_value s' = App.barcodeInput_value s /\
  App.currentBarcode s' = App.currentBarcode s.
Proof. cbv zeta. split_all; reflexivity. Qed.

Lemma showSuccess_cases (H : host) (data : value) (s : App.app) :
  let s1 := fst (App.showSuccess H data s) in
  (App.buttonText s1 = App.buttonText s /\
   App.buttonIcon s1 = App.buttonIcon s /\
   App.barcodeInput_value s1 = App.barcodeInput_value s /\
   App.currentBarcode s1 = App.currentBarcode s /\
   App.timeouts s1 = App.timeouts s /\
   App.errorSection_hidden s1 = true) /\
  (snd (App.showSuccess H data s) = None -> App.successSection_hidden s1 = false).
Proof.
  cbv zeta. unfold App.showSuccess. cbv zeta.
  change (App.availableBalance (App.hideAllSections s)) with (App.availableBalance s).
  destruct (App.availableBalance s) as [a|].
  - destruct (get_property H data (str "availableMoneyMinor")) as [v|e].
    + match goal with
      | |- context [App.monthlyBudget ?x] =>
          change (App.monthlyBudget x) with (App.monthlyBudget s)
      end.
      destruct (App.monthlyBudget s) as [b|].
      * destruct (get_property H data (str "startingBudgetMinor")) as [w|e'];
          cbn [fst snd]; (split; [split_all; reflexivity|]);
          [reflexivity|discriminate].
      * cbn [fst snd]. split; [split_all; reflexivity|reflexivity].
    + cbn [fst snd]. split; [split_all; reflexivity|discriminate].
  - change (App.monthlyBudget (App.hideAllSections s)) with (App.monthlyBudget s).
    destruct (App.monthlyBudget s) as [b|].
    + destruct (get_property H data (str "startingBudgetMinor")) as [w|e'];
        cbn [fst snd]; (split; [split_all; reflexivity|]);
        [reflexivity|discriminate].
    + cbn [fst snd]. split; [split_all; reflexivity|reflexivity].
Qed.

Lemma handle_result_cases (H : host) (result : value) (s : App.app) :
  let s1 := fst (App.handle_result H result s) in
  (App.buttonText s1 = App.buttonText s /\
   App.buttonIcon s1 = App.buttonIcon s /\
   App.barcodeInput_value s1 = App.barcodeInput_value s /\
   App.currentBarcode s1 = App.currentBarcode s) /\
  (snd (App.handle_result H result s) = None ->
   App.errorSection_hidden s1 = negb (App.successSection_hidden s1) /\
   (App.errorSection_hidden s1 = true \/
    In (5000, App.AutoHideError) (App.timeouts s1))).
Proof.
  cbv zeta.
  assert (E : forall msg,
            (App.buttonText (App.showError msg s) = App.buttonText s /\
             App.buttonIcon (App.showError msg s) = App.buttonIcon s /\
             App.barcodeInput_value (App.showError msg s) = App.barcodeInput_value s /\
             App.currentBarcode (App.showError msg s) = App.currentBarcode s) /\
            (App.errorSection_hidden (App.showError msg s) =
               negb (App.successSection_hidden (App.showError msg s)) /\
             (App.errorSection_hidden (App.showError msg s) = true \/
              In (5000, App.AutoHideError) (App.timeouts (App.showError msg s))))).
  { intros msg.
    destruct (showError_fields msg s) as (_ & -> & _ & -> & -> & _).
    split; [split_all; reflexivity|]. split; [reflexivity|].
    right. apply in_or_app. right. left. reflexivity. }
  assert (S : forall data,
            (App.buttonText (fst (App.showSuccess H data s)) = App.buttonText s /\
             App.buttonIcon (fst (App.showSuccess H data s)) = App.buttonIcon s /\
             App.barcodeInput_value (fst (App.showSuccess H data s)) = App.barcodeInput_value s /\
             App.currentBarcode (fst (App.showSuccess H data s)) = App.currentBarcode s) /\
            (snd (App.showSuccess H data s) = None ->
             App.errorSection_hidden (fst (App.showSuccess H data s)) =
               negb (App.successSection_hidden (fst (App.showSuccess H data s))) /\
             (App.errorSection_hidden (fst (App.showSuccess H data s)) = true \/
              In (5000, App.AutoHideError) (App.timeouts (fst (App.showSuccess H data s)))))).
  { intros data.
    destruct (showSuccess_cases H data s) as ((B1 & B2 & B3 & B4 & _ & B6) & B7).
    split; [split_all; assumption|].
    intros Hn. rewrite B6, (B7 Hn). split; [reflexivity|left; reflexivity]. }
  unfold App.handle_result.
  destruct (get_property H result (str "status")) as [[| | | |status| |]|e];
    try (split; [apply E|intros _; apply E]).
  - destruct (jsstring_eqb status (str "success")).
    + destruct (get_property H result (str "data")) as [data|e].
      * apply S.
      * cbn [fst snd]. split; [split_all; reflexivity|discriminate].
    + destruct (jsstring_eqb status (str "card_not_found")).
      * split; [apply E|intros _; apply E].
      * destruct (jsstring_eqb status (str "error")).
        -- destruct (get_property H result (str "message")) as [m|e].
           ++ split; [apply E|intros _; apply E].
           ++ cbn [fst snd]. split; [split_all; reflexivity|discriminate].
        -- split; [apply E|intros _; apply E].
  - cbn [fst snd]. split; [split_all; reflexivity|discriminate].
Qed.

Lemma performLookup_resume_outcome (H : host) (settled : completion value) (s : App.app) :
  let s' := App.performLookup_resume H settled s in
  App.isLookingUp s' = false /\
  App.lookupButton_disabled s' = false /\
  App.scanButton_disabled s' = false /\
  App.barcodeInput_disabled s' = false /\
  App.loadingSection_hidden s' = true /\
  App.errorSection_hidden s' = negb (App.successSection_hidden s') /\
  (App.errorSection_hidden s' = true \/ In (5000, App.AutoHideError) (App.timeouts s')) /\
  App.buttonText s' = App.set_text (str "Check Balance") (App.buttonText s) /\
  App.buttonIcon s' = App.set_text (str "search") (App.buttonIcon s) /\
  App.barcodeInput_value s' = App.barcodeInput_value s /\
  App.currentBarcode s' = App.currentBarcode s.
Proof.
  cbv zeta. unfold App.performLookup_resume.
  set (s1 := match settled with
             | Return result =>
                 match App.handle_result H result s with
                 | (s0, None) => s0
                 | (s0, Some e) => App.showError (str "Network error: " ++ message e) s0
                 end
             | Throw e => App.showError (str "Network error: " ++ message e) s
             end).
  assert (P : (App.buttonText s1 = App.buttonText s /\
               App.buttonIcon s1 = App.buttonIcon s /\
               App.barcodeInput_value s1 = App.barcodeInput_value s /\
               App.currentBarcode s1 = App.currentBarcode s) /\
              App.errorSection_hidden s1 = negb (App.successSection_hidden s1) /\
              (App.errorSection_hidden s1 = true \/
               In (5000, App.AutoHideError) (App.timeouts s1))).
  { assert (E : forall msg s0,
              (App.buttonText s0 = App.buttonText s /\
               App.buttonIcon s0 = App.buttonIcon s /\
               App.barcodeInput_value s0 = App.barcodeInput_value s /\
               App.currentBarcode s0 = App.currentBarcode s) ->
              (App.buttonText (App.showError msg s0) = App.buttonText s /\
               App.buttonIcon (App.showError msg s0) = App.buttonIcon s /\
               App.barcodeInput_value (App.showError msg s0) = App.barcodeInput_value s /\
               App.currentBarcode (App.showError msg s0) = App.currentBarcode s) /\
              App.errorSection_hidden (App.showError msg s0) =
                negb (App.successSection_hidden (App.showError msg s0)) /\
              (App.errorSection_hidden (App.showError msg s0) = true \/
               In (5000, App.AutoHideError) (App.timeouts (App.showError msg s0)))).
    { intros msg s0 (B1 & B2 & B3 & B4).
      destruct (showError_fields msg s0) as (_ & -> & _ & -> & -> & _).
      split; [split_all; assumption|]. split; [reflexivity|].
      right. apply in_or_app. right. left. reflexivity. }
    subst s1. destruct settled as [result|e].
    - pose proof (handle_result_cases H result s) as (B & C).
      destruct (App.handle_result H result s) as [s0 [e|]]; cbn [fst snd] in B, C.
      + apply E. exact B.
      + split; [exact B|]. apply C. reflexivity.
    - apply E. split_all; reflexivity. }
  clearbody s1. destruct P as ((B1 & B2 & B3 & B4) & B5 & B6).
  destruct (setLookupState_false_fields s1)
    as (-> & -> & -> & -> & -> & -> & -> & -> & -> & _ & _ & _ & -> & -> & ->).
  rewrite B1, B2, B3, B4. split_all; try reflexivity; assumption.
Qed.

(** X12. However the request settles, the rest of [performLookup] lowers
    the flag, enables the three controls, restores the button to "Check
    Balance" with the icon "search" (on a page whose button has those two
    nodes), hides the loading section and leaves exactly one of the error
    and success sections visible, the error section with its auto-hide
    timer pending.  The field and the looked-up barcode are not
    changed. *)
Theorem lookup_always_completes (H : host) (settled : completion value) (s : App.app) :
  let s' := App.performLookup_resume H settled s in
  App.isLookingUp s' = false /\
  App.lookupButton_disabled s' = false /\
  App.scanButton_disabled s' = false /\
  App.barcodeInput_disabled s' = false /\
  App.loadingSection_hidden s' = true /\
  App.errorSection_hidden s' = negb (App.successSection_hidden s') /\
  (App.errorSection_hidden s' = true \/ In (5000, App.AutoHideError) (App.timeouts s')) /\
  App.buttonText s' = App.set_text (str "Check Balance") (App.buttonText s) /\
  App.buttonIcon s' = App.set_text (str "search") (App.buttonIcon s) /\
  App.barcodeInput_value s' = App.barcodeInput_value s /\
  App.currentBarcode s' = App.currentBarcode s /\
  (forall old, App.buttonText s = Some old ->
     App.buttonText s' = Some (str "Check Balance")) /\
  (forall old, App.buttonIcon s = Some old ->
     App.buttonIcon s' = Some (str "search")).
Proof.
  destruct (performLookup_resume_outcome H settled s)
    as (F1 & F2 & F3 & F4 & F5 & F6 & F7 & F8 & F9 & F10 & F11).
  cbv zeta. split_all.
  - exact F1.
  - exact F2.
  - exact F3.
  - exact F4.
  - exact F5.
  - exact F6.
  - exact F7.
  - exact F8.
  - exact F9.
  - exact F10.
  - exact F11.
  - intros old Ho. etransitivity; [exact F8|]. rewrite Ho. reflexivity.
  - intros old Ho. etransitivity; [exact F9|]. rewrite Ho. reflexivity.
Qed.

Lemma lookup_always_completes_witness :
  let s' :=
    App.performLookup_resume Sample.engine
      (Throw {| error_name := str "TypeError"; message := str "Failed to fetch" |})
      (App.setLookupState true Sample.idle) in
  App.isLookingUp s' = false /\
  App.buttonText s' = Some (str "Check Balance") /\
  App.buttonIcon s' = Some (str "search").
Proof.
  destruct (lookup_always_completes Sample.engine
              (Throw {| error_name := str "TypeError"; message := str "Failed to fetch" |})
              (App.setLookupState true Sample.idle))
    as (W & _ & _ & _ & _ & _ & _ & _ & _ & _ & _ & W1 & W2).
  cbv zeta. split_all.
  - exact W.
  - exact (W1 (str "Checking...") eq_refl).
  - exact (W2 (str "hourglass_empty") eq_refl).
Defined.


(** ** What the page shows for each answer of the backend *)

Lemma formatCurrency_of_int (ts : number -> jsstring) (a : Z) :
  Z.abs a <= 7036874417766400 ->
  Config.formatCurrency ts (of_int a) = Config.CURRENCY_SYMBOL ++ Config.two_decimals a.
Proof.
  intros Ha. destruct a as [|p|p].
  - vm_compute. reflexivity.
  - change (of_int (Z.pos p)) with (binary_round 53 1024 false p 0).
    rewrite formatCurrency_nonzero by lia. reflexivity.
  - change (of_int (Z.neg p)) with (binary_round 53 1024 true p 0).
    rewrite formatCurrency_nonzero by lia. reflexivity.
Qed.

Lemma jsstring_eqb_neq (a b : jsstring) : a <> b -> jsstring_eqb a b = false.
Proof.
  intros Hn. apply not_true_is_false. intros E. apply Hn. apply jsstring_eqb_eq. exact E.
Qed.

Lemma answer_of_body (H : host) (barcode : jsstring)
    (fields : list (jsstring * value)) (result : value) :
  assoc (str "result") fields = Some result ->
  snd (App.getCardBalance H barcode) (Return {| App.json := Return (JObj fields) |}) =
    Return result.
Proof.
  intros Hr. cbn [App.getCardBalance snd App.json get_property]. rewrite Hr. reflexivity.
Qed.

Lemma resume_with_error (H : host) (result : value) (msg : jsstring) (s : App.app) :
  App.handle_result H result s = (App.showError msg s, None) ->
  let s' := App.performLookup_resume H (Return result) s in
  App.errorMessage s' = App.set_text msg (App.errorMessage s) /\
  App.errorSection_hidden s' = false /\
  App.successSection_hidden s' = true.
Proof.
  intros E. cbv zeta. unfold App.performLookup_resume. rewrite E.
  destruct (showError_then_done msg s) as (A & B & _ & C & _).
  split_all; assumption.
Qed.

(** X13. The message shown for an answer of the backend: for the status
    [card_not_found] the fixed "Card not found" text; for [error] the
    message of the answer when it is a non-empty string and "An error
    occurred while checking the card" when it is missing or empty; for any
    other or missing status "Unexpected response from server". *)
Theorem backend_answer_shown
    (H : host) (barcode : jsstring) (fields answer : list (jsstring * value))
    (s : App.app) :
  assoc (str "result") fields = Some (JObj answer) ->
  let s' :=
    App.performLookup_resume H
      (snd (App.getCardBalance H barcode)
           (Return {| App.json := Return (JObj fields) |})) s in
  let shows msg :=
    App.errorMessage s' = App.set_text msg (App.errorMessage s) /\
    App.errorSection_hidden s' = false /\
    App.successSection_hidden s' = true in
  (assoc (str "status") answer = Some (JStr (str "card_not_found")) ->
     shows (str "Card not found. Please check the barcode and try again.")) /\
  (assoc (str "status") answer = Some (JStr (str "error")) ->
     (forall c m, assoc (str "message") answer = Some (JStr (c :: m)) -> shows (c :: m)) /\
     (assoc (str "message") answer = None \/
      assoc (str "message") answer = Some (JStr []) ->
        shows (str "An error occurred while checking the card"))) /\
  (forall status,
     assoc (str "status") answer = Some (JStr status) ->
     status <> str "success" -> status <> str "card_not_found" ->
     status <> str "error" ->
     shows (str "Unexpected response from server")) /\
  (assoc (str "status") answer = None ->
     shows (str "Unexpected response from server")).
Proof.
  intros Hr. cbv zeta. rewrite (answer_of_body H barcode fields _ Hr).
  split_all.
  - intros Hs. apply resume_with_error.
    unfold App.handle_result. cbn [get_property]. rewrite Hs.
    replace (jsstring_eqb (str "card_not_found") (str "success")) with false
      by (vm_compute; reflexivity).
    replace (jsstring_eqb (str "card_not_found") (str "card_not_found")) with true
      by (vm_compute; reflexivity).
    reflexivity.
  - intros Hs. split.
    + intros c m Hm. apply resume_with_error.
      unfold App.handle_result. cbn [get_property]. rewrite Hs, Hm.
      replace (jsstring_eqb (str "error") (str "success")) with false
        by (vm_compute; reflexivity).
      replace (jsstring_eqb (str "error") (str "card_not_found")) with false
        by (vm_compute; reflexivity).
      replace (jsstring_eqb (str "error") (str "error")) with true
        by (vm_compute; reflexivity).
      reflexivity.
    + intros Hm. apply resume_with_error.
      unfold App.handle_result. cbn [get_property]. rewrite Hs.
      replace (jsstring_eqb (str "error") (str "success")) with false
        by (vm_compute; reflexivity).
      replace (jsstring_eqb (str "error") (str "card_not_found")) with false
        by (vm_compute; reflexivity).
      replace (jsstring_eqb (str "error") (str "error")) with true
        by (vm_compute; reflexivity).
      destruct Hm as [-> | ->]; reflexivity.
  - intros status Hs N1 N2 N3. apply resume_with_error.
    unfold App.handle_result. cbn [get_property]. rewrite Hs.
    rewrite (jsstring_eqb_neq _ _ N1), (jsstring_eqb_neq _ _ N2),
      (jsstring_eqb_neq _ _ N3).
    reflexivity.
  - intros Hs. apply resume_with_error.
    unfold App.handle_result. cbn [get_property]. rewrite Hs. reflexivity.
Qed.

Lemma backend_answer_shown_witness :
  App.errorMessage
    (App.performLookup_resume Sample.engine
       (snd (App.getCardBalance Sample.engine (str "1234567890123456"))
          (Return {| App.json :=
             Return (JObj [(str "result",
                            JObj [(str "status", JStr (str "error"));
                                  (str "message", JStr (str "Card is blocked"))])]) |}))
       Sample.idle) = Some (str "Card is blocked").
Proof.
  destruct (backend_answer_shown Sample.engine (str "1234567890123456")
              [(str "result",
                JObj [(str "status", JStr (str "error"));
                      (str "message", JStr (str "Card is blocked"))])]
              [(str "status", JStr (str "error"));
               (str "message", JStr (str "Card is blocked"))]
              Sample.idle) as (_ & W & _).
  - vm_compute. reflexivity.
  - destruct W as (W & _); [vm_compute; reflexivity|].
    destruct (W 67%N (str "ard is blocked")) as (W' & _); [vm_compute; reflexivity|].
    exact W'.
Defined.


Lemma success_path (H : host) (answer : list (jsstring * value)) (data : value)
    (s : App.app) :
  assoc (str "status") answer = Some (JStr (str "success")) ->
  get_property H (JObj answer) (str "data") = Return data ->
  App.handle_result H (JObj answer) s = App.showSuccess H data s.
Proof.
  intros Hs Hd. unfold App.handle_result. rewrite Hd.
  cbn [get_property]. rewrite Hs.
  replace (jsstring_eqb (str "success") (str "success")) with true
    by (vm_compute; reflexivity).
  reflexivity.
Qed.

Lemma showSuccess_shown (H : host) (data vx vy : value) (s : App.app) :
  get_property H data (str "availableMoneyMinor") = Return vx ->
  get_property H data (str "startingBudgetMinor") = Return vy ->
  exists s1,
    App.showSuccess H data s = (s1, None) /\
    App.availableBalance s1 =
      App.set_text (Config.formatCurrency (number_to_string H) (ToNumber H vx))
        (App.availableBalance s) /\
    App.monthlyBudget s1 =
      App.set_text (Config.formatCurrency (number_to_string H) (ToNumber H vy))
        (App.monthlyBudget s) /\
    App.successSection_hidden s1 = false /\
    App.errorSection_hidden s1 = true /\
    App.loadingSection_hidden s1 = true /\
    App.errorMessage s1 = App.errorMessage s /\
    App.timeouts s1 = App.timeouts s.
Proof.
  intros Hx Hy. unfold App.showSuccess. cbv zeta. rewrite Hx.
  change (App.availableBalance (App.hideAllSections s)) with (App.availableBalance s).
  destruct (App.availableBalance s) as [a|] eqn:Ea.
  - match goal with
    | |- context [App.monthlyBudget ?x] =>
        change (App.monthlyBudget x) with (App.monthlyBudget s)
    end.
    rewrite Hy. destruct (App.monthlyBudget s) as [b|] eqn:Eb.
    + eexists. split; [reflexivity|].
      cbn [App.set_text]. split_all; reflexivity.
    + eexists. split; [reflexivity|].
      cbn [App.set_text]. split_all; try reflexivity. exact Eb.
  - change (App.monthlyBudget (App.hideAllSections s)) with (App.monthlyBudget s).
    rewrite Hy. destruct (App.monthlyBudget s) as [b|] eqn:Eb.
    + eexists. split; [reflexivity|].
      cbn [App.set_text]. split_all; try reflexivity. exact Ea.
    + eexists. split; [reflexivity|].
      cbn [App.set_text]. split_all; try reflexivity; assumption.
Qed.

Lemma resume_with_success (H : host) (result : value) (s s1 : App.app) :
  App.handle_result H result s = (s1, None) ->
  let s' := App.performLookup_resume H (Return result) s in
  App.availableBalance s' = App.availableBalance s1 /\
  App.monthlyBudget s' = App.monthlyBudget s1 /\
  App.successSection_hidden s' = App.successSection_hidden s1 /\
  App.errorSection_hidden s' = App.errorSection_hidden s1 /\
  App.loadingSection_hidden s' = true /\
  App.errorMessage s' = App.errorMessage s1 /\
  App.timeouts s' = App.timeouts s1 /\
  App.isLookingUp s' = false.
Proof.
  intros E. cbv zeta. unfold App.performLookup_resume. rewrite E.
  split_all; reflexivity.
Qed.

(** X14. For a [success] answer whose two amounts are integers of at most
    [100 * 2^46] in absolute value, the page shows each amount as the
    currency symbol and the amount in two decimals, with the success
    section visible, the other two hidden and no timer added. *)
Theorem success_shown
    (H : host) (barcode : jsstring) (fields answer data : list (jsstring * value))
    (available budget : Z) (s : App.app) :
  assoc (str "result") fields = Some (JObj answer) ->
  assoc (str "status") answer = Some (JStr (str "success")) ->
  assoc (str "data") answer = Some (JObj data) ->
  assoc (str "availableMoneyMinor") data = Some (JNum (of_int available)) ->
  assoc (str "startingBudgetMinor") data = Some (JNum (of_int budget)) ->
  Z.abs available <= 7036874417766400 ->
  Z.abs budget <= 7036874417766400 ->
  let s' :=
    App.performLookup_resume H
      (snd (App.getCardBalance H barcode)
           (Return {| App.json := Return (JObj fields) |})) s in
  App.availableBalance s' =
    App.set_text (Config.CURRENCY_SYMBOL ++ Config.two_decimals available)
      (App.availableBalance s) /\
  App.monthlyBudget s' =
    App.set_text (Config.CURRENCY_SYMBOL ++ Config.two_decimals budget)
      (App.monthlyBudget s) /\
  App.successSection_hidden s' = false /\
  App.errorSection_hidden s' = true /\
  App.loadingSection_hidden s' = true /\
  App.errorMessage s' = App.errorMessage s /\
  App.timeouts s' = App.timeouts s /\
  App.isLookingUp s' = false.
Proof.
  intros Hr Hs Hd Ha Hb Ba Bb. cbv zeta.
  rewrite (answer_of_body H barcode fields _ Hr).
  destruct (showSuccess_shown H (JObj data) (JNum (of_int available))
              (JNum (of_int budget)) s)
    as (s1 & E & F1 & F2 & F3 & F4 & F5 & F6 & F7).
  { cbn [get_property]. rewrite Ha. reflexivity. }
  { cbn [get_property]. rewrite Hb. reflexivity. }
  cbn [ToNumber] in F1, F2.
  rewrite (formatCurrency_of_int _ available Ba) in F1.
  rewrite (formatCurrency_of_int _ budget Bb) in F2.
  destruct (resume_with_success H (JObj answer) s s1)
    as (G1 & G2 & G3 & G4 & G5 & G6 & G7 & G8).
  { rewrite (success_path H answer (JObj data) s Hs)
      by (cbn [get_property]; rewrite Hd; reflexivity).
    exact E. }
  rewrite G1, G2, G3, G4, G5, G6, G7, G8, F1, F2, F3, F4, F6, F7.
  split_all; reflexivity.
Qed.

Lemma success_shown_witness :
  App.availableBalance
    (App.performLookup_resume Sample.engine
       (snd (App.getCardBalance Sample.engine (str "1234567890123456"))
          (Return {| App.json :=
             Return (JObj [(str "result",
                            JObj [(str "status", JStr (str "success"));
                                  (str "data",
                                   JObj [(str "availableMoneyMinor", JNum (of_int 1234));
                                         (str "startingBudgetMinor", JNum (of_int 5000))])])]) |}))
       Sample.idle) = Some (str "€12.34").
Proof.
  destruct (success_shown Sample.engine (str "1234567890123456")
              [(str "result",
                JObj [(str "status", JStr (str "success"));
                      (str "data",
                       JObj [(str "availableMoneyMinor", JNum (of_int 1234));
                             (str "startingBudgetMinor", JNum (of_int 5000))])])]
              [(str "status", JStr (str "success"));
               (str "data",
                JObj [(str "availableMoneyMinor", JNum (of_int 1234));
                      (str "startingBudgetMinor", JNum (of_int 5000))])]
              [(str "availableMoneyMinor", JNum (of_int 1234));
               (str "startingBudgetMinor", JNum (of_int 5000))]
              1234 5000 Sample.idle) as (W & _).
  1-5: vm_compute; reflexivity.
  1-2: lia.
  rewrite W. vm_compute. reflexivity.
Defined.

(** X15. A [success] answer whose data lacks the two amounts is shown as
    a success with "€NaN" in both places; a [success] answer without data
    ends as "Network error: " followed by the engine's [TypeError]
    message, provided the page has the balance node. *)
Theorem success_without_amounts
    (H : host) (barcode : jsstring) (fields answer : list (jsstring * value))
    (s : App.app) :
  assoc (str "result") fields = Some (JObj answer) ->
  assoc (str "status") answer = Some (JStr (str "success")) ->
  let s' :=
    App.performLookup_resume H
      (snd (App.getCardBalance H barcode)
           (Return {| App.json := Return (JObj fields) |})) s in
  (forall data,
     assoc (str "data") answer = Some (JObj data) ->
     assoc (str "availableMoneyMinor") data = None ->
     assoc (str "startingBudgetMinor") data = None ->
     App.availableBalance s' = App.set_text (str "€NaN") (App.availableBalance s) /\
     App.monthlyBudget s' = App.set_text (str "€NaN") (App.monthlyBudget s) /\
     App.successSection_hidden s' = false /\
     App.errorSection_hidden s' = true) /\
  (assoc (str "data") answer = None ->
   App.availableBalance s <> None ->
     App.errorMessage s' =
       App.set_text
         (str "Network error: "
          ++ type_error_message H Undefined (str "availableMoneyMinor"))
         (App.errorMessage s) /\
     App.errorSection_hidden s' = false /\
     App.successSection_hidden s' = true /\
     App.availableBalance s' = App.availableBalance s).
Proof.
  intros Hr Hs. cbv zeta.
  rewrite (answer_of_body H barcode fields _ Hr). split.
  - intros data Hd Ha Hb.
    destruct (showSuccess_shown H (JObj data) Undefined Undefined s)
      as (s1 & E & F1 & F2 & F3 & F4 & _).
    { cbn [get_property]. rewrite Ha. reflexivity. }
    { cbn [get_property]. rewrite Hb. reflexivity. }
    cbn [ToNumber] in F1, F2.
    replace (Config.formatCurrency (number_to_string H) S754_nan) with (str "€NaN")
      in F1, F2 by (vm_compute; reflexivity).
    destruct (resume_with_success H (JObj answer) s s1) as (G1 & G2 & G3 & G4 & _).
    { rewrite (success_path H answer (JObj data) s Hs)
        by (cbn [get_property]; rewrite Hd; reflexivity).
      exact E. }
    rewrite G1, G2, G3, G4, F1, F2, F3, F4. split_all; reflexivity.
  - intros Hd Hn.
    unfold App.performLookup_resume.
    rewrite (success_path H answer Undefined s Hs)
      by (cbn [get_property]; rewrite Hd; reflexivity).
    unfold App.showSuccess. cbv zeta.
    change (App.availableBalance (App.hideAllSections s)) with (App.availableBalance s).
    destruct (App.availableBalance s) as [a|] eqn:Ea; [clear Hn|congruence].
    cbn [get_property].
    destruct (showError_then_done
                (str "Network error: "
                 ++ type_error_message H Undefined (str "availableMoneyMinor"))
                (App.hideAllSections s)) as (A & B & _ & C & _).
    cbn [message]. split_all.
    + exact A.
    + exact B.
    + exact C.
    + exact Ea.
Qed.


Lemma success_without_amounts_witness :
  App.availableBalance
    (App.performLookup_resume Sample.engine
       (snd (App.getCardBalance Sample.engine (str "1234567890123456"))
          (Return {| App.json :=
             Return (JObj [(str "result",
                            JObj [(str "status", JStr (str "success"));
                                  (str "data", JObj [])])]) |}))
       Sample.idle) = Some (str "€NaN") /\
  App.errorSection_hidden
    (App.performLookup_resume Sample.engine
       (snd (App.getCardBalance Sample.engine (str "1234567890123456"))
          (Return {| App.json :=
             Return (JObj [(str "result",
                            JObj [(str "status", JStr (str "success"))])]) |}))
       Sample.idle) = false.
Proof.
  split.
  - destruct (success_without_amounts Sample.engine (str "1234567890123456")
                [(str "result",
                  JObj [(str "status", JStr (str "success")); (str "data", JObj [])])]
                [(str "status", JStr (str "success")); (str "data", JObj [])]
                Sample.idle) as (W & _).
    1-2: vm_compute; reflexivity.
    destruct (W []) as (W' & _).
    1-3: vm_compute; reflexivity.
    exact W'.
  - destruct (success_without_amounts Sample.engine (str "1234567890123456")
                [(str "result", JObj [(str "status", JStr (str "success"))])]
                [(str "status", JStr (str "success"))]
                Sample.idle) as (_ & W).
    1-2: vm_compute; reflexivity.
    destruct W as (_ & W & _); [vm_compute; reflexivity|discriminate|].
    exact W.
Defined.

(** ** Two invariants of the page *)

Section Invariant.
Variable H : host.
Variable I : App.app -> Prop.
Hypothesis I_value : forall v s, I s -> I (App.set_barcodeInput_value v s).
Hypothesis I_timeouts : forall l s, I s -> I (App.set_timeouts l s).
Hypothesis I_focus : forall s, I s -> I (App.focus s).
Hypothesis I_showError : forall msg s, I s -> I (App.showError msg s).
Hypothesis I_resetResults : forall s, I s -> I (App.resetResults s).
Hypothesis I_resetUI : forall s, I s -> I (App.resetUI s).
Hypothesis I_start : forall b s, I s -> I (App.set_currentBarcode b (App.setLookupState true s)).
Hypothesis I_resume : forall r s, I (App.performLookup_resume H r s).

Lemma performLookup_keeps (s : App.app) :
  I s ->
  I (fst (App.performLookup H s)) /\
  match snd (App.performLookup H s) with
  | Some x => forall r s', I (snd x r s')
  | None => True
  end.
Proof.
  intros Hs. unfold App.performLookup. cbv zeta.
  destruct (trim (App.barcodeInput_value s)) as [|c b].
  - cbn [fst snd]. split; [|exact Logic.I]. apply I_focus, I_showError, Hs.
  - destruct (Config.isValidBarcode (c :: b)); cbn [negb].
    + destruct (App.isLookingUp s).
      * cbn [fst snd]. split; [exact Hs|exact Logic.I].
      * cbn [App.getCardBalance fst snd]. split; [apply I_start, Hs|].
        intros r s'. cbn [snd]. apply I_resume.
    + cbn [fst snd]. split; [|exact Logic.I]. apply I_focus, I_showError, Hs.
Qed.

Lemma handleBarcodeInput_keeps (s : App.app) : I s -> I (App.handleBarcodeInput s).
Proof.
  intros Hs. unfold App.handleBarcodeInput. cbv zeta.
  set (d := replace_all_empty (RClass is_non_digit) (App.barcodeInput_value s)).
  set (s1 := if jsstring_eqb d (App.barcodeInput_value s) then s
             else App.set_barcodeInput_value d s).
  assert (H1 : I s1) by (subst s1; destruct (jsstring_eqb _ _); [exact Hs|apply I_value, Hs]).
  clearbody s1.
  set (s2 := if (16 <? length d)%nat
             then App.set_barcodeInput_value (substring0 16 d) s1 else s1).
  assert (H2 : I s2) by (subst s2; destruct (_ <? _)%nat; [apply I_value, H1|exact H1]).
  clearbody s2.
  set (s3 := match App.currentBarcode s2 with
             | Some b => if jsstring_eqb b (App.barcodeInput_value s2) then s2
                         else App.resetResults s2
             | None => App.resetResults s2
             end).
  assert (H3 : I s3).
  { subst s3. destruct (App.currentBarcode s2) as [b|];
      [destruct (jsstring_eqb b _)|]; try exact H2; apply I_resetResults, H2. }
  clearbody s3.
  destruct (_ =? _)%nat; [apply I_timeouts, H3|exact H3].
Qed.

Lemma started_keeps (p : App.page)
    (r : App.app * option (App.request * (completion App.response -> App.app -> App.app))) :
  (I (App.controller p) /\ Forall (fun x => forall r s', I (snd x r s')) (App.in_flight p)) ->
  I (fst r) ->
  match snd r with Some x => forall r' s', I (snd x r' s') | None => True end ->
  (I (App.controller (App.started p r)) /\ Forall (fun x => forall r s', I (snd x r s')) (App.in_flight (App.started p r))).
Proof.
  intros [Hc Hf] Hr Hx. unfold App.started. split; cbn [App.controller App.in_flight].
  - exact Hr.
  - destruct (snd r) as [x|]; [|exact Hf].
    apply Forall_app. split; [exact Hf|]. apply List.Forall_cons; [exact Hx|apply List.Forall_nil].
Qed.

Lemma step_keeps (e : App.event) (p : App.page) :
  (I (App.controller p) /\ Forall (fun x => forall r s', I (snd x r s')) (App.in_flight p)) ->
  (I (App.controller (App.step H e p)) /\ Forall (fun x => forall r s', I (snd x r s')) (App.in_flight (App.step H e p))).
Proof.
  intros Hp. pose proof Hp as [Hc Hf]. destruct e as [|v|barcode error|d t|settled];
    cbn [App.step].
  - apply started_keeps; [exact Hp|..]; apply performLookup_keeps; exact Hc.
  - destruct (App.barcodeInput_disabled (App.controller p)); [exact Hp|].
    apply started_keeps; [exact Hp| |exact Logic.I].
    cbn [fst]. apply handleBarcodeInput_keeps, I_value, Hc.
  - unfold App.scanComplete.
    destruct error as [[|c e]|]; destruct barcode as [[|c' b]|];
      try (apply started_keeps; [exact Hp|exact Hc|exact Logic.I]);
      try (apply started_keeps; [exact Hp|apply I_showError, Hc|exact Logic.I]);
      (apply started_keeps; [exact Hp|..]; apply performLookup_keeps; apply I_value, Hc).
  - destruct (App.remove_timeout d t (App.timeouts (App.controller p))) as [rest|];
      [|exact Hp].
    pose proof (I_timeouts rest _ Hc) as Hr.
    destruct t; cbn [App.fire].
    + apply started_keeps; [exact Hp|..]; apply performLookup_keeps; exact Hr.
    + apply started_keeps; [exact Hp| |exact Logic.I]. cbn [fst].
      destruct (negb _); [apply I_resetUI, Hr|exact Hr].
    + apply started_keeps; [exact Hp| |exact Logic.I]. cbn [fst].
      apply handleBarcodeInput_keeps, Hr.
  - destruct (App.in_flight p) as [|[req k] rest] eqn:Ef; [rewrite Ef; exact Hp|].
    split; cbn [App.controller App.in_flight].
    + apply (Forall_inv Hf).
    + apply (Forall_inv_tail Hf).
Qed.

Lemma run_keeps (events : list App.event) :
  forall p,
    (I (App.controller p) /\ Forall (fun x => forall r s', I (snd x r s')) (App.in_flight p)) ->
    (I (App.controller (Wiring.run H events p)) /\ Forall (fun x => forall r s', I (snd x r s')) (App.in_flight (Wiring.run H events p))).
Proof.
  unfold Wiring.run. induction events as [|e events IH]; intros p Hp.
  - exact Hp.
  - cbn [fold_left]. apply IH. apply step_keeps. exact Hp.
Qed.

Lemma run_invariant (events : list App.event) (s : App.app) :
  I s ->
  I (App.controller
       (Wiring.run H events {| App.controller := s; App.in_flight := [] |})).
Proof.
  intros Hs. apply run_keeps. split; [exact Hs|apply List.Forall_nil].
Qed.

End Invariant.

(** X16. Through every sequence of events on the page, the lookup button,
    the scan button and the barcode field are disabled exactly while the
    lookup flag is up. *)
Theorem controls_disabled_while_looking_up
    (H : host) (events : list App.event) (s : App.app) :
  Wiring.controls_follow_flag s ->
  Wiring.controls_follow_flag
    (App.controller
       (Wiring.run H events {| App.controller := s; App.in_flight := [] |})).
Proof.
  apply (run_invariant H Wiring.controls_follow_flag); unfold Wiring.controls_follow_flag.
  - intros v x Hx. exact Hx.
  - intros l x Hx. exact Hx.
  - intros x Hx. unfold App.focus. case (App.barcodeInput_disabled x); exact Hx.
  - intros msg x Hx. exact Hx.
  - intros x Hx. exact Hx.
  - intros x _. split_all; reflexivity.
  - intros b x _. split_all; reflexivity.
  - intros r x. unfold App.performLookup_resume. split_all; reflexivity.
Qed.

Lemma controls_disabled_while_looking_up_witness :
  Wiring.controls_follow_flag
    (App.controller
       (Wiring.run Sample.engine
          [App.Edit (str "1234567890123456"); App.Fire 500 App.AutoLookup;
           App.Settle (Throw {| error_name := str "TypeError";
                                message := str "Failed to fetch" |})]
          {| App.controller := Sample.idle; App.in_flight := [] |})).
Proof.
  apply (controls_disabled_while_looking_up Sample.engine).
  unfold Wiring.controls_follow_flag. split_all; reflexivity.
Defined.

(** X17. Through every sequence of events on the page, at most one of the
    loading, error and success sections is visible. *)
Theorem one_section_at_a_time
    (H : host) (events : list App.event) (s : App.app) :
  Wiring.at_most_one_section s ->
  Wiring.at_most_one_section
    (App.controller
       (Wiring.run H events {| App.controller := s; App.in_flight := [] |})).
Proof.
  apply (run_invariant H Wiring.at_most_one_section); unfold Wiring.at_most_one_section.
  - intros v x Hx. exact Hx.
  - intros l x Hx. exact Hx.
  - intros x Hx. unfold App.focus. case (App.barcodeInput_disabled x); exact Hx.
  - intros msg x _. right. left. split; reflexivity.
  - intros x _. left. split; reflexivity.
  - intros x _. left. split; reflexivity.
  - intros b x _. right. right. split; reflexivity.
  - intros r x.
    destruct (performLookup_resume_outcome H r x) as (_ & _ & _ & _ & L & E & _).
    rewrite L, E.
    destruct (App.successSection_hidden (App.performLookup_resume H r x));
      [right; left; split; reflexivity|left; split; reflexivity].
Qed.

Lemma one_section_at_a_time_witness :
  Wiring.at_most_one_section
    (App.controller
       (Wiring.run Sample.engine
          [App.Edit (str "1234567890123456"); App.Fire 500 App.AutoLookup;
           App.Settle (Throw {| error_name := str "TypeError";
                                message := str "Failed to fetch" |})]
          {| App.controller := Sample.idle; App.in_flight := [] |})).
Proof.
  apply (one_section_at_a_time Sample.engine).
  unfold Wiring.at_most_one_section. left. split; reflexivity.
Defined.


(** ** The auto-hide timer *)

Lemma resetUI_fields (s : App.app) :
  let s' := App.resetUI s in
  (App.errorSection_hidden s' = true /\
   App.loadingSection_hidden s' = true /\
   App.successSection_hidden s' = true) /\
  (App.isLookingUp s' = false /\
   App.barcodeInput_disabled s' = false /\
   App.scanButton_disabled s' = false /\
   App.lookupButton_disabled s' = false) /\
  App.currentBarcode s' = None /\
  App.barcodeInput_value s' = App.barcodeInput_value s /\
  App.errorMessage s' = App.errorMessage s.
Proof. cbv zeta. split_all; reflexivity. Qed.

(** X18. When the auto-hide timer of an error fires while the error is
    visible, all sections are hidden, the flag is lowered, the controls
    are enabled and the looked-up barcode is forgotten; the field keeps
    its value and the message node its text.  A further auto-hide timer
    then changes nothing. *)
Theorem error_auto_hide (H : host) (msg : jsstring) (s : App.app) :
  let s1 := App.showError msg s in
  let s2 := fst (App.fire H App.AutoHideError s1) in
  (App.errorSection_hidden s2 = true /\
   App.loadingSection_hidden s2 = true /\
   App.successSection_hidden s2 = true) /\
  (App.isLookingUp s2 = false /\
   App.barcodeInput_disabled s2 = false /\
   App.scanButton_disabled s2 = false /\
   App.lookupButton_disabled s2 = false) /\
  App.currentBarcode s2 = None /\
  App.barcodeInput_value s2 = App.barcodeInput_value s /\
  App.errorMessage s2 = App.set_text msg (App.errorMessage s) /\
  snd (App.fire H App.AutoHideError s1) = None /\
  App.fire H App.AutoHideError s2 = (s2, None).
Proof.
  cbv zeta.
  assert (E : App.fire H App.AutoHideError (App.showError msg s) =
              (App.resetUI (App.showError msg s), None)).
  { unfold App.fire.
    destruct (showError_fields msg s) as (_ & -> & _). reflexivity. }
  rewrite E. cbn [fst snd].
  destruct (resetUI_fields (App.showError msg s))
    as ((A1 & A2 & A3) & (B1 & B2 & B3 & B4) & C & D & F).
  destruct (showError_fields msg s) as (M & _ & _ & _ & _ & V & _).
  split_all.
  - exact A1.
  - exact A2.
  - exact A3.
  - exact B1.
  - exact B2.
  - exact B3.
  - exact B4.
  - exact C.
  - rewrite D. exact V.
  - rewrite F. exact M.
  - reflexivity.
  - unfold App.fire. rewrite A1. reflexivity.
Qed.
Lemma sixteen_digits_cons (code : jsstring) :
  Config.sixteen_digits code -> exists c b, code = c :: b.
Proof.
  intros [Hl _]. destruct code as [|c b]; [discriminate Hl|]. eauto.
Qed.

(** X19. A valid barcode detected while the modal is open reaches the
    page: the scanner runs [stop()], the manager closes the modal (which
    runs [stop()] once more), the field takes the barcode and, no lookup
    being under way, the request for that barcode is sent.  When the
    engine's [stop()] returns, the manager is left as
    [closeScannerModal] leaves it and the scanner is not scanning. *)
Theorem scan_starts_lookup
    (H : host) (code : jsstring) (m : Manager.manager) (s : App.app) :
  Scanner.isScanning (Manager.scanner m) = true ->
  Scanner.onScanResult (Manager.scanner m) = Some Scanner.Manager_handleScanResult ->
  Manager.onScanComplete m = Some Scanner.App_scanComplete ->
  Config.sixteen_digits code ->
  App.isLookingUp s = false ->
  let '(m', call) := Manager.detection code m in
  let '(s', req) := Wiring.deliver H call s in
  m' = Manager.closeScannerModal
         (Session.with_scanner (Scanner.stop (Manager.scanner m)) m) /\
  Manager.modal m' = option_map (fun _ => true) (Manager.modal m) /\
  (Scanner.stop_fails (Manager.scanner m) = false ->
     m' = Manager.closeScannerModal m /\
     Scanner.isScanning (Manager.scanner m') = false) /\
  App.barcodeInput_value s' = code /\
  App.currentBarcode s' = Some code /\
  App.isLookingUp s' = true /\
  App.loadingSection_hidden s' = false /\
  exists k, req = Some (fst (App.getCardBalance H code), k).
Proof.
  intros Ha Hr Hc Hd Hl.
  assert (Ec' : Scanner.stop_fails (Manager.scanner m) = false ->
                Manager.closeScannerModal
                  (Session.with_scanner (Scanner.stop (Manager.scanner m)) m) =
                Manager.closeScannerModal m).
  { intros Hs. pose proof (detection_closes_modal m code Ha Hr Hd Hs) as E.
    rewrite (detection_valid m code Ha Hr Hd) in E.
    apply (f_equal fst) in E. exact E. }
  rewrite (detection_valid m code Ha Hr Hd). rewrite Hc.
  cbn [option_map Wiring.deliver].
  destruct (sixteen_digits_cons code Hd) as (c & b & Ec).
  assert (Es : App.scanComplete H (Some code) None s =
               App.performLookup H (App.set_barcodeInput_value code s))
    by (rewrite Ec; reflexivity).
  rewrite Es.
  assert (Et : trim (App.barcodeInput_value (App.set_barcodeInput_value code s)) = code)
    by (apply trim_digits; apply Hd).
  destruct (performLookup_start H (App.set_barcodeInput_value code s))
    as (k & E & _ & F2 & _ & _ & _ & _ & _ & F8 & _ & _ & F11 & _).
  - rewrite Et. exact Hd.
  - exact Hl.
  - rewrite Et in E, F2. rewrite E in F8, F11 |- *. cbn [fst] in F8, F11.
    split_all.
    + reflexivity.
    + cbn [Manager.closeScannerModal Manager.modal Session.with_scanner].
      destruct (Manager.modal m); reflexivity.
    + intros Hs. rewrite (Ec' Hs). split; [reflexivity|].
      apply (stop_isScanning _ Hs).
    + exact F11.
    + reflexivity.
    + reflexivity.
    + exact F8.
    + exists k. reflexivity.
Qed.

Lemma scan_starts_lookup_witness :
  App.barcodeInput_value
    (fst (Wiring.deliver Sample.engine
            (snd (Manager.detection (str "1234567890123456") Sample.modal_open))
            Sample.idle)) = str "1234567890123456" /\
  Scanner.isScanning
    (Manager.scanner (fst (Manager.detection (str "1234567890123456") Sample.modal_open)))
    = false.
Proof.
  pose proof (scan_starts_lookup Sample.engine (str "1234567890123456")
                Sample.modal_open Sample.idle eq_refl eq_refl eq_refl) as W.
  destruct (Manager.detection (str "1234567890123456") Sample.modal_open) as [m' call].
  cbn [fst snd].
  destruct (Wiring.deliver Sample.engine call Sample.idle) as [s' req].
  destruct W as (_ & _ & W2 & W & _).
  - apply isValidBarcode_spec. vm_compute. reflexivity.
  - reflexivity.
  - split; [exact W|]. destruct (W2 eq_refl) as (_ & W3). exact W3.
Defined.

Lemma detection_invalid (m : Manager.manager) (code : jsstring) :
  ~ Config.sixteen_digits code -> Manager.detection code m = (m, None).
Proof.
  intros Hn.
  assert (Hv : Config.isValidBarcode code = false).
  { apply not_true_is_false. intros Hv. apply Hn. apply isValidBarcode_spec. exact Hv. }
  unfold Manager.detection, Scanner.handleDetection. rewrite Hv.
  destruct (negb (Scanner.isScanning (Manager.scanner m)));
    cbn [Manager.deliver]; destruct m; reflexivity.
Qed.

Lemma detection_inactive (m : Manager.manager) (code : jsstring) :
  Scanner.isScanning (Manager.scanner m) = false -> Manager.detection code m = (m, None).
Proof.
  intros Ha. unfold Manager.detection, Scanner.handleDetection. rewrite Ha.
  cbn [negb Manager.deliver]. destruct m; reflexivity.
Qed.

Lemma detections_inactive (codes : list jsstring) (m : Manager.manager) :
  Scanner.isScanning (Manager.scanner m) = false -> Session.detections codes m = (m, []).
Proof.
  intros Ha. induction codes as [|c rest IH]; [reflexivity|].
  cbn [Session.detections]. rewrite (detection_inactive m c Ha), IH. reflexivity.
Qed.

(** *** A session, event by event *)

Lemma stop_returns_no_fail (m : Manager.manager) :
  Session.stop_returns m -> Scanner.stop_fails (Manager.scanner m) = false.
Proof.
  unfold Session.stop_returns, Scanner.stop_fails, Scanner.stop_throws. intros Hs.
  destruct (Scanner.stop_errors (Scanner.Quagga (Manager.scanner m))) as [|[e|] later].
  - apply andb_false_r.
  - inversion Hs as [|x l Hx Hl]. discriminate Hx.
  - apply andb_false_r.
Qed.

Lemma stop_returns_stop (s : Scanner.scanner) :
  Forall (fun outcome => outcome = None) (Scanner.stop_errors (Scanner.Quagga s)) ->
  Forall (fun outcome => outcome = None)
    (Scanner.stop_errors (Scanner.Quagga (Scanner.stop s))).
Proof.
  intros Hs. unfold Scanner.stop, Scanner.Quagga_stop.
  destruct (Scanner.isScanning s); [|exact Hs].
  destruct (Scanner.stop_errors (Scanner.Quagga s)) as [|[e|] later] eqn:E; cbn.
  - constructor.
  - inversion Hs; assumption.
  - inversion Hs; assumption.
Qed.

Lemma close_ends_session (m : Manager.manager) :
  Session.one_timeout m -> Session.stop_returns m ->
  Session.over (Manager.closeScannerModal m) /\
  Session.one_timeout (Manager.closeScannerModal m) /\
  Session.stop_returns (Manager.closeScannerModal m).
Proof.
  intros Ht Hs.
  assert (E : Manager.timeouts (Manager.closeScannerModal m) = []).
  { unfold Session.one_timeout in Ht.
    unfold Manager.closeScannerModal. cbn [Manager.timeouts].
    destruct (Manager.scanTimeout m) as [t|] eqn:Et.
    - apply clearTimeout_only. intros t' Ht'.
      specialize (Ht t' Ht'). congruence.
    - destruct (Manager.timeouts m) as [|t l]; [reflexivity|].
      discriminate (Ht t (or_introl eq_refl)). }
  split_all.
  - split; [|exact E].
    cbn [Manager.closeScannerModal Manager.scanner].
    apply stop_isScanning. apply stop_returns_no_fail. exact Hs.
  - intros t. rewrite E. intros [].
  - unfold Session.stop_returns. cbn [Manager.closeScannerModal Manager.scanner].
    apply stop_returns_stop. exact Hs.
Qed.

(** One event of a session: the two conditions are kept, an event that
    calls the completion callback ends the session, and once the session
    is over no event calls it. *)
Lemma step_session (e : Session.event) (m : Manager.manager) :
  Session.one_timeout m -> Session.stop_returns m ->
  (Session.one_timeout (fst (Session.step e m)) /\
   Session.stop_returns (fst (Session.step e m))) /\
  (snd (Session.step e m) <> None -> Session.over (fst (Session.step e m))) /\
  (Session.over m ->
   snd (Session.step e m) = None /\ Session.over (fst (Session.step e m))).
Proof.
  intros Ht Hs. destruct e as [code|t|].
  - (* a detection *)
    cbn [Session.step].
    destruct (Scanner.isScanning (Manager.scanner m)) eqn:Ea.
    + assert (Ht1 : Session.one_timeout
                      (Session.with_scanner (Scanner.stop (Manager.scanner m)) m))
        by exact Ht.
      assert (Hs1 : Session.stop_returns
                      (Session.with_scanner (Scanner.stop (Manager.scanner m)) m)).
      { unfold Session.stop_returns.
        cbn [Session.with_scanner Manager.scanner]. apply stop_returns_stop. exact Hs. }
      destruct (close_ends_session _ Ht1 Hs1) as (Co & Ct & Cs).
      assert (Eo : Session.over m -> False).
      { intros [Eo _]. congruence. }
      unfold Manager.detection, Scanner.handleDetection. rewrite Ea. cbn [negb].
      destruct (Config.isValidBarcode code).
      * destruct (stop_keeps_callbacks (Manager.scanner m)) as (-> & _).
        fold (Session.with_scanner (Scanner.stop (Manager.scanner m)) m).
        destruct (Scanner.onScanResult (Manager.scanner m)) as [[| |]|];
          cbn [Manager.deliver Manager.handleScanResult Manager.handleScanError fst snd].
        -- split; [exact (conj Ct Cs)|split; [intros _; exact Co|intros Ho; destruct (Eo Ho)]].
        -- split; [exact (conj Ct Cs)|split; [intros _; exact Co|intros Ho; destruct (Eo Ho)]].
        -- split; [exact (conj Ht1 Hs1)|split; [intros Hn; destruct (Hn eq_refl)|intros Ho; destruct (Eo Ho)]].
        -- split; [exact (conj Ht1 Hs1)|split; [intros Hn; destruct (Hn eq_refl)|intros Ho; destruct (Eo Ho)]].
      * cbn [Manager.deliver fst snd].
        replace {| Manager.scanner := Manager.scanner m; Manager.modal := Manager.modal m;
                   Manager.onScanComplete := Manager.onScanComplete m;
                   Manager.scanTimeout := Manager.scanTimeout m;
                   Manager.timeouts := Manager.timeouts m |} with m
          by (destruct m; reflexivity).
        split; [exact (conj Ht Hs)|split; [intros Hn; destruct (Hn eq_refl)|intros Ho; destruct (Eo Ho)]].
    + rewrite (detection_inactive m code Ea). cbn [fst snd].
      split; [exact (conj Ht Hs)|split; [intros Hn; destruct (Hn eq_refl)|intros Ho; exact (conj eq_refl Ho)]].
  - (* a timeout fires *)
    cbn [Session.step]. unfold Session.timeout_fired.
    destruct (existsb (Pos.eqb t) (Manager.timeouts m)) eqn:Ex.
    + set (m1 := {| Manager.scanner := Manager.scanner m; Manager.modal := Manager.modal m;
                    Manager.onScanComplete := Manager.onScanComplete m;
                    Manager.scanTimeout := Manager.scanTimeout m;
                    Manager.timeouts := Manager.clearTimeout t (Manager.timeouts m) |}).
      assert (Ht1 : Session.one_timeout m1).
      { intros t' Ht'. apply Ht. apply (clearTimeout_subset t). exact Ht'. }
      assert (Hs1 : Session.stop_returns m1) by exact Hs.
      destruct (close_ends_session _ Ht1 Hs1) as (Co & Ct & Cs).
      unfold Manager.handleScanError. cbn [fst snd].
      split; [exact (conj Ct Cs)|split; [intros _; exact Co|]].
      intros [_ Eo]. rewrite Eo in Ex. discriminate Ex.
    + cbn [fst snd].
      split; [exact (conj Ht Hs)|split; [intros Hn; destruct (Hn eq_refl)|intros Ho; exact (conj eq_refl Ho)]].
  - (* the user closes the modal *)
    cbn [Session.step fst snd].
    destruct (close_ends_session _ Ht Hs) as (Co & Ct & Cs).
    split; [exact (conj Ct Cs)|split; [intros Hn; destruct (Hn eq_refl)|intros _; exact (conj eq_refl Co)]].
Qed.

Lemma events_session (es : list Session.event) :
  forall m, Session.one_timeout m -> Session.stop_returns m ->
    (length (snd (Session.events es m)) <= 1)%nat /\
    (Session.over m -> snd (Session.events es m) = []).
Proof.
  induction es as [|e rest IH]; intros m Ht Hs.
  - cbn. split; [lia|reflexivity].
  - cbn [Session.events].
    destruct (step_session e m Ht Hs) as ((Ht1 & Hs1) & Hc & Ho).
    destruct (Session.step e m) as [m1 call]. cbn [fst snd] in Ht1, Hs1, Hc, Ho.
    destruct (IH m1 Ht1 Hs1) as (IH1 & IH2).
    destruct (Session.events rest m1) as [m2 calls]. cbn [snd] in IH1, IH2 |- *.
    split.
    + destruct call as [c|]; cbn [Session.calls_of app length].
      * rewrite IH2; [cbn; lia|]. apply Hc. discriminate.
      * exact IH1.
    + intros Hov. destruct (Ho Hov) as (-> & Hov1). cbn [Session.calls_of app].
      apply IH2. exact Hov1.
Qed.

Lemma events_app (a b : list Session.event) :
  forall m,
    Session.events (a ++ b) m =
      (fst (Session.events b (fst (Session.events a m))),
       snd (Session.events a m) ++ snd (Session.events b (fst (Session.events a m)))).
Proof.
  induction a as [|e a IH]; intros m.
  - cbn [app Session.events fst snd]. destruct (Session.events b m); reflexivity.
  - cbn [app Session.events]. destruct (Session.step e m) as [m1 call].
    rewrite (IH m1). destruct (Session.events a m1) as [m2 calls]. cbn [fst snd].
    rewrite app_assoc. reflexivity.
Qed.

Lemma events_detections (codes : list jsstring) :
  forall m, Session.events (map Session.Detected codes) m = Session.detections codes m.
Proof.
  induction codes as [|c rest IH]; intros m; [reflexivity|].
  cbn [map Session.events Session.detections Session.step].
  destruct (Manager.detection c m) as [m1 call]. rewrite (IH m1). reflexivity.
Qed.

Lemma detections_first_valid
    (m : Manager.manager) (junk rest : list jsstring) (code : jsstring) :
  Scanner.isScanning (Manager.scanner m) = true ->
  Scanner.onScanResult (Manager.scanner m) = Some Scanner.Manager_handleScanResult ->
  Forall (fun c => ~ Config.sixteen_digits c) junk ->
  Config.sixteen_digits code ->
  Scanner.stop_fails (Manager.scanner m) = false ->
  Session.detections junk m = (m, []) /\
  Session.detections (junk ++ code :: rest) m =
    (Manager.closeScannerModal m,
     Session.calls_of
       (option_map
          (fun f => {| Manager.callee := f; Manager.barcode_arg := Some code;
                       Manager.error_arg := None |})
          (Manager.onScanComplete m))).
Proof.
  intros Ha Hr Hj Hd Hs. induction Hj as [|c junk Hc _ IH].
  - split; [reflexivity|]. cbn [app Session.detections].
    rewrite (detection_closes_modal m code Ha Hr Hd Hs).
    rewrite detections_inactive by (apply (stop_isScanning _ Hs)).
    rewrite app_nil_r. reflexivity.
  - destruct IH as [IH1 IH2]. split.
    + cbn [Session.detections]. rewrite (detection_invalid m c Hc), IH1. reflexivity.
    + cbn [app Session.detections]. rewrite (detection_invalid m c Hc), IH2. reflexivity.
Qed.

(** X20. Take a session in which every timeout still pending is the one
    recorded in [scanTimeout] and the engine's [stop()] does not throw.
    Then any sequence of detections, timeouts firing and closings of the
    modal calls the completion callback at most once.  Detections that
    are not 16 digits change nothing; the first valid one closes the
    modal and calls the completion callback with it, and whatever
    happens afterwards (further detections, the timeout, a close) calls
    it no more. *)
Theorem first_valid_code_wins
    (m : Manager.manager) (junk rest : list jsstring) (code : jsstring)
    (es later : list Session.event) :
  Session.one_timeout m ->
  Session.stop_returns m ->
  (length (snd (Session.events es m)) <= 1)%nat /\
  (Scanner.isScanning (Manager.scanner m) = true ->
   Scanner.onScanResult (Manager.scanner m) = Some Scanner.Manager_handleScanResult ->
   Forall (fun c => ~ Config.sixteen_digits c) junk ->
   Config.sixteen_digits code ->
   let call :=
     Session.calls_of
       (option_map
          (fun f => {| Manager.callee := f; Manager.barcode_arg := Some code;
                       Manager.error_arg := None |})
          (Manager.onScanComplete m)) in
   Session.detections junk m = (m, []) /\
   Session.detections (junk ++ code :: rest) m = (Manager.closeScannerModal m, call) /\
   snd (Session.events (map Session.Detected (junk ++ [code]) ++ later) m) = call).
Proof.
  intros Ht Hs. split; [apply (events_session es m Ht Hs)|].
  intros Ha Hr Hj Hd call.
  pose proof (stop_returns_no_fail m Hs) as Hf.
  destruct (detections_first_valid m junk rest code Ha Hr Hj Hd Hf) as (E1 & E2).
  destruct (detections_first_valid m junk [] code Ha Hr Hj Hd Hf) as (_ & E3).
  split_all.
  - exact E1.
  - exact E2.
  - rewrite events_app, events_detections, E3. cbn [fst snd].
    destruct (close_ends_session m Ht Hs) as (Co & Ct & Cs).
    destruct (events_session later _ Ct Cs) as (_ & E4).
    rewrite (E4 Co). apply app_nil_r.
Qed.

Lemma first_valid_code_wins_witness :
  (length
     (snd (Session.events
             [Session.Detected (str "12345"); Session.TimedOut 7;
              Session.Detected (str "1234567890123456"); Session.Closed;
              Session.TimedOut 7]
             Sample.modal_open)) <= 1)%nat /\
  snd (Session.events
         (map Session.Detected
            ([str "4006381333931"; str "12345"] ++ [str "1234567890123456"]) ++
          [Session.Detected (str "6543210987654321"); Session.TimedOut 7;
           Session.Closed])
         Sample.modal_open) =
  [{| Manager.callee := Scanner.App_scanComplete;
      Manager.barcode_arg := Some (str "1234567890123456");
      Manager.error_arg := None |}].
Proof.
  destruct (first_valid_code_wins Sample.modal_open
              [str "4006381333931"; str "12345"] [str "6543210987654321"]
              (str "1234567890123456")
              [Session.Detected (str "12345"); Session.TimedOut 7;
               Session.Detected (str "1234567890123456"); Session.Closed;
               Session.TimedOut 7]
              [Session.Detected (str "6543210987654321"); Session.TimedOut 7;
               Session.Closed]) as (W1 & W2).
  - intros t [<-|[]]. reflexivity.
  - apply List.Forall_nil.
  - split; [exact W1|].
    destruct W2 as (_ & _ & W).
    + reflexivity.
    + reflexivity.
    + repeat (apply List.Forall_cons;
              [intros [Hl _]; vm_compute in Hl; discriminate Hl|]).
      apply List.Forall_nil.
    + apply isValidBarcode_spec. vm_compute. reflexivity.
    + exact W.
Defined.



(** ** The flashlight *)




(** X22. A camera for which [isFlashSupported] holds always lets
    [toggleFlash] go on.  A toggle that is refused, for lack of a track,
    of [getCapabilities] or of a torch, throws "Flash not supported on
    this device" and leaves flag and button alone.  When the constraint
    is rejected, the flag stays flipped and the button keeps its old
    look, which no longer matches the flag. *)
Theorem flash_toggle_failures
    (cam : Flash.camera) (e : error) (s : Scanner.scanner) (b : Flash.button) :
  let shown := Flash.updateFlashButton None s (Some b) in
  (Flash.isFlashSupported cam = true ->
     exists s',
       Flash.toggleFlash cam s = (s', inr (negb (Scanner.flashEnabled s))) /\
       Scanner.flashEnabled s' = negb (Scanner.flashEnabled s)) /\
  (forall e', snd (Flash.toggleFlash cam s) = inl e' ->
     Flash.manager_toggleFlash cam s shown = (s, shown, None)) /\
  (cam = Return None \/ cam = Return (Some {| Flash.torch := None |}) \/
   (exists t, cam = Return (Some {| Flash.torch := Some t |}) /\ truthy t = false) ->
     Flash.toggleFlash cam s =
       (s, inl {| error_name := str "Error";
                  message := str "Flash not supported on this device" |})) /\
  (forall s1 requested,
     Flash.manager_toggleFlash cam s shown = (s1, shown, Some requested) ->
     Scanner.flashEnabled s1 = negb (Scanner.flashEnabled s) /\
     Flash.manager_toggleFlash_resume (Throw e) s1 shown = shown /\
     shown <> Flash.updateFlashButton None s1 (Some b)).
Proof.
  cbv zeta. split_all.
  - unfold Flash.isFlashSupported, Flash.toggleFlash.
    destruct cam as [[[[[| |[|]| | | |]|]]|]|e0]; try discriminate.
    intros _. cbn [truthy]. eexists. split; reflexivity.
  - unfold Flash.manager_toggleFlash, Flash.toggleFlash.
    destruct cam as [[[[t|]]|]|e0]; try reflexivity.
    destruct (truthy t); [discriminate|reflexivity].
  - unfold Flash.toggleFlash.
    intros [->|[->|(t & -> & Ht)]]; try reflexivity.
    rewrite Ht. reflexivity.
  - intros s1 requested. unfold Flash.manager_toggleFlash, Flash.toggleFlash.
    destruct cam as [[[[t|]]|]|e0]; try discriminate.
    destruct (truthy t); [|discriminate].
    intros [= <- _]. cbn [Scanner.flashEnabled Flash.manager_toggleFlash_resume
                          Flash.toggleFlash_resume].
    split_all; try reflexivity.
    intros E.
    apply (f_equal (fun o => match o with
                             | Some x => Flash.background x
                             | None => []
                             end)) in E.
    cbn [Flash.updateFlashButton Flash.isFlashEnabled Scanner.flashEnabled
         Flash.background] in E.
    unfold Flash.isFlashEnabled in E. cbn [Scanner.flashEnabled] in E.
    revert E. destruct (Scanner.flashEnabled s); intros E; vm_compute in E; discriminate E.
Qed.

Lemma flash_toggle_failures_witness :
  Flash.toggleFlash (Return (Some {| Flash.torch := Some (JBool false) |})) Sample.scanning =
    (Sample.scanning,
     inl {| error_name := str "Error";
            message := str "Flash not supported on this device" |}).
Proof.
  destruct (flash_toggle_failures
              (Return (Some {| Flash.torch := Some (JBool false) |}))
              {| error_name := []; message := [] |} Sample.scanning Fixture.flash_off)
    as (_ & _ & W & _).
  apply W. right. right. exists (JBool false). split; reflexivity.
Defined.

(** ** Start-up *)

Lemma find_first_missing (present : jsstring -> bool) (l : list jsstring) :
  match List.find (fun name => negb (present name)) l with
  | None => Forall (fun id => present id = true) l
  | Some name =>
      exists before after,
        l = before ++ name :: after /\
        Forall (fun id => present id = true) before /\
        present name = false
  end.
Proof.
  induction l as [|x l IH]; [apply List.Forall_nil|].
  cbn [List.find]. destruct (present x) eqn:Ex; cbn [negb].
  - destruct (List.find (fun name => negb (present name)) l) as [name|].
    + destruct IH as (before & after & -> & Hb & Hn).
      exists (x :: before), after. split; [reflexivity|].
      split; [apply List.Forall_cons; assumption|exact Hn].
    + apply List.Forall_cons; assumption.
  - exists [], l. split; [reflexivity|]. split; [apply List.Forall_nil|exact Ex].
Qed.

Lemma find_first_missing_at (present : jsstring -> bool) (before : list jsstring) :
  forall l name after,
    l = before ++ name :: after ->
    Forall (fun id => present id = true) before ->
    present name = false ->
    List.find (fun name => negb (present name)) l = Some name.
Proof.
  induction before as [|x before IH]; intros l name after -> Hb Hn.
  - cbn [app List.find]. rewrite Hn. reflexivity.
  - cbn [app List.find]. rewrite (Forall_inv Hb). cbn [negb].
    apply (IH _ name after eq_refl (Forall_inv_tail Hb) Hn).
Qed.

Lemma required_not_authentication :
  Forall
    (fun name =>
       Wiring.includes (str "Authentication failed")
         (str "Required element not found: " ++ name) = false)
    Wiring.requiredElements.
Proof.
  repeat (apply List.Forall_cons; [vm_compute; reflexivity|]). apply List.Forall_nil.
Qed.

Lemma initialize_first_missing (present : jsstring -> bool) (name : jsstring) :
  List.find (fun name => negb (present name)) Wiring.requiredElements = Some name ->
  Wiring.initialize present =
    if Wiring.sections_bound present
    then Wiring.Banner
           (if present (str "errorMessage")
            then Some (str "Failed to initialize application: "
                       ++ str "Required element not found: " ++ name)
            else None)
    else Wiring.Alert
           (str "Failed to initialize application. Please refresh the page and try again.").
Proof.
  intros Ef. unfold Wiring.initialize, Wiring.initializeDOMReferences. rewrite Ef.
  cbn [message].
  assert (Ea : Wiring.includes (str "Authentication failed")
                 (str "Required element not found: " ++ name) = false).
  { pose proof required_not_authentication as F.
    rewrite List.Forall_forall in F. apply F.
    apply (find_some _ _ Ef). }
  rewrite Ea. reflexivity.
Qed.

Lemma sections_are_required (present : jsstring -> bool) :
  Forall (fun id => present id = true) Wiring.requiredElements ->
  Wiring.sections_bound present = true.
Proof.
  intros F. rewrite List.Forall_forall in F. unfold Wiring.sections_bound.
  rewrite (F (str "loadingSection")), (F (str "errorSection")),
    (F (str "successSection")).
  - reflexivity.
  - do 5 right. left. reflexivity.
  - do 4 right. left. reflexivity.
  - do 3 right. left. reflexivity.
Qed.

(** X23. Start-up ends with the controller ready exactly when the six
    required elements are on the page.  Otherwise take the first of them,
    in the order of the list, that is missing.  If the three sections
    exist, the error section is shown and, on a page that has the
    [errorMessage] node, its text is "Failed to initialize application:
    Required element not found: " followed by the name of that first
    missing element; without that node no text is written.  If one of
    the sections is missing, showing the error throws and the page falls
    back to an alert. *)
Theorem startup_outcome (present : jsstring -> bool) :
  let alert :=
    Wiring.Alert
      (str "Failed to initialize application. Please refresh the page and try again.") in
  let banner name :=
    Wiring.Banner
      (if present (str "errorMessage")
       then Some (str "Failed to initialize application: "
                  ++ str "Required element not found: " ++ name)
       else None) in
  (Wiring.initialize present = Wiring.Ready <->
   Forall (fun id => present id = true) Wiring.requiredElements) /\
  (forall before name after,
     Wiring.requiredElements = before ++ name :: after ->
     Forall (fun id => present id = true) before ->
     present name = false ->
     Wiring.initialize present =
       if Wiring.sections_bound present then banner name else alert) /\
  (forall text, Wiring.initialize present = Wiring.Banner text ->
     Wiring.sections_bound present = true /\
     exists before name after,
       Wiring.requiredElements = before ++ name :: after /\
       Forall (fun id => present id = true) before /\
       present name = false /\
       Wiring.Banner text = banner name) /\
  (forall msg, Wiring.initialize present = Wiring.Alert msg ->
     Wiring.sections_bound present = false /\ Wiring.Alert msg = alert) /\
  (Wiring.sections_bound present = false -> Wiring.initialize present = alert).
Proof.
  intros alert banner.
  pose proof (find_first_missing present Wiring.requiredElements) as F.
  pose proof (initialize_first_missing present) as I.
  destruct (List.find (fun name => negb (present name)) Wiring.requiredElements)
    as [missing|] eqn:Ef.
  - destruct F as (before & after & Er & Hb & Hn).
    specialize (I missing eq_refl). fold (banner missing) in I. fold alert in I.
    assert (Hnot : ~ Forall (fun id => present id = true) Wiring.requiredElements).
    { intros Hall. rewrite List.Forall_forall in Hall.
      rewrite (Hall missing) in Hn; [discriminate Hn|].
      rewrite Er. apply in_elt. }
    split_all.
    + split.
      * rewrite I. destruct (Wiring.sections_bound present); discriminate.
      * intros Hall. destruct (Hnot Hall).
    + intros before' name' after' Er' Hb' Hn'.
      pose proof (find_first_missing_at present before' _ name' after' Er' Hb' Hn') as Ef'.
      rewrite Ef in Ef'. injection Ef' as <-. exact I.
    + intros text Et. rewrite I in Et.
      destruct (Wiring.sections_bound present); [|discriminate Et].
      split; [reflexivity|].
      exists before, missing, after.
      split; [exact Er|]. split; [exact Hb|]. split; [exact Hn|].
      symmetry. exact Et.
    + intros msg Et. rewrite I in Et.
      destruct (Wiring.sections_bound present); [discriminate Et|].
      split; [reflexivity|]. symmetry. exact Et.
    + intros Es. rewrite I, Es. reflexivity.
  - assert (Er : Wiring.initialize present = Wiring.Ready).
    { unfold Wiring.initialize, Wiring.initializeDOMReferences. rewrite Ef. reflexivity. }
    split_all.
    + split; [intros _; exact F|intros _; exact Er].
    + intros before' name' after' Er' Hb' Hn'.
      pose proof (find_first_missing_at present before' _ name' after' Er' Hb' Hn') as Ef'.
      rewrite Ef in Ef'. discriminate Ef'.
    + intros text Et. rewrite Er in Et. discriminate Et.
    + intros msg Et. rewrite Er in Et. discriminate Et.
    + intros Es. rewrite (sections_are_required present F) in Es. discriminate Es.
Qed.

Lemma startup_outcome_witness :
  Wiring.initialize Fixture.full_page = Wiring.Ready /\
  Wiring.initialize Fixture.no_buttons =
    Wiring.Banner (Some (str "Failed to initialize application: "
                         ++ str "Required element not found: " ++ str "scanButton")) /\
  Wiring.initialize Fixture.no_message_node = Wiring.Banner None.
Proof.
  split_all.
  - apply (startup_outcome Fixture.full_page).
    repeat (apply List.Forall_cons; [reflexivity|]). apply List.Forall_nil.
  - destruct (startup_outcome Fixture.no_buttons) as (_ & W & _).
    specialize (W [str "barcodeInput"] (str "scanButton")
                  [str "lookupButton"; str "loadingSection"; str "errorSection";
                   str "successSection"] eq_refl).
    replace (Wiring.sections_bound Fixture.no_buttons) with true in W
      by (vm_compute; reflexivity).
    replace (Fixture.no_buttons (str "errorMessage")) with true in W
      by (vm_compute; reflexivity).
    apply W.
    + apply List.Forall_cons; [vm_compute; reflexivity|apply List.Forall_nil].
    + vm_compute. reflexivity.
  - destruct (startup_outcome Fixture.no_message_node) as (_ & W & _).
    specialize (W [str "barcodeInput"] (str "scanButton")
                  [str "lookupButton"; str "loadingSection"; str "errorSection";
                   str "successSection"] eq_refl).
    replace (Wiring.sections_bound Fixture.no_message_node) with true in W
      by (vm_compute; reflexivity).
    replace (Fixture.no_message_node (str "errorMessage")) with false in W
      by (vm_compute; reflexivity).
    apply W.
    + apply List.Forall_cons; [vm_compute; reflexivity|apply List.Forall_nil].
    + vm_compute. reflexivity.
Defined.


(** ** Opening twice *)

Lemma timeout_fired_reports (t : positive) (m : Manager.manager) :
  In t (Manager.timeouts m) ->
  snd (Session.timeout_fired t m) =
    option_map
      (fun f => {| Manager.callee := f; Manager.barcode_arg := None;
                   Manager.error_arg := Some (str "Scan timeout - please try again") |})
      (Manager.onScanComplete m).
Proof.
  intros Hin. unfold Session.timeout_fired.
  assert (E : existsb (Pos.eqb t) (Manager.timeouts m) = true).
  { apply existsb_exists. exists t. split; [exact Hin|apply Pos.eqb_refl]. }
  rewrite E. rewrite handleScanError_reports. reflexivity.
Qed.

(** X24. Opening the scanner a second time without closing it subscribes
    a second detection handler and replaces the recorded timeout handle:
    closing then cancels the second timeout only, the first one stays
    pending and, when it fires, reports a scan timeout to the completion
    callback although the modal is closed. *)
Theorem reopening_orphans_timeout
    (H : host) (f : Scanner.callback) (t1 t2 : positive)
    (m : Manager.manager) (flashButton : option Flash.button) :
  Manager.modal m <> None ->
  ~ In t1 (Manager.timeouts m) ->
  t1 <> t2 ->
  let open t m :=
    fst (fst (Session.engine_ready None t
                (fst (fst (Session.openScannerModal H true (Some f) m))) flashButton)) in
  let m2 := open t2 (open t1 m) in
  let m3 := Manager.closeScannerModal m2 in
  Scanner.detected_handlers (Scanner.Quagga (Manager.scanner m2)) =
    S (S (Scanner.detected_handlers (Scanner.Quagga (Manager.scanner m)))) /\
  Manager.scanTimeout m2 = Some t2 /\
  Manager.modal m3 = Some true /\
  Manager.scanTimeout m3 = None /\
  In t1 (Manager.timeouts m3) /\
  snd (Session.timeout_fired t1 m3) =
    Some {| Manager.callee := f; Manager.barcode_arg := None;
            Manager.error_arg := Some (str "Scan timeout - please try again") |}.
Proof.
  intros Hm Ht Hne. cbv zeta.
  match goal with
  | |- context [Manager.closeScannerModal ?x] => set (m2 := x)
  end.
  assert (F : Scanner.detected_handlers (Scanner.Quagga (Manager.scanner m2)) =
                S (S (Scanner.detected_handlers (Scanner.Quagga (Manager.scanner m)))) /\
              Manager.scanTimeout m2 = Some t2 /\
              Manager.modal m2 = Some false /\
              Manager.onScanComplete m2 = Some f /\
              Manager.timeouts m2 = (Manager.timeouts m ++ [t1]) ++ [t2]).
  { subst m2. unfold Session.openScannerModal. cbn [Manager.modal].
    destruct (Manager.modal m) as [hidden|] eqn:Em; [clear Hm|congruence].
    cbn -[str app]. split_all; reflexivity. }
  clearbody m2. destruct F as (F1 & F2 & F3 & F4 & F5).
  assert (Hin : In t1 (Manager.timeouts (Manager.closeScannerModal m2))).
  { cbn [Manager.closeScannerModal Manager.timeouts]. rewrite F2, F5.
    unfold Manager.clearTimeout. apply List.filter_In. split.
    - apply in_or_app. left. apply in_or_app. right. left. reflexivity.
    - apply negb_true_iff. apply Pos.eqb_neq. exact Hne. }
  split_all.
  - exact F1.
  - exact F2.
  - cbn [Manager.closeScannerModal Manager.modal]. rewrite F3. reflexivity.
  - reflexivity.
  - exact Hin.
  - rewrite (timeout_fired_reports t1 _ Hin).
    cbn [Manager.closeScannerModal Manager.onScanComplete]. rewrite F4. reflexivity.
Qed.

Lemma reopening_orphans_timeout_witness :
  In 3%positive
    (Manager.timeouts
       (Manager.closeScannerModal
          (fst (fst (Session.engine_ready None 4%positive
             (fst (fst (Session.openScannerModal Sample.engine true
                          (Some Scanner.App_scanComplete)
                          (fst (fst (Session.engine_ready None 3%positive
                             (fst (fst (Session.openScannerModal Sample.engine true
                                          (Some Scanner.App_scanComplete) Fixture.closed)))
                             (Some Fixture.flash_off)))))))
             (Some Fixture.flash_off)))))).
Proof.
  destruct (reopening_orphans_timeout Sample.engine Scanner.App_scanComplete
              3%positive 4%positive Fixture.closed (Some Fixture.flash_off))
    as (_ & _ & _ & _ & W & _).
  - discriminate.
  - simpl. tauto.
  - discriminate.
  - exact W.
Defined.



(** ** From a paste to one request *)

Lemma handleBarcodeInput_enabled (s : App.app) :
  App.barcodeInput_disabled s = false /\ App.isLookingUp s = false ->
  App.barcodeInput_disabled (App.handleBarcodeInput s) = false /\
  App.isLookingUp (App.handleBarcodeInput s) = false.
Proof.
  apply (handleBarcodeInput_keeps
           (fun x => App.barcodeInput_disabled x = false /\ App.isLookingUp x = false)).
  - intros v x Hx. exact Hx.
  - intros l x Hx. exact Hx.
  - intros x Hx. exact Hx.
Qed.

(** X25. A text with at least 16 digits pasted into the idle page is
    cleaned by the input event and again by the clean-up of the paste
    handler, which schedules two delayed lookups; the first sends the
    request for the first 16 digits, the second is dropped by the flag, so
    one request is in flight. *)
Theorem paste_sends_one_request (H : host) (v : jsstring) (s : App.app) :
  App.isLookingUp s = false ->
  App.barcodeInput_disabled s = false ->
  App.timeouts s = [] ->
  (16 <= length (List.filter is_digit v))%nat ->
  let code := firstn 16 (List.filter is_digit v) in
  let p :=
    Wiring.run H
      [App.Edit v; App.Fire 0 App.PasteCleanup;
       App.Fire 500 App.AutoLookup; App.Fire 500 App.AutoLookup]
      {| App.controller := App.handleBarcodePaste s; App.in_flight := [] |} in
  (exists k, App.in_flight p = [(fst (App.getCardBalance H code), k)]) /\
  App.barcodeInput_value (App.controller p) = code /\
  App.currentBarcode (App.controller p) = Some code /\
  App.isLookingUp (App.controller p) = true /\
  App.timeouts (App.controller p) = [].
Proof.
  intros Hl Hd Ht Hv. cbv zeta.
  set (code := firstn 16 (List.filter is_digit v)).
  assert (Hlen : length code = 16%nat) by (subst code; rewrite length_firstn; lia).
  assert (Hdig : Forall (fun c => (48 <= c <= 57)%N) code)
    by (subst code; apply firstn_Forall, filter_digits_Forall).
  assert (Hsd : Config.sixteen_digits code) by (split; assumption).
  assert (Hid : firstn 16 (List.filter is_digit code) = code).
  { rewrite (filter_digits_id code Hdig). apply firstn_all2. lia. }
  unfold Wiring.run. cbn [fold_left].
  (* the input event *)
  set (s0 := App.handleBarcodePaste s).
  assert (T0 : App.timeouts s0 = [(0, App.PasteCleanup)])
    by (subst s0; cbn [App.handleBarcodePaste App.set_timeouts App.timeouts];
        rewrite Ht; reflexivity).
  set (s1 := App.handleBarcodeInput (App.set_barcodeInput_value v s0)).
  assert (E1 : App.step H (App.Edit v) {| App.controller := s0; App.in_flight := [] |} =
               {| App.controller := s1; App.in_flight := [] |}).
  { cbn [App.step App.controller].
    change (App.barcodeInput_disabled s0) with (App.barcodeInput_disabled s).
    rewrite Hd. reflexivity. }
  rewrite E1. clear E1.
  assert (V1 : App.barcodeInput_value s1 = code) by (subst s1; apply cleaned_value).
  assert (T1 : App.timeouts s1 = [(0, App.PasteCleanup); (500, App.AutoLookup)]).
  { subst s1. rewrite timeouts_handleBarcodeInput. rewrite cleaned_value.
    cbn [App.set_barcodeInput_value App.barcodeInput_value App.timeouts].
    fold code. rewrite Hlen, T0. reflexivity. }
  assert (F1 : App.barcodeInput_disabled s1 = false /\ App.isLookingUp s1 = false)
    by (subst s1; apply handleBarcodeInput_enabled; split; assumption).
  clearbody s1. clear T0. clearbody s0.
  (* the clean-up of the paste handler *)
  set (s2 := App.handleBarcodeInput (App.set_timeouts [(500, App.AutoLookup)] s1)).
  assert (E2 : App.step H (App.Fire 0 App.PasteCleanup)
                 {| App.controller := s1; App.in_flight := [] |} =
               {| App.controller := s2; App.in_flight := [] |}).
  { cbn [App.step App.controller]. rewrite T1. reflexivity. }
  rewrite E2. clear E2.
  assert (V2 : App.barcodeInput_value s2 = code).
  { subst s2. rewrite cleaned_value.
    cbn [App.set_timeouts App.barcodeInput_value]. rewrite V1. exact Hid. }
  assert (T2 : App.timeouts s2 = [(500, App.AutoLookup); (500, App.AutoLookup)]).
  { subst s2. rewrite timeouts_handleBarcodeInput. rewrite cleaned_value.
    cbn [App.set_timeouts App.barcodeInput_value App.timeouts].
    rewrite V1, Hid, Hlen. reflexivity. }
  assert (F2 : App.barcodeInput_disabled s2 = false /\ App.isLookingUp s2 = false)
    by (subst s2; apply handleBarcodeInput_enabled; exact F1).
  clearbody s2.
  (* the first delayed lookup *)
  set (s2' := App.set_timeouts [(500, App.AutoLookup)] s2).
  assert (Et : trim (App.barcodeInput_value s2') = code)
    by (subst s2'; cbn [App.set_timeouts App.barcodeInput_value];
        rewrite V2; apply trim_digits, Hdig).
  destruct (performLookup_start H s2') as (k & E & _).
  { rewrite Et. exact Hsd. }
  { apply F2. }
  rewrite Et in E.
  set (s3 := App.set_currentBarcode (Some code) (App.setLookupState true s2')) in E.
  assert (E3 : App.step H (App.Fire 500 App.AutoLookup)
                 {| App.controller := s2; App.in_flight := [] |} =
               {| App.controller := s3;
                  App.in_flight := [(fst (App.getCardBalance H code), k)] |}).
  { cbn [App.step App.controller]. rewrite T2.
    cbn [App.remove_timeout Z.eqb Pos.eqb andb]. cbn [App.fire].
    fold s2'. rewrite E. reflexivity. }
  rewrite E3. clear E3.
  (* the second one *)
  assert (E4 : App.step H (App.Fire 500 App.AutoLookup)
                 {| App.controller := s3;
                    App.in_flight := [(fst (App.getCardBalance H code), k)] |} =
               {| App.controller := App.set_timeouts [] s3;
                  App.in_flight := [(fst (App.getCardBalance H code), k)] |}).
  { cbn [App.step App.controller].
    change (App.timeouts s3) with [(500, App.AutoLookup)].
    cbn [App.remove_timeout Z.eqb Pos.eqb andb]. cbn [App.fire].
    rewrite (performLookup_dropped H (App.set_timeouts [] s3)).
    - reflexivity.
    - reflexivity.
    - change (App.barcodeInput_value (App.set_timeouts [] s3))
        with (App.barcodeInput_value s2).
      rewrite V2, (trim_digits code Hdig). exact Hsd. }
  rewrite E4. clear E4. cbn [App.controller App.in_flight].
  split_all.
  - exists k. reflexivity.
  - exact V2.
  - reflexivity.
  - reflexivity.
  - reflexivity.
Qed.

Lemma paste_sends_one_request_witness :
  App.barcodeInput_value
    (App.controller
       (Wiring.run Sample.engine
          [App.Edit (str "1234 5678 9012 3456"); App.Fire 0 App.PasteCleanup;
           App.Fire 500 App.AutoLookup; App.Fire 500 App.AutoLookup]
          {| App.controller := App.handleBarcodePaste Sample.idle;
             App.in_flight := [] |})) = str "1234567890123456".
Proof.
  destruct (paste_sends_one_request Sample.engine (str "1234 5678 9012 3456") Sample.idle)
    as (_ & W & _).
  - reflexivity.
  - reflexivity.
  - reflexivity.
  - vm_compute. lia.
  - rewrite W. vm_compute. reflexivity.
Defined.

(** ** The other triggers *)

(** X26. [clearBarcode] empties the field, hides the sections and forgets
    the looked-up barcode.  On the cleared page a key other than Enter
    does nothing, and Enter and the lookup button both show the error
    section, its text node (on a page that has it) holding "Please enter
    a barcode", without sending a request. *)
Theorem clear_then_enter (H : host) (key : jsstring) (s : App.app) :
  let s0 := Wiring.clearBarcode s in
  (App.barcodeInput_value s0 = [] /\
   App.currentBarcode s0 = None /\
   App.loadingSection_hidden s0 = true /\
   App.errorSection_hidden s0 = true /\
   App.successSection_hidden s0 = true /\
   App.isLookingUp s0 = App.isLookingUp s) /\
  (key <> str "Enter" -> Wiring.handleBarcodeKeypress H key s0 = (s0, None)) /\
  Wiring.handleBarcodeKeypress H (str "Enter") s0 = Wiring.handleLookupButtonClick H s0 /\
  snd (Wiring.handleLookupButtonClick H s0) = None /\
  App.errorMessage (fst (Wiring.handleLookupButtonClick H s0)) =
    App.set_text (str "Please enter a barcode") (App.errorMessage s) /\
  (forall old, App.errorMessage s = Some old ->
     App.errorMessage (fst (Wiring.handleLookupButtonClick H s0)) =
       Some (str "Please enter a barcode")) /\
  App.errorSection_hidden (fst (Wiring.handleLookupButtonClick H s0)) = false.
Proof.
  cbv zeta.
  assert (F : App.barcodeInput_value (Wiring.clearBarcode s) = [] /\
              App.currentBarcode (Wiring.clearBarcode s) = None /\
              App.loadingSection_hidden (Wiring.clearBarcode s) = true /\
              App.errorSection_hidden (Wiring.clearBarcode s) = true /\
              App.successSection_hidden (Wiring.clearBarcode s) = true /\
              App.isLookingUp (Wiring.clearBarcode s) = App.isLookingUp s /\
              App.errorMessage (Wiring.clearBarcode s) = App.errorMessage s).
  { unfold Wiring.clearBarcode, App.focus.
    destruct (App.barcodeInput_disabled _); split_all; reflexivity. }
  destruct F as (F1 & F2 & F3 & F4 & F5 & F6 & F7).
  assert (E : App.performLookup H (Wiring.clearBarcode s) =
              (App.focus (App.showError (str "Please enter a barcode")
                            (Wiring.clearBarcode s)), None)).
  { unfold App.performLookup. cbv zeta. rewrite F1. reflexivity. }
  split_all; try assumption.
  - intros Hk. unfold Wiring.handleBarcodeKeypress.
    rewrite (jsstring_eqb_neq _ _ Hk). reflexivity.
  - unfold Wiring.handleBarcodeKeypress, Wiring.handleLookupButtonClick.
    replace (jsstring_eqb (str "Enter") (str "Enter")) with true
      by (vm_compute; reflexivity).
    reflexivity.
  - unfold Wiring.handleLookupButtonClick. rewrite E. reflexivity.
  - unfold Wiring.handleLookupButtonClick. rewrite E. cbn [fst].
    destruct (focus_fields (App.showError (str "Please enter a barcode")
                              (Wiring.clearBarcode s))) as (_ & -> & _).
    destruct (showError_fields (str "Please enter a barcode") (Wiring.clearBarcode s))
      as (-> & _).
    rewrite F7. reflexivity.
  - intros old Ho. unfold Wiring.handleLookupButtonClick. rewrite E. cbn [fst].
    destruct (focus_fields (App.showError (str "Please enter a barcode")
                              (Wiring.clearBarcode s))) as (_ & -> & _).
    destruct (showError_fields (str "Please enter a barcode") (Wiring.clearBarcode s))
      as (-> & _).
    rewrite F7, Ho. reflexivity.
  - unfold Wiring.handleLookupButtonClick. rewrite E. cbn [fst].
    destruct (focus_fields (App.showError (str "Please enter a barcode")
                              (Wiring.clearBarcode s))) as (_ & _ & -> & _).
    destruct (showError_fields (str "Please enter a barcode") (Wiring.clearBarcode s))
      as (_ & E' & _).
    exact E'.
Qed.

Lemma clear_then_enter_witness :
  let s0 := Wiring.clearBarcode (Sample.typed (str "12345")) in
  Wiring.handleBarcodeKeypress Sample.engine (str "a") s0 = (s0, None) /\
  App.errorMessage (fst (Wiring.handleBarcodeKeypress Sample.engine (str "Enter") s0)) =
    Some (str "Please enter a barcode").
Proof.
  destruct (clear_then_enter Sample.engine (str "a") (Sample.typed (str "12345")))
    as (_ & W1 & W2 & _ & _ & W3 & _).
  cbv zeta. split.
  - apply W1. intros E. vm_compute in E. discriminate E.
  - rewrite W2. exact (W3 [] eq_refl).
Defined.


(** ** Closing before the camera is ready *)

(** X27. If the modal is closed while the engine is still starting, the
    engine's answer starts the scanner all the same: the modal stays
    hidden while the scanner runs and the timeout is set, and a detection
    or the timeout still reaches the completion callback. *)
Theorem closing_before_ready
    (H : host) (f : Scanner.callback) (t : positive) (code : jsstring)
    (m : Manager.manager) (flashButton : option Flash.button) :
  Manager.modal m <> None ->
  Config.sixteen_digits code ->
  let m1 := fst (fst (Session.openScannerModal H true (Some f) m)) in
  let m2 := Manager.closeScannerModal m1 in
  let m3 := fst (fst (Session.engine_ready None t m2 flashButton)) in
  Manager.modal m3 = Some true /\
  Scanner.isScanning (Manager.scanner m3) = true /\
  Scanner.started (Scanner.Quagga (Manager.scanner m3)) = true /\
  Manager.scanTimeout m3 = Some t /\
  In t (Manager.timeouts m3) /\
  snd (Manager.detection code m3) =
    Some {| Manager.callee := f; Manager.barcode_arg := Some code;
            Manager.error_arg := None |} /\
  snd (Session.timeout_fired t m3) =
    Some {| Manager.callee := f; Manager.barcode_arg := None;
            Manager.error_arg := Some (str "Scan timeout - please try again") |}.
Proof.
  intros Hm Hd. cbv zeta.
  match goal with
  | |- context [Manager.modal ?x = Some true] => set (m3 := x)
  end.
  assert (F : Manager.modal m3 = Some true /\
              Scanner.isScanning (Manager.scanner m3) = true /\
              Scanner.started (Scanner.Quagga (Manager.scanner m3)) = true /\
              Manager.scanTimeout m3 = Some t /\
              Scanner.onScanResult (Manager.scanner m3) =
                Some Scanner.Manager_handleScanResult /\
              Manager.onScanComplete m3 = Some f /\
              In t (Manager.timeouts m3)).
  { subst m3. unfold Session.openScannerModal. cbn [Manager.modal].
    destruct (Manager.modal m) as [hidden|] eqn:Em; [clear Hm|congruence].
    cbn -[str app Manager.clearTimeout Scanner.stop In].
    split_all; try reflexivity.
    - match goal with
      | |- Scanner.onScanResult (Scanner.stop ?x) = _ =>
          destruct (stop_keeps_callbacks x) as (-> & _)
      end.
      reflexivity.
    - apply in_or_app. right. left. reflexivity. }
  clearbody m3. destruct F as (F1 & F2 & F3 & F4 & F5 & F6 & F7).
  split_all.
  - exact F1.
  - exact F2.
  - exact F3.
  - exact F4.
  - exact F7.
  - rewrite (detection_valid m3 code F2 F5 Hd). cbn [snd]. rewrite F6. reflexivity.
  - rewrite (timeout_fired_reports t m3 F7). rewrite F6. reflexivity.
Qed.

Lemma closing_before_ready_witness :
  Scanner.isScanning
    (Manager.scanner
       (fst (fst (Session.engine_ready None 3%positive
          (Manager.closeScannerModal
             (fst (fst (Session.openScannerModal Sample.engine true
                          (Some Scanner.App_scanComplete) Fixture.closed))))
          (Some Fixture.flash_off))))) = true.
Proof.
  destruct (closing_before_ready Sample.engine Scanner.App_scanComplete 3%positive
              (str "1234567890123456") Fixture.closed (Some Fixture.flash_off))
    as (_ & W & _).
  - discriminate.
  - apply isValidBarcode_spec. vm_compute. reflexivity.
  - exact W.
Defined.
